(** * Health and diet tools: a shallow embedding of
      [personal_assistant/mcp_tools/health_diet_tools.py]

    The module keeps two process-wide fallback stores ([health_goals], an
    insertion-ordered dict keyed by goal id, and [food_logs], a list) and
    routes each of its five tool functions either to the Supabase manager or
    to those stores, depending on [supabase_manager.is_connected()].

    The development has these parts:
    - [Py]: the fragment of Python's values and built-in operations that the
      tool functions use (dynamic values, binary64 floats, exceptions,
      [str.lower], [str.title], f-string formatting);
    - [Supabase]: the interface of the remote store's manager, whose
      behaviour is left open;
    - [Tools]: the five tool functions, written over a state-and-exception
      monad whose state holds the remote manager, the two fallback stores and
      the environment ([uuid.uuid4], [date.today], [datetime.now]);
    - sample managers and worlds, the vocabulary of the properties, and the
      properties of the tool surface with their proofs. *)

From Stdlib Require Import ZArith Floats DecimalString DecimalPos DecimalZ Ascii String
  List Lia.
From stdpp Require Import base option list gmap strings.
Import ListNotations.

Local Open Scope string_scope.
Local Open Scope Z_scope.

(** ** Python values and built-ins *)

Module Py.

(** The scalar values that flow through the tool functions: arguments
    ([str], [float], [int], [None]) and the column values of the rows that
    the remote store returns. *)
Inductive PyVal : Type :=
  | VNone
  | VBool (b : bool)
  | VInt (z : Z)
  | VFloat (f : float)
  | VStr (s : string).

(** Exceptions, by class; [exn_str] is Python's [str(e)]. [RemoteError] stands
    for whatever the Supabase client raises, with its message. *)
Inductive exn : Type :=
  | TypeError (msg : string)
  | KeyError (key : string)
  | AttributeError (msg : string)
  | ValueError (msg : string)
  | ZeroDivisionError (msg : string)
  | OverflowError (msg : string)
  | RemoteError (msg : string).

Definition exn_str (e : exn) : string :=
  match e with
  | KeyError k => "'" ++ k ++ "'"
  | TypeError m | AttributeError m | ValueError m
  | ZeroDivisionError m | OverflowError m | RemoteError m => m
  end.

(** The outcome of evaluating an expression: a value or a raised exception. *)
Inductive Res (A : Type) : Type :=
  | Ok (a : A)
  | Raise (e : exn).
Arguments Ok {A} a.
Arguments Raise {A} e.

#[export] Instance Res_ret : MRet Res := fun _ a => Ok a.
#[export] Instance Res_bind : MBind Res := fun _ _ f r =>
  match r with
  | Ok a => f a
  | Raise e => Raise e
  end.

Definition nl : string := String (ascii_of_nat 10) EmptyString.

(** [type(v).__name__], as it appears in error messages. *)
Definition type_name (v : PyVal) : string :=
  match v with
  | VNone => "NoneType"
  | VBool _ => "bool"
  | VInt _ => "int"
  | VFloat _ => "float"
  | VStr _ => "str"
  end.

(** *** Strings: [str.lower] and [str.title] on ASCII text *)

Definition is_upper (c : ascii) : bool :=
  let n := nat_of_ascii c in (65 <=? n)%nat && (n <=? 90)%nat.
Definition is_lower (c : ascii) : bool :=
  let n := nat_of_ascii c in (97 <=? n)%nat && (n <=? 122)%nat.
Definition to_lower (c : ascii) : ascii :=
  if is_upper c then ascii_of_nat (nat_of_ascii c + 32) else c.
Definition to_upper (c : ascii) : ascii :=
  if is_lower c then ascii_of_nat (nat_of_ascii c - 32) else c.

Fixpoint str_lower (s : string) : string :=
  match s with
  | EmptyString => EmptyString
  | String c r => String (to_lower c) (str_lower r)
  end.

(** [str.title]: a cased character is upper-cased when the previous
    character is not cased, and lower-cased otherwise. *)
Fixpoint title_from (prev_cased : bool) (s : string) : string :=
  match s with
  | EmptyString => EmptyString
  | String c r =>
      let cased := is_upper c || is_lower c in
      String (if prev_cased then to_lower c else to_upper c)
             (title_from cased r)
  end.
Definition str_title (s : string) : string := title_from false s.

(** *** Integers *)

Definition str_of_Z (z : Z) : string := NilZero.string_of_int (Z.to_int z).

(** *** Floats (binary64)

    Arithmetic is the kernel's [PrimFloat]; conversions and printing go
    through the exact value [m * 2^e] that [Prim2SF] exposes. *)

(** Quotient rounded to the nearest integer, ties to even ([0 < q]). *)
Definition div_half_even (p q : Z) : Z :=
  let d := p / q in
  let r := p mod q in
  match 2 * r ?= q with
  | Lt => d
  | Gt => d + 1
  | Eq => if Z.even d then d else d + 1
  end.

(** The 53-bit mantissa and the exponent of the binary64 nearest to the
    positive integer [a], ties to even. *)
Definition round_to_53_bits (a : Z) : Z * Z :=
  let bits := Z.log2 a + 1 in
  if bits <=? 53 then (a * 2 ^ (53 - bits), bits - 53)
  else
    let shift := bits - 53 in
    let m := div_half_even a (2 ^ shift) in
    if m =? 2 ^ 53 then (2 ^ 52, shift + 1) else (m, shift).

(** [float(n)] for an int [n]: the nearest binary64, ties to even;
    [OverflowError] when that is not finite. *)
Definition float_of_Z (z : Z) : Res float :=
  if z =? 0 then Ok 0%float
  else
    let '(m, e) := round_to_53_bits (Z.abs z) in
    if 971 <? e then Raise (OverflowError "int too large to convert to float")
    else Ok (SF2Prim (S754_finite (z <? 0) (Z.to_pos m) e)).

(** [a / b] on two ints: the correctly rounded quotient. *)
Definition Z_truediv (a b : Z) : Res float :=
  if b =? 0 then Raise (ZeroDivisionError "division by zero")
  else if a =? 0 then Ok (if b <? 0 then (-0)%float else 0%float)
  else
    let sf :=
      let '(mz, ez, lz) := SFdiv_core_binary prec emax (Z.abs a) 0 (Z.abs b) 0 in
      binary_round_aux prec emax (xorb (a <? 0) (b <? 0)) mz ez lz in
    match sf with
    | S754_infinity _ =>
        Raise (OverflowError "integer division result too large for a float")
    | _ => Ok (SF2Prim sf)
    end.

(** Exact comparison of [m1 * 2^e1] with [m2 * 2^e2]. *)
Definition dyadic_compare (m1 e1 m2 e2 : Z) : comparison :=
  let e := Z.min e1 e2 in
  (m1 * 2 ^ (e1 - e)) ?= (m2 * 2 ^ (e2 - e)).

(** A float against an int, compared exactly as Python does; [None] for NaN. *)
Definition float_compare_Z (f : float) (n : Z) : option comparison :=
  match Prim2SF f with
  | S754_nan => None
  | S754_infinity s => Some (if s then Lt else Gt)
  | S754_zero _ => Some (0 ?= n)
  | S754_finite s m e =>
      Some (dyadic_compare (if s then Z.neg m else Z.pos m) e n 0)
  end.

(** [format(f, '.1f')]. *)
Definition float_format_1f (f : float) : string :=
  match Prim2SF f with
  | S754_nan => "nan"
  | S754_infinity s => if s then "-inf" else "inf"
  | S754_zero s => if s then "-0.0" else "0.0"
  | S754_finite s m e =>
      let tenths :=
        if 0 <=? e then Z.pos m * 2 ^ e * 10
        else div_half_even (Z.pos m * 10) (2 ^ (- e)) in
      (if s then "-" else EmptyString)
        ++ str_of_Z (tenths / 10) ++ "." ++ str_of_Z (tenths mod 10)
  end.

(** *** [repr] of a float: the shortest decimal string that reads back as it

    [lt_pow10 p q k]: [v < 10^k] for the positive rational [v = p / q]. *)
Definition lt_pow10 (p q k : Z) : bool :=
  if 0 <=? k then p <? q * 10 ^ k else p * 10 ^ (- k) <? q.

(** The least [k] with [p / q < 10^k], searched from the estimate [k]. *)
Fixpoint dec_point (fuel : nat) (p q k : Z) : Z :=
  match fuel with
  | O => k
  | S fuel' =>
      if lt_pow10 p q (k - 1) then dec_point fuel' p q (k - 1)
      else if lt_pow10 p q k then k
      else dec_point fuel' p q (k + 1)
  end.

(** The rounding interval of [m * 2^e], in quarters of a unit in the last
    place: every real strictly between [lo] and [hi] (the bounds included
    when [m] is even) rounds to [m * 2^e]. *)
Definition rounding_interval (m : positive) (e : Z) : Z * Z * Z * Z :=
  let mid := 4 * Z.pos m in
  let lo := if (Z.pos m =? 2 ^ 52) && (-1074 <? e) then mid - 1 else mid - 2 in
  let hi := mid + 2 in
  let e2 := e - 2 in
  if 0 <=? e2 then (lo * 2 ^ e2, mid * 2 ^ e2, hi * 2 ^ e2, 1)
  else (lo, mid, hi, 2 ^ (- e2)).

(** Search for the least number [n] of significant digits, [n = 18 - fuel],
    such that some [n]-digit decimal [c * 10^(k-n)] lies in the interval;
    of two that do, the one nearer to the value is taken. *)
Fixpoint shortest_from (fuel : nat) (incl : bool) (lo mid hi q k n : Z) : Z * Z :=
  let t := k - n in
  let a := 10 ^ Z.max 0 (- t) in
  let b := q * 10 ^ Z.max 0 t in
  let c0 := (mid * a) / b in
  let c1 := c0 + 1 in
  let inside c :=
    if incl then (lo * a <=? c * b) && (c * b <=? hi * a)
    else (lo * a <? c * b) && (c * b <? hi * a) in
  match fuel with
  | O => (c0, t)
  | S fuel' =>
      match inside c0, inside c1 with
      | true, true =>
          match (mid * a - c0 * b) ?= (c1 * b - mid * a) with
          | Lt => (c0, t)
          | Gt => (c1, t)
          | Eq => (if Z.even c0 then c0 else c1, t)
          end
      | true, false => (c0, t)
      | false, true => (c1, t)
      | false, false => shortest_from fuel' incl lo mid hi q k (n + 1)
      end
  end.

(** [c] without its trailing decimal zeros. *)
Fixpoint strip_zeros (fuel : nat) (c : Z) : Z :=
  match fuel with
  | O => c
  | S fuel' => if (c mod 10 =? 0) && negb (c =? 0) then strip_zeros fuel' (c / 10) else c
  end.

(** [n] zeros. *)
Fixpoint zeros (n : nat) : string :=
  match n with
  | O => EmptyString
  | S n' => String "0" (zeros n')
  end.

(** The digit string [ds] with the decimal point after its first [decpt]
    digits, laid out as [repr] does: positional when [-4 < decpt <= 16],
    with an exponent otherwise. *)
Definition repr_layout (ds : string) (decpt : Z) : string :=
  let len := Z.of_nat (String.length ds) in
  if (decpt <=? -4) || (16 <? decpt) then
    let ex := decpt - 1 in
    let exs := str_of_Z (Z.abs ex) in
    String.substring 0 1 ds
      ++ (if 1 <? len then "." ++ String.substring 1 (String.length ds - 1) ds
          else EmptyString)
      ++ "e" ++ (if ex <? 0 then "-" else "+")
      ++ (if Z.abs ex <? 10 then "0" else EmptyString) ++ exs
  else if decpt <=? 0 then "0." ++ zeros (Z.to_nat (- decpt)) ++ ds
  else if len <=? decpt then ds ++ zeros (Z.to_nat (decpt - len)) ++ ".0"
  else String.substring 0 (Z.to_nat decpt) ds ++ "."
         ++ String.substring (Z.to_nat decpt) (String.length ds - Z.to_nat decpt) ds.

(** [repr(f)], which is also [str(f)] and [f"{f}"]. *)
Definition float_repr (f : float) : string :=
  match Prim2SF f with
  | S754_nan => "nan"
  | S754_infinity s => if s then "-inf" else "inf"
  | S754_zero s => if s then "-0.0" else "0.0"
  | S754_finite s m e =>
      let '(lo, mid, hi, q) := rounding_interval m e in
      let k := dec_point 700 mid q (((Z.log2 mid - Z.log2 q) * 30103) / 100000) in
      let '(c, t) := shortest_from 17 (Z.even (Z.pos m)) lo mid hi q k 1 in
      let decpt := t + Z.of_nat (String.length (str_of_Z c)) in
      (if s then "-" else EmptyString)
        ++ repr_layout (str_of_Z (strip_zeros 20 c)) decpt
  end.

(** *** Numbers and the operators the tools apply to them *)

(** A number: the operand types of Python's arithmetic ([bool] counts as
    the int 0 or 1). *)
Inductive num : Type :=
  | NInt (z : Z)
  | NFloat (f : float).

Definition as_num (v : PyVal) : option num :=
  match v with
  | VBool b => Some (NInt (if b then 1 else 0))
  | VInt z => Some (NInt z)
  | VFloat f => Some (NFloat f)
  | VNone | VStr _ => None
  end.

Definition of_num (n : num) : PyVal :=
  match n with
  | NInt z => VInt z
  | NFloat f => VFloat f
  end.

Definition num_to_float (n : num) : Res float :=
  match n with
  | NInt z => float_of_Z z
  | NFloat f => Ok f
  end.

Definition unsupported (op : string) (a b : PyVal) : exn :=
  TypeError ("unsupported operand type(s) for " ++ op ++ ": '"
             ++ type_name a ++ "' and '" ++ type_name b ++ "'").

(** [acc + x] (or [acc += x], which differs in the message only) for a
    numeric accumulator [acc]. *)
Definition num_add (op : string) (acc : num) (x : PyVal) : Res num :=
  match as_num x with
  | None => Raise (unsupported op (of_num acc) x)
  | Some n =>
      match acc, n with
      | NInt a, NInt b => Ok (NInt (a + b))
      | _, _ =>
          fa ← num_to_float acc;
          fb ← num_to_float n;
          Ok (NFloat (fa + fb)%float)
      end
  end.

(** [sum(xs)]: the fold of [+] from the int 0, left to right. (From Python
    3.12 on, float items are added with a compensated sum; the calories that
    the tools store are ints or [None].) *)
Definition py_sum (xs : list PyVal) : Res num :=
  foldl (fun acc x => a ← acc; num_add "+" a x) (Ok (NInt 0)) xs.

(** [a - b] where [b] is a number. *)
Definition py_sub (a : PyVal) (b : num) : Res num :=
  match as_num a with
  | None => Raise (unsupported "-" a (of_num b))
  | Some n =>
      match n, b with
      | NInt x, NInt y => Ok (NInt (x - y))
      | _, _ =>
          fa ← num_to_float n;
          fb ← num_to_float b;
          Ok (NFloat (fa - fb)%float)
      end
  end.

(** [a / b]: true division; the result is always a float. *)
Definition py_truediv (a b : PyVal) : Res float :=
  match as_num a, as_num b with
  | Some (NInt x), Some (NInt y) => Z_truediv x y
  | Some n, Some d =>
      fa ← num_to_float n;
      fb ← num_to_float d;
      if (fb =? 0)%float then Raise (ZeroDivisionError "float division by zero")
      else Ok (fa / fb)%float
  | _, _ => Raise (unsupported "/" a b)
  end.

(** [abs(n)]. *)
Definition num_abs (n : num) : num :=
  match n with
  | NInt z => NInt (Z.abs z)
  | NFloat f => NFloat (PrimFloat.abs f)
  end.

(** [n > k] for an int literal [k]. *)
Definition num_gt_int (n : num) (k : Z) : bool :=
  match n with
  | NInt z => z >? k
  | NFloat f =>
      match float_compare_Z f k with
      | Some Gt => true
      | _ => false
      end
  end.

(** [v > k] for an int literal [k]. *)
Definition py_gt_int (v : PyVal) (k : Z) : Res bool :=
  match as_num v with
  | Some n => Ok (num_gt_int n k)
  | None =>
      Raise (TypeError ("'>' not supported between instances of '"
                        ++ type_name v ++ "' and 'int'"))
  end.

(** Truthiness, as tested by [if v:]. *)
Definition py_truthy (v : PyVal) : bool :=
  match v with
  | VNone => false
  | VBool b => b
  | VInt z => negb (z =? 0)
  | VFloat f => negb (f =? 0)%float
  | VStr s => negb (String.eqb s EmptyString)
  end.

(** [a == b]; numbers compare by value across [bool], [int] and [float]. *)
Definition py_eq (a b : PyVal) : bool :=
  match a, b with
  | VNone, VNone => true
  | VStr s, VStr t => String.eqb s t
  | _, _ =>
      match as_num a, as_num b with
      | Some (NInt x), Some (NInt y) => x =? y
      | Some (NFloat f), Some (NFloat g) => (f =? g)%float
      | Some (NFloat f), Some (NInt y) | Some (NInt y), Some (NFloat f) =>
          match float_compare_Z f y with
          | Some Eq => true
          | _ => false
          end
      | _, _ => false
      end
  end.

(** [f"{v}"], that is [str(v)]. *)
Definition py_str (v : PyVal) : string :=
  match v with
  | VNone => "None"
  | VBool b => if b then "True" else "False"
  | VInt z => str_of_Z z
  | VFloat f => float_repr f
  | VStr s => s
  end.

(** [f"{v:.1f}"]. *)
Definition py_format_1f (v : PyVal) : Res string :=
  match v with
  | VNone =>
      Raise (TypeError "unsupported format string passed to NoneType.__format__")
  | VStr _ =>
      Raise (ValueError "Unknown format code 'f' for object of type 'str'")
  | VBool b => Ok (if b then "1.0" else "0.0")
  | VInt z => f ← float_of_Z z; Ok (float_format_1f f)
  | VFloat f => Ok (float_format_1f f)
  end.

(** [v.title()]. *)
Definition py_title (v : PyVal) : Res string :=
  match v with
  | VStr s => Ok (str_title s)
  | _ =>
      Raise (AttributeError ("'" ++ type_name v
                             ++ "' object has no attribute 'title'"))
  end.

(** *** Dicts with string keys: the goal and food records *)

Abbreviation dict := (gmap string PyVal).

(** [d[k]]. *)
Definition dict_item (d : dict) (k : string) : Res PyVal :=
  match d !! k with
  | Some v => Ok v
  | None => Raise (KeyError k)
  end.

(** [d.get(k, default)]. *)
Definition dict_get (d : dict) (k : string) (default : PyVal) : PyVal :=
  match d !! k with
  | Some v => v
  | None => default
  end.

(** *** Insertion-ordered dicts: [health_goals] and [meals]

    Iteration follows first insertion; assigning to an existing key keeps
    its position. Keys are compared with [eqb]. *)
Section odict.
Context {K V : Type} (eqb : K -> K -> bool).

Fixpoint od_get (k : K) (l : list (K * V)) : option V :=
  match l with
  | [] => None
  | (k', v) :: r => if eqb k k' then Some v else od_get k r
  end.

Fixpoint od_set (k : K) (v : V) (l : list (K * V)) : list (K * V) :=
  match l with
  | [] => [(k, v)]
  | (k', v') :: r =>
      if eqb k k' then (k', v) :: r else (k', v') :: od_set k v r
  end.

Definition od_values (l : list (K * V)) : list V := map snd l.
End odict.

End Py.
Import Py.

(** ** The Supabase manager

    [utils.supabase_config.supabase_manager] is an external collaborator: the
    tools use six of its methods and nothing else, with the argument and
    result types of the collaborator contract. Its behaviour is left open: a
    manager is any state type with six methods on it, each of which may
    change the state and may raise. *)
Module Supabase.
Record manager : Type := {
  state : Type;
  is_connected : state -> Res bool * state;
  add_health_goal : dict -> state -> Res string * state;
  update_health_goal : string -> dict -> state -> Res bool * state;
  get_health_goals : state -> Res (list dict) * state;
  add_food_log : dict -> state -> Res string * state;
  get_food_logs : string -> state -> Res (list dict) * state
}.
End Supabase.

(** ** The tool functions *)

Module Tools.
Section tools.
Context (sb : Supabase.manager).

(** Everything a call can read or change: the manager, the two module-level
    fallback stores, and the environment ([date.today().isoformat()],
    [datetime.now().isoformat()], and the stream of identifiers that
    [uuid.uuid4()] draws from). The clock is read-only for a call: the
    environment moves it between calls, and the [created_at] values it
    feeds are never read back by any tool. *)
Record World : Type := {
  supabase_manager : Supabase.state sb;
  health_goals : list (string * dict);
  food_logs : list dict;
  today_iso : string;
  now_iso : string;
  uuid_source : nat -> string;
  uuid_count : nat
}.

Definition set_supabase_manager (r : Supabase.state sb) (w : World) : World :=
  {| supabase_manager := r; health_goals := health_goals w;
     food_logs := food_logs w; today_iso := today_iso w; now_iso := now_iso w;
     uuid_source := uuid_source w; uuid_count := uuid_count w |}.

Definition set_health_goals (g : list (string * dict)) (w : World) : World :=
  {| supabase_manager := supabase_manager w; health_goals := g;
     food_logs := food_logs w; today_iso := today_iso w; now_iso := now_iso w;
     uuid_source := uuid_source w; uuid_count := uuid_count w |}.

Definition set_food_logs (l : list dict) (w : World) : World :=
  {| supabase_manager := supabase_manager w; health_goals := health_goals w;
     food_logs := l; today_iso := today_iso w; now_iso := now_iso w;
     uuid_source := uuid_source w; uuid_count := uuid_count w |}.

Definition set_uuid_count (n : nat) (w : World) : World :=
  {| supabase_manager := supabase_manager w; health_goals := health_goals w;
     food_logs := food_logs w; today_iso := today_iso w; now_iso := now_iso w;
     uuid_source := uuid_source w; uuid_count := n |}.

(** Statements: they run in a world, change it, and return or raise. A
    raised exception keeps the changes made before it. *)
Definition M (A : Type) : Type := World -> Res A * World.

#[local] Instance M_ret : MRet M := fun _ a w => (Ok a, w).
#[local] Instance M_bind : MBind M := fun _ _ f m w =>
  match m w with
  | (Ok a, w') => f a w'
  | (Raise e, w') => (Raise e, w')
  end.

Definition lift {A} (r : Res A) : M A := fun w => (r, w).

(** [try: body / except Exception as e: handler e]. *)
Definition try_except {A} (body : M A) (handler : exn -> M A) : M A :=
  fun w =>
    match body w with
    | (Ok a, w') => (Ok a, w')
    | (Raise e, w') => handler e w'
    end.

(** A method call on [supabase_manager]. *)
Definition call {A} (method : Supabase.state sb -> Res A * Supabase.state sb)
  : M A :=
  fun w =>
    let '(r, st) := method (supabase_manager w) in
    (r, set_supabase_manager st w).

Definition uuid4 : M string :=
  fun w => (Ok (uuid_source w (uuid_count w)), set_uuid_count (S (uuid_count w)) w).

Definition date_today : M string := fun w => (Ok (today_iso w), w).
Definition datetime_now : M string := fun w => (Ok (now_iso w), w).

Definition read_health_goals : M (list (string * dict)) :=
  fun w => (Ok (health_goals w), w).
Definition read_food_logs : M (list dict) := fun w => (Ok (food_logs w), w).

(** [health_goals[goal_id] = goal_data]. *)
Definition store_goal (goal_id : string) (goal_data : dict) : M unit :=
  fun w => (Ok tt, set_health_goals (od_set String.eqb goal_id goal_data (health_goals w)) w).

(** [goal[key] = value] for the dict [goal] that [health_goals] holds under
    [goal_id]: the assignment is seen through the store. *)
Definition goal_setitem (goal_id key : string) (value : PyVal) : M unit :=
  fun w =>
    match od_get String.eqb goal_id (health_goals w) with
    | Some goal => store_goal goal_id (<[key := value]> goal) w
    | None => (Raise (KeyError goal_id), w)
    end.

(** [food_logs.append(food_data)]. *)
Definition append_food (food_data : dict) : M unit :=
  fun w => (Ok tt, set_food_logs (food_logs w ++ [food_data]) w).

Definition opt_str (o : option string) : PyVal :=
  match o with Some s => VStr s | None => VNone end.
Definition opt_int (o : option Z) : PyVal :=
  match o with Some z => VInt z | None => VNone end.

(** [description or EmptyString]: a missing and an empty description both
    give the empty string. *)
Definition or_empty (o : option string) : string :=
  match o with Some s => s | None => EmptyString end.

(** *** add_health_goal *)

(** The dict literals of the remote branch: [goal_data] and
    [calorie_goal_data]. *)
Definition remote_goal_data (goal_type : string) (target_value : float)
    (description : option string) : dict :=
  <["is_active" := VBool true]>
  (<["description" := VStr (or_empty description)]>
  (<["current_value" := VFloat 0]>
  (<["target_value" := VFloat target_value]>
  (<["goal_type" := VStr (str_lower goal_type)]> ∅)))).

Definition remote_calorie_goal_data (target : float) : dict :=
  <["is_active" := VBool true]>
  (<["description" := VStr "Daily calorie intake target"]>
  (<["current_value" := VFloat 0]>
  (<["target_value" := VFloat target]>
  (<["goal_type" := VStr "daily_calories"]> ∅)))).

(** The dict literals of the fallback branch. *)
Definition local_goal_data (goal_id goal_type : string) (target_value : float)
    (description : option string) (created_at : string) : dict :=
  <["created_at" := VStr created_at]>
  (<["description" := opt_str description]>
  (<["current_value" := VFloat 0]>
  (<["target_value" := VFloat target_value]>
  (<["goal_type" := VStr (str_lower goal_type)]>
  (<["goal_id" := VStr goal_id]> ∅))))).

Definition local_calorie_goal_data (calorie_goal_id : string)
    (daily_calorie_goal : Z) (created_at : string) : dict :=
  <["created_at" := VStr created_at]>
  (<["description" := VStr "Daily calorie intake target"]>
  (<["current_value" := VFloat 0]>
  (<["target_value" := VInt daily_calorie_goal]>
  (<["goal_type" := VStr "daily_calories"]>
  (<["goal_id" := VStr calorie_goal_id]> ∅))))).

Definition add_health_goal (goal_type : string) (target_value : float)
    (description : option string) (daily_calorie_goal : option Z) : M string :=
  try_except
    (connected ← call (Supabase.is_connected sb);
     if connected : bool then
       let goal_data := remote_goal_data goal_type target_value description in
       goal_id ← call (Supabase.add_health_goal sb goal_data);
       let result :=
         "Health goal added successfully!" ++ nl ++ nl
         ++ "Goal: " ++ str_title goal_type ++ nl
         ++ "Target: " ++ float_repr target_value ++ nl
         ++ "Goal ID: " ++ goal_id in
       match daily_calorie_goal with
       | Some dcg =>
           if py_truthy (VInt dcg) then
             target ← lift (float_of_Z dcg);
             let calorie_goal_data := remote_calorie_goal_data target in
             calorie_goal_id ← call (Supabase.add_health_goal sb calorie_goal_data);
             mret (result ++ nl ++ nl
                   ++ "Daily Calorie Goal: " ++ str_of_Z dcg ++ " calories" ++ nl
                   ++ "Calorie Goal ID: " ++ calorie_goal_id)
           else mret result
       | None => mret result
       end
     else
       goal_id ← uuid4;
       created_at ← datetime_now;
       let goal_data :=
         local_goal_data goal_id goal_type target_value description created_at in
       _ ← store_goal goal_id goal_data;
       let result :=
         "Health goal added successfully! (Local Storage)" ++ nl ++ nl
         ++ "Goal: " ++ str_title goal_type ++ nl
         ++ "Target: " ++ float_repr target_value ++ nl
         ++ "Goal ID: " ++ goal_id in
       match daily_calorie_goal with
       | Some dcg =>
           if py_truthy (VInt dcg) then
             calorie_goal_id ← uuid4;
             created_at ← datetime_now;
             let calorie_goal_data :=
               local_calorie_goal_data calorie_goal_id dcg created_at in
             _ ← store_goal calorie_goal_id calorie_goal_data;
             mret (result ++ nl ++ nl
                   ++ "Daily Calorie Goal: " ++ str_of_Z dcg ++ " calories" ++ nl
                   ++ "Calorie Goal ID: " ++ calorie_goal_id)
           else mret result
       | None => mret result
       end)
    (fun e => mret ("Error adding health goal: " ++ exn_str e)).

(** *** update_health_goal *)

(** The [updates] dict sent to the manager: one entry per argument that is
    not [None]. *)
Definition goal_updates (target_value current_value : option float)
    (description : option string) : dict :=
  let updates : dict := ∅ in
  let updates :=
    match target_value with
    | Some t => <["target_value" := VFloat t]> updates
    | None => updates
    end in
  let updates :=
    match current_value with
    | Some c => <["current_value" := VFloat c]> updates
    | None => updates
    end in
  match description with
  | Some d => <["description" := VStr d]> updates
  | None => updates
  end.

Definition update_health_goal (goal_id : string) (target_value : option float)
    (current_value : option float) (description : option string) : M string :=
  try_except
    (connected ← call (Supabase.is_connected sb);
     if connected : bool then
       let updates := goal_updates target_value current_value description in
       success ← call (Supabase.update_health_goal sb goal_id updates);
       if success : bool then
         mret ("Health goal updated successfully!" ++ nl ++ nl
               ++ "Goal ID: " ++ goal_id ++ nl
               ++ "Updates applied successfully")
       else mret ("Health goal " ++ goal_id ++ " not found or update failed")
     else
       goals ← read_health_goals;
       match od_get String.eqb goal_id goals with
       | None => mret ("Health goal " ++ goal_id ++ " not found")
       | Some _ =>
           _ ← match target_value with
               | Some t => goal_setitem goal_id "target_value" (VFloat t)
               | None => mret tt
               end;
           _ ← match current_value with
               | Some c => goal_setitem goal_id "current_value" (VFloat c)
               | None => mret tt
               end;
           _ ← match description with
               | Some d => goal_setitem goal_id "description" (VStr d)
               | None => mret tt
               end;
           goals ← read_health_goals;
           goal ← lift (match od_get String.eqb goal_id goals with
                        | Some goal => Ok goal
                        | None => Raise (KeyError goal_id)
                        end);
           goal_type ← lift (dict_item goal "goal_type");
           title ← lift (py_title goal_type);
           target ← lift (dict_item goal "target_value");
           current ← lift (dict_item goal "current_value");
           mret ("Health goal updated successfully! (Local Storage)" ++ nl ++ nl
                 ++ "Goal: " ++ title ++ nl
                 ++ "Target: " ++ py_str target ++ nl
                 ++ "Current: " ++ py_str current)
       end)
    (fun e => mret ("Error updating health goal: " ++ exn_str e)).

(** *** get_health_goals *)

(** [(goal.get("current_value", 0) / goal["target_value"]) * 100
     if goal["target_value"] > 0 else 0]. *)
Definition goal_progress (goal : dict) : Res PyVal :=
  target ← dict_item goal "target_value";
  positive ← py_gt_int target 0;
  if positive : bool then
    q ← py_truediv (dict_get goal "current_value" (VInt 0)) target;
    Ok (VFloat (q * 100)%float)
  else Ok (VInt 0).

(** The body of the loop over the listed goals: the six lines appended
    to [result] for one goal. *)
Definition render_goal (goal : dict) : Res string :=
  progress ← goal_progress goal;
  goal_type ← dict_item goal "goal_type";
  title ← py_title goal_type;
  target ← dict_item goal "target_value";
  progress_text ← py_format_1f progress;
  goal_id ← dict_item goal "goal_id";
  Ok (title ++ nl
      ++ "  Target: " ++ py_str target ++ nl
      ++ "  Current: " ++ py_str (dict_get goal "current_value" (VInt 0)) ++ nl
      ++ "  Progress: " ++ progress_text ++ "%" ++ nl
      ++ "  Description: "
      ++ py_str (dict_get goal "description" (VStr "No description")) ++ nl
      ++ "  Goal ID: " ++ py_str goal_id ++ nl ++ nl).

(** [for goal in goals: result += ...]. *)
Fixpoint render_goals (goals : list dict) (result : string) : Res string :=
  match goals with
  | [] => Ok result
  | goal :: rest =>
      block ← render_goal goal;
      render_goals rest (result ++ block)
  end.

(** [goal.get("is_active", True)], as a condition. *)
Definition is_active (goal : dict) : bool :=
  py_truthy (dict_get goal "is_active" (VBool true)).

Definition get_health_goals : M string :=
  try_except
    (connected ← call (Supabase.is_connected sb);
     if connected : bool then
       goals ← call (Supabase.get_health_goals sb);
       match goals with
       | [] => mret "No active health goals found. Add a goal to get started!"
       | _ => lift (render_goals goals ("Active Health Goals" ++ nl ++ nl))
       end
     else
       goals ← read_health_goals;
       let active_goals := filter (fun goal => is_active goal = true)
                                  (od_values goals) in
       match active_goals with
       | [] => mret "No active health goals found. Add a goal to get started! (Local Storage)"
       | _ => lift (render_goals active_goals
                      ("Active Health Goals (Local Storage)" ++ nl ++ nl))
       end)
    (fun e => mret ("Error getting health goals: " ++ exn_str e)).

(** *** The daily calorie goal, shared by add_food_log and get_food_log *)

(** The search over the local goals: the target of the first goal whose
    type is ["daily_calories"], else [None]. *)
Fixpoint daily_calorie_goal_local (goals : list dict) : PyVal :=
  match goals with
  | [] => VNone
  | goal :: rest =>
      if py_eq (dict_get goal "goal_type" VNone) (VStr "daily_calories")
      then dict_get goal "target_value" VNone
      else daily_calorie_goal_local rest
  end.

(** The search over the remote goals, which also asks for an active goal. *)
Fixpoint daily_calorie_goal_remote (goals : list dict) : PyVal :=
  match goals with
  | [] => VNone
  | goal :: rest =>
      if py_eq (dict_get goal "goal_type" VNone) (VStr "daily_calories")
         && is_active goal
      then dict_get goal "target_value" VNone
      else daily_calorie_goal_remote rest
  end.

(** The text appended under [if daily_calorie_goal:]: the goal, the
    progress, and what remains or by how much the goal is exceeded. *)
Definition goal_commentary (total_calories : num) (daily_calorie_goal : PyVal)
  : Res string :=
  if py_truthy daily_calorie_goal then
    q ← py_truediv (of_num total_calories) daily_calorie_goal;
    let progress := (q * 100)%float in
    remaining ← py_sub daily_calorie_goal total_calories;
    Ok (nl ++ nl ++ "Daily Calorie Goal: " ++ py_str daily_calorie_goal
        ++ " calories"
        ++ nl ++ "Progress: " ++ float_format_1f progress ++ "%"
        ++ (if num_gt_int remaining 0
            then nl ++ "Remaining: " ++ py_str (of_num remaining) ++ " calories"
            else nl ++ "Over goal by: " ++ py_str (of_num (num_abs remaining))
                 ++ " calories"))
  else Ok EmptyString.

(** The remote goal check: [try: ... except: pass], so a failure of the
    manager or of the arithmetic leaves [result] as it was. *)
Definition remote_goal_check (total_calories : num) (result : string) : M string :=
  try_except
    (goals ← call (Supabase.get_health_goals sb);
     text ← lift (goal_commentary total_calories (daily_calorie_goal_remote goals));
     mret (result ++ text))
    (fun _ => mret result).

Definition local_goal_check (total_calories : num) (result : string) : M string :=
  goals ← read_health_goals;
  text ← lift (goal_commentary total_calories
                 (daily_calorie_goal_local (od_values goals)));
  mret (result ++ text).

(** [[f for f in food_logs if f["date"] == today]]. *)
Fixpoint foods_of_date (today : string) (logs : list dict) : Res (list dict) :=
  match logs with
  | [] => Ok []
  | f :: rest =>
      d ← dict_item f "date";
      today_foods ← foods_of_date today rest;
      Ok (if py_eq d (VStr today) then f :: today_foods else today_foods)
  end.

(** [sum(f.get("calories", 0) for f in today_foods)]. *)
Definition sum_calories (today_foods : list dict) : Res num :=
  py_sum (map (fun f => dict_get f "calories" (VInt 0)) today_foods).

(** *** add_food_log *)

(** The [food_data] dict literals of the remote and of the fallback branch. *)
Definition remote_food_data (meal_type food_item : string) (calories : option Z)
    (today : string) : dict :=
  <["date" := VStr today]>
  (<["calories" := opt_int calories]>
  (<["food_item" := VStr food_item]>
  (<["meal_type" := VStr (str_lower meal_type)]> ∅))).

Definition local_food_data (food_id meal_type food_item : string)
    (calories : option Z) (today created_at : string) : dict :=
  <["created_at" := VStr created_at]>
  (<["date" := VStr today]>
  (<["calories" := opt_int calories]>
  (<["food_item" := VStr food_item]>
  (<["meal_type" := VStr (str_lower meal_type)]>
  (<["food_id" := VStr food_id]> ∅))))).

(** The [Calories:] line, under [if calories:]. *)
Definition calories_line (calories : option Z) : string :=
  if py_truthy (opt_int calories)
  then "Calories: " ++ py_str (opt_int calories) ++ nl
  else EmptyString.

Definition add_food_log (meal_type food_item : string) (calories : option Z)
  : M string :=
  try_except
    (today ← date_today;
     connected ← call (Supabase.is_connected sb);
     if connected : bool then
       let food_data := remote_food_data meal_type food_item calories today in
       food_id ← call (Supabase.add_food_log sb food_data);
       today_foods ← call (Supabase.get_food_logs sb today);
       total_calories ← lift (sum_calories today_foods);
       let result :=
         "Food logged successfully!" ++ nl ++ nl
         ++ "Meal: " ++ str_title meal_type ++ nl
         ++ "Food: " ++ food_item ++ nl
         ++ calories_line calories
         ++ nl ++ "Today's Total Calories: " ++ py_str (of_num total_calories) in
       remote_goal_check total_calories result
     else
       food_id ← uuid4;
       created_at ← datetime_now;
       let food_data :=
         local_food_data food_id meal_type food_item calories today created_at in
       _ ← append_food food_data;
       logs ← read_food_logs;
       today_foods ← lift (foods_of_date today logs);
       total_calories ← lift (sum_calories today_foods);
       let result :=
         "Food logged successfully! (Local Storage)" ++ nl ++ nl
         ++ "Meal: " ++ str_title meal_type ++ nl
         ++ "Food: " ++ food_item ++ nl
         ++ calories_line calories
         ++ nl ++ "Today's Total Calories: " ++ py_str (of_num total_calories) in
       local_goal_check total_calories result)
    (fun e => mret ("Error adding food log: " ++ exn_str e)).

(** *** get_food_log *)

(** Grouping by meal type: [meals] maps each meal type, in order of first
    appearance, to its foods in order of insertion. *)
Fixpoint group_meals (today_foods : list dict) (meals : list (PyVal * list dict))
  : Res (list (PyVal * list dict)) :=
  match today_foods with
  | [] => Ok meals
  | food :: rest =>
      meal_type ← dict_item food "meal_type";
      let meals :=
        match od_get py_eq meal_type meals with
        | None => od_set py_eq meal_type [] meals
        | Some _ => meals
        end in
      let meals :=
        od_set py_eq meal_type
               (default [] (od_get py_eq meal_type meals) ++ [food])%list meals in
      group_meals rest meals
  end.

(** The annotation of a food line, under [if food.get("calories"):]. *)
Definition calories_suffix (food : dict) : Res string :=
  if py_truthy (dict_get food "calories" VNone) then
    c ← dict_item food "calories";
    Ok (" (" ++ py_str c ++ " cal)")
  else Ok EmptyString.

(** [for food in foods:], carrying [result] and [meal_calories]. *)
Fixpoint render_foods (foods : list dict) (result : string) (meal_calories : num)
  : Res (string * num) :=
  match foods with
  | [] => Ok (result, meal_calories)
  | food :: rest =>
      item ← dict_item food "food_item";
      suffix ← calories_suffix food;
      meal_calories ← num_add "+=" meal_calories (dict_get food "calories" (VInt 0));
      render_foods rest (result ++ "  " ++ py_str item ++ suffix ++ nl) meal_calories
  end.

(** [for meal_type, foods in meals.items():], carrying [result] and
    [total_calories]. *)
Fixpoint render_meals (meals : list (PyVal * list dict)) (result : string)
    (total_calories : num) : Res (string * num) :=
  match meals with
  | [] => Ok (result, total_calories)
  | (meal_type, foods) :: rest =>
      title ← py_title meal_type;
      '(result, meal_calories) ← render_foods foods (result ++ title ++ nl) (NInt 0);
      let result :=
        if num_gt_int meal_calories 0
        then result ++ "  Meal Total: " ++ py_str (of_num meal_calories)
             ++ " calories" ++ nl
        else result in
      total_calories ← num_add "+=" total_calories (of_num meal_calories);
      render_meals rest (result ++ nl) total_calories
  end.

(** From the grouping to the [Daily Total] line: the text and the total. *)
Definition render_food_log (header : string) (today_foods : list dict)
  : Res (string * num) :=
  meals ← group_meals today_foods [];
  '(result, total_calories) ← render_meals meals (header ++ nl ++ nl) (NInt 0);
  Ok (result ++ "Daily Total: " ++ py_str (of_num total_calories) ++ " calories",
      total_calories).

Definition get_food_log : M string :=
  try_except
    (today ← date_today;
     connected ← call (Supabase.is_connected sb);
     if connected : bool then
       today_foods ← call (Supabase.get_food_logs sb today);
       match today_foods with
       | [] => mret "No food logged today"
       | _ =>
           '(result, total_calories) ←
             lift (render_food_log "Today's Food Log" today_foods);
           remote_goal_check total_calories result
       end
     else
       logs ← read_food_logs;
       today_foods ← lift (foods_of_date today logs);
       match today_foods with
       | [] => mret "No food logged today (Local Storage)"
       | _ =>
           '(result, total_calories) ←
             lift (render_food_log "Today's Food Log (Local Storage)" today_foods);
           local_goal_check total_calories result
       end)
    (fun e => mret ("Error getting food log: " ++ exn_str e)).

(** *** The tool surface *)

(** A call of one of the five tools, with its arguments. *)
Inductive op : Type :=
  | AddHealthGoal (goal_type : string) (target_value : float)
      (description : option string) (daily_calorie_goal : option Z)
  | UpdateHealthGoal (goal_id : string) (target_value current_value : option float)
      (description : option string)
  | GetHealthGoals
  | AddFoodLog (meal_type food_item : string) (calories : option Z)
  | GetFoodLog.

Definition run (o : op) : M string :=
  match o with
  | AddHealthGoal goal_type target_value description daily_calorie_goal =>
      add_health_goal goal_type target_value description daily_calorie_goal
  | UpdateHealthGoal goal_id target_value current_value description =>
      update_health_goal goal_id target_value current_value description
  | GetHealthGoals => get_health_goals
  | AddFoodLog meal_type food_item calories =>
      add_food_log meal_type food_item calories
  | GetFoodLog => get_food_log
  end.

(** The text each tool puts before the message of a caught exception. *)
Definition error_prefix (o : op) : string :=
  match o with
  | AddHealthGoal _ _ _ _ => "Error adding health goal: "
  | UpdateHealthGoal _ _ _ _ => "Error updating health goal: "
  | GetHealthGoals => "Error getting health goals: "
  | AddFoodLog _ _ _ => "Error adding food log: "
  | GetFoodLog => "Error getting food log: "
  end.

(** The module as loaded: both fallback stores empty. *)
Definition init_world (st : Supabase.state sb) (today now : string)
    (uuids : nat -> string) : World :=
  {| supabase_manager := st; health_goals := []; food_logs := [];
     today_iso := today; now_iso := now;
     uuid_source := uuids; uuid_count := 0 |}.

End tools.

Arguments supabase_manager {sb} w.
Arguments health_goals {sb} w.
Arguments food_logs {sb} w.
Arguments today_iso {sb} w.
Arguments now_iso {sb} w.
Arguments uuid_source {sb} w n.
Arguments uuid_count {sb} w.
Arguments set_supabase_manager {sb} r w.
Arguments set_health_goals {sb} g w.
Arguments set_food_logs {sb} l w.
Arguments set_uuid_count {sb} n w.
End Tools.
Import Tools.

(** ** Some managers *)

(** No remote store: [is_connected()] is false, and any other call raises. *)
Definition offline : Supabase.manager :=
  let down {A} (_ : unit) : Res A * unit :=
    (Raise (RemoteError "Supabase not connected"), tt) in
  {| Supabase.state := unit;
     Supabase.is_connected := fun st => (Ok false, st);
     Supabase.add_health_goal := fun _ => down;
     Supabase.update_health_goal := fun _ _ => down;
     Supabase.get_health_goals := down;
     Supabase.add_food_log := fun _ => down;
     Supabase.get_food_logs := fun _ => down |}.

(** A manager that answers every call from a script: its state is the six
    replies, and no call changes it. *)
Record script : Type := {
  reply_is_connected : bool;
  reply_add_health_goal : Res string;
  reply_update_health_goal : Res bool;
  reply_get_health_goals : Res (list dict);
  reply_add_food_log : Res string;
  reply_get_food_logs : Res (list dict)
}.

Definition scripted : Supabase.manager :=
  {| Supabase.state := script;
     Supabase.is_connected := fun st => (Ok (reply_is_connected st), st);
     Supabase.add_health_goal := fun _ st => (reply_add_health_goal st, st);
     Supabase.update_health_goal := fun _ _ st => (reply_update_health_goal st, st);
     Supabase.get_health_goals := fun st => (reply_get_health_goals st, st);
     Supabase.add_food_log := fun _ st => (reply_add_food_log st, st);
     Supabase.get_food_logs := fun _ st => (reply_get_food_logs st, st) |}.

(** A sample environment: a date, a time, and identifiers [uuid-0],
    [uuid-1], ... *)
Definition sample_uuids (n : nat) : string := "uuid-" ++ str_of_Z (Z.of_nat n).

Definition sample_world {sb : Supabase.manager} (st : Supabase.state sb) : World sb :=
  init_world sb st "2025-01-15" "2025-01-15T08:30:00" sample_uuids.

Definition offline_world : World offline := sample_world (sb:=offline) tt.

(** The fallback stores after a weight goal with a daily calorie goal of
    2000 has been added. *)
Definition world_with_goal_2000 : World offline :=
  snd (add_health_goal offline "weight" 70 None (Some 2000) offline_world).

(** ... and after 2500 calories have been logged for lunch. *)
Definition world_with_2500_logged : World offline :=
  snd (add_food_log offline "lunch" "rice" (Some 2500) world_with_goal_2000).

(** The fallback stores after two calls of [add_health_goal], the first with
    a daily calorie goal of 1500 and the second with one of 2000. *)
Definition world_with_goals_1500_2000 : World offline :=
  snd (add_health_goal offline "steps" 10000 None (Some 2000)
         (snd (add_health_goal offline "weight" 70 None (Some 1500) offline_world))).

(** The fallback stores with one goal whose target is -10 and whose current
    value is 5. *)
Definition world_with_negative_target : World offline :=
  snd (update_health_goal offline "uuid-0" None (Some 5%float) None
         (snd (add_health_goal offline "savings" (-10) None None offline_world))).

(** A script for a store that is reachable and serves the food log, one row
    of 500 calories, but fails when asked for the goals. *)
Definition goals_unavailable : script :=
  {| reply_is_connected := true;
     reply_add_health_goal := Ok "goal-1";
     reply_update_health_goal := Ok true;
     reply_get_health_goals := Raise (RemoteError "goals table unavailable");
     reply_add_food_log := Ok "food-1";
     reply_get_food_logs :=
       Ok [remote_food_data "lunch" "rice" (Some 500) "2025-01-15"] |}.

Definition goals_unavailable_world : World scripted :=
  sample_world (sb:=scripted) goals_unavailable.






(** A manager whose connectivity check itself fails. *)
Definition check_fails : Supabase.manager :=
  let down {A} (_ : unit) : Res A * unit :=
    (Raise (RemoteError "connection timed out"), tt) in
  {| Supabase.state := unit;
     Supabase.is_connected := down;
     Supabase.add_health_goal := fun _ => down;
     Supabase.update_health_goal := fun _ _ => down;
     Supabase.get_health_goals := down;
     Supabase.add_food_log := fun _ => down;
     Supabase.get_food_logs := fun _ => down |}.

(** A script for a store that is reachable and holds two goals, of which
    the second has lost its target. *)
Definition goal_without_target : script :=
  {| reply_is_connected := true;
     reply_add_health_goal := Ok "goal-3";
     reply_update_health_goal := Ok true;
     reply_get_health_goals :=
       Ok [<["goal_id" := VStr "goal-1"]> (remote_goal_data "steps" 10000 None);
           delete "target_value"
             (<["goal_id" := VStr "goal-2"]> (remote_goal_data "weight" 70 None))];
     reply_add_food_log := Ok "food-1";
     reply_get_food_logs := Ok [] |}.

(** A script for a store that is reachable and holds two entries of today,
    of which the second was logged without calories. *)
Definition entry_without_calories : script :=
  {| reply_is_connected := true;
     reply_add_health_goal := Ok "goal-1";
     reply_update_health_goal := Ok true;
     reply_get_health_goals := Ok [];
     reply_add_food_log := Ok "food-3";
     reply_get_food_logs :=
       Ok [remote_food_data "lunch" "rice" (Some 500) "2025-01-15";
           remote_food_data "lunch" "tea" None "2025-01-15"] |}.

(** A script for a store that is reachable and holds two entries of today
    and a daily calorie goal of 2000. *)
Definition two_entries : script :=
  {| reply_is_connected := true;
     reply_add_health_goal := Ok "goal-1";
     reply_update_health_goal := Ok true;
     reply_get_health_goals :=
       Ok [<["goal_id" := VStr "goal-1"]> (remote_calorie_goal_data 2000)];
     reply_add_food_log := Ok "food-3";
     reply_get_food_logs :=
       Ok [remote_food_data "lunch" "rice" (Some 500) "2025-01-15";
           remote_food_data "dinner" "pasta" (Some 700) "2025-01-15"] |}.

(** A script for a store that is reachable and holds one entry of today
    and two daily calorie goals, of which the first is inactive. *)
Definition inactive_goal_first : script :=
  {| reply_is_connected := true;
     reply_add_health_goal := Ok "goal-3";
     reply_update_health_goal := Ok true;
     reply_get_health_goals :=
       Ok [<["is_active" := VBool false]>
             (<["goal_id" := VStr "goal-1"]> (remote_calorie_goal_data 1500));
           <["goal_id" := VStr "goal-2"]> (remote_calorie_goal_data 2000)];
     reply_add_food_log := Ok "food-2";
     reply_get_food_logs :=
       Ok [remote_food_data "lunch" "rice" (Some 500) "2025-01-15"] |}.

(** ... and one that holds the same entry and the active goal alone. *)
Definition active_goal_alone : script :=
  {| reply_is_connected := true;
     reply_add_health_goal := Ok "goal-3";
     reply_update_health_goal := Ok true;
     reply_get_health_goals :=
       Ok [<["goal_id" := VStr "goal-2"]> (remote_calorie_goal_data 2000)];
     reply_add_food_log := Ok "food-2";
     reply_get_food_logs :=
       Ok [remote_food_data "lunch" "rice" (Some 500) "2025-01-15"] |}.

(** The world of the next morning: the stores are those of
    [world_with_2500_logged], the date has moved on. *)
Definition world_next_day : World offline :=
  {| supabase_manager := (tt : Supabase.state offline);
     health_goals := health_goals world_with_2500_logged;
     food_logs := food_logs world_with_2500_logged;
     today_iso := "2025-01-16";
     now_iso := "2025-01-16T07:00:00";
     uuid_source := sample_uuids;
     uuid_count := uuid_count world_with_2500_logged |}.

(** ** Vocabulary of the properties *)

(** [sub] occurs in [s]. *)
Definition contains (sub s : string) : Prop :=
  exists before after : string, s = before ++ sub ++ after.

(** [f > 0] in the sense of the tools' guards. *)
Definition positive_float (f : float) : Prop :=
  match Prim2SF f with
  | S754_finite false _ _ | S754_infinity false => True
  | _ => False
  end.

(** The commentary for a goal of 2000 that is exceeded by 500: the figure is
    printed as [500] for an int target and as [500.0] for a float target. *)
Definition over_by_500 (target : PyVal) (figure : string) : string :=
  nl ++ nl ++ "Daily Calorie Goal: " ++ py_str target ++ " calories"
  ++ nl ++ "Progress: 125.0%"
  ++ nl ++ "Over goal by: " ++ figure ++ " calories".


(** A listing in which [block] occurs after [header]. *)
Definition lists_block (header block text : string) : Prop :=
  exists before after : string, text = header ++ before ++ block ++ after.

(** The exception of the first manager call that fails in the remote branch
    of an operation, not counting the goal check of the two food tools
    (which has a handler of its own); [None] when no such call fails. *)
Definition remote_failure {sb : Supabase.manager} (o : op) (today : string)
    (st1 : Supabase.state sb) : option exn :=
  match o with
  | AddHealthGoal goal_type target_value description daily_calorie_goal =>
      match Supabase.add_health_goal sb
              (remote_goal_data goal_type target_value description) st1 with
      | (Raise e, _) => Some e
      | (Ok _, st2) =>
          match daily_calorie_goal with
          | Some dcg =>
              if dcg =? 0 then None
              else match float_of_Z dcg with
                   | Ok target =>
                       match Supabase.add_health_goal sb
                               (remote_calorie_goal_data target) st2 with
                       | (Raise e, _) => Some e
                       | (Ok _, _) => None
                       end
                   | Raise _ => None
                   end
          | None => None
          end
      end
  | UpdateHealthGoal goal_id target_value current_value description =>
      match Supabase.update_health_goal sb goal_id
              (goal_updates target_value current_value description) st1 with
      | (Raise e, _) => Some e
      | (Ok _, _) => None
      end
  | GetHealthGoals =>
      match Supabase.get_health_goals sb st1 with
      | (Raise e, _) => Some e
      | (Ok _, _) => None
      end
  | AddFoodLog meal_type food_item calories =>
      match Supabase.add_food_log sb
              (remote_food_data meal_type food_item calories today) st1 with
      | (Raise e, _) => Some e
      | (Ok _, st2) =>
          match Supabase.get_food_logs sb today st2 with
          | (Raise e, _) => Some e
          | (Ok _, _) => None
          end
      end
  | GetFoodLog =>
      match Supabase.get_food_logs sb today st1 with
      | (Raise e, _) => Some e
      | (Ok _, _) => None
      end
  end.

(** The identifiers still to be drawn, from the [n]-th on, are pairwise
    distinct and are not keys of [g]. *)
Definition fresh_from {V : Type} (src : nat -> string) (n : nat)
    (g : list (string * V)) : Prop :=
  (forall i, (n <= i)%nat -> od_get String.eqb (src i) g = None)
  /\ (forall i j, (n <= i)%nat -> (n <= j)%nat -> src i = src j -> i = j).

(** How [health_goals] and the identifier count move from one state to a
    later one: by adding a goal under the next identifier, by assigning to a
    key other than ["is_active"] of a stored goal, or by drawing an
    identifier for something else. *)
Inductive goals_evolve (src : nat -> string) :
    nat -> list (string * dict) -> nat -> list (string * dict) -> Prop :=
  | evolve_done n g : goals_evolve src n g n g
  | evolve_add n g goal n' g' :
      goals_evolve src (S n) (od_set String.eqb (src n) goal g) n' g' ->
      goals_evolve src n g n' g'
  | evolve_patch n g goal_id goal key value n' g' :
      od_get String.eqb goal_id g = Some goal ->
      key <> "is_active" ->
      goals_evolve src n (od_set String.eqb goal_id (<[key := value]> goal) g) n' g' ->
      goals_evolve src n g n' g'
  | evolve_draw n g n' g' :
      goals_evolve src (S n) g n' g' ->
      goals_evolve src n g n' g'.

Section moves.
Context {sb : Supabase.manager}.
Implicit Types (w : World sb).

(** From one world to a later one: the identifier source is the same,
    [food_logs] has grown at its end, and [health_goals] has evolved. *)
Definition evolves w w' : Prop :=
  uuid_source w' = uuid_source w
  /\ (exists added, food_logs w' = (food_logs w ++ added)%list)
  /\ goals_evolve (uuid_source w) (uuid_count w) (health_goals w)
       (uuid_count w') (health_goals w').

(** Between calls the environment may change the manager (the store goes up
    or down, its tables change) and the clock; it does not touch the
    module's stores or the identifier source. *)
Definition env_step w w' : Prop :=
  health_goals w' = health_goals w
  /\ food_logs w' = food_logs w
  /\ uuid_source w' = uuid_source w
  /\ uuid_count w' = uuid_count w.

(** One step of a run of the process: a tool is called, or the environment
    moves. *)
Inductive step : World sb -> World sb -> Prop :=
  | step_call (o : op) w : step w (snd (run sb o w))
  | step_env w w' : env_step w w' -> step w w'.

(** The identifiers that [uuid4] has yet to return are distinct and unused. *)
Definition fresh_uuids w : Prop :=
  fresh_from (uuid_source w) (uuid_count w) (health_goals w).

End moves.

(** *** The records of the fallback stores *)

(** A goal as the fallback branch holds it under [goal_id]: it carries its
    identifier, a type that is a string, a target that is a float or an int,
    a current value that is a float, and no ["is_active"] entry. *)
Definition stored_goal (goal_id : string) (goal : dict) : Prop :=
  goal !! "goal_id" = Some (VStr goal_id)
  /\ (exists goal_type : string, goal !! "goal_type" = Some (VStr goal_type))
  /\ ((exists target : float, goal !! "target_value" = Some (VFloat target))
      \/ (exists target : Z, goal !! "target_value" = Some (VInt target)))
  /\ (exists current : float, goal !! "current_value" = Some (VFloat current))
  /\ goal !! "is_active" = None.

(** A food entry as the fallback branch holds it: a date, a meal type and a
    food item that are strings, and calories that are an int or [None]. *)
Definition stored_food (food : dict) : Prop :=
  (exists date : string, food !! "date" = Some (VStr date))
  /\ (exists meal_type : string, food !! "meal_type" = Some (VStr meal_type))
  /\ (exists food_item : string, food !! "food_item" = Some (VStr food_item))
  /\ (food !! "calories" = Some VNone
      \/ exists calories : Z, food !! "calories" = Some (VInt calories)).

(** Both fallback stores hold only such records. *)
Definition well_formed {sb : Supabase.manager} (w : World sb) : Prop :=
  Forall (fun entry => stored_goal (fst entry) (snd entry)) (health_goals w)
  /\ Forall stored_food (food_logs w).

(** The goal after the three guarded assignments of [update_health_goal]:
    each argument that is not [None] overwrites its field. *)
Definition patched_goal (goal : dict) (target_value current_value : option float)
    (description : option string) : dict :=
  let goal :=
    match target_value with
    | Some t => <["target_value" := VFloat t]> goal
    | None => goal
    end in
  let goal :=
    match current_value with
    | Some c => <["current_value" := VFloat c]> goal
    | None => goal
    end in
  match description with
  | Some d => <["description" := VStr d]> goal
  | None => goal
  end.

(** The int targets in the store are small enough to convert to a float. *)
Definition targets_convert (goals : list (string * dict)) : Prop :=
  Forall (fun entry : string * dict =>
            forall target : Z,
              snd entry !! "target_value" = Some (VInt target) ->
              Z.abs target < 2 ^ 1023)
         goals.

(** The block of a goal in the listing, from the texts of its fields. *)
Definition goal_block (title target current progress description goal_id : string)
  : string :=
  title ++ nl
  ++ "  Target: " ++ target ++ nl
  ++ "  Current: " ++ current ++ nl
  ++ "  Progress: " ++ progress ++ "%" ++ nl
  ++ "  Description: " ++ description ++ nl
  ++ "  Goal ID: " ++ goal_id ++ nl ++ nl.

(** *** The food log, declaratively *)

(** A goal of type ["daily_calories"], as the lookups of the food tools
    test it. *)
Definition is_calorie_goal (goal : dict) : bool :=
  py_eq (dict_get goal "goal_type" VNone) (VStr "daily_calories").

(** The test [f["date"] == today] of the fallback branch. *)
Definition on_date (today : string) (food : dict) : bool :=
  py_eq (dict_get food "date" VNone) (VStr today).

(** An entry whose calories are an int. *)
Definition has_calories (food : dict) : Prop :=
  exists c : Z, food !! "calories" = Some (VInt c).

(** An entry that was logged without calories. *)
Definition missing_calories (food : dict) : Prop :=
  food !! "calories" = Some VNone.

(** The calories of an entry as an int: 0 when it has none. *)
Definition calories_of (food : dict) : Z :=
  match food !! "calories" with
  | Some (VInt c) => c
  | _ => 0
  end.

(** The sum of the calories of a list of entries. *)
Definition total_of (foods : list dict) : Z :=
  foldr (fun food total => calories_of food + total) 0 foods.

(** The meal type of an entry, when it is a string. *)
Definition meal_of (food : dict) : string :=
  match food !! "meal_type" with
  | Some (VStr m) => m
  | _ => EmptyString
  end.

(** The distinct elements of a list, in the order of their first
    occurrence. *)
Fixpoint first_occurrences (l : list string) : list string :=
  match l with
  | [] => []
  | x :: r => x :: filter (fun y => y <> x) (first_occurrences r)
  end.

(** The entries by meal type: the meal types in the order in which they
    first appear, each with its entries in their order. *)
Definition meal_groups (foods : list dict) : list (string * list dict) :=
  map (fun m => (m, filter (fun food => meal_of food = m) foods))
      (first_occurrences (map meal_of foods)).

(** The sum of the totals of a list of groups. *)
Definition groups_total (groups : list (string * list dict)) : Z :=
  foldr (fun group total => total_of (snd group) + total) 0 groups.

(** The line of an entry in the listing. *)
Definition food_line (food : dict) : string :=
  "  " ++ py_str (dict_get food "food_item" VNone)
  ++ (if calories_of food =? 0 then EmptyString
      else " (" ++ str_of_Z (calories_of food) ++ " cal)")
  ++ nl.

(** The block of a meal in the listing: its title, the lines of its
    entries, its total when that is positive, and a blank line. *)
Definition meal_block (group : string * list dict) : string :=
  str_title (fst group) ++ nl
  ++ String.concat EmptyString (map food_line (snd group))
  ++ (if total_of (snd group) >? 0
      then "  Meal Total: " ++ str_of_Z (total_of (snd group)) ++ " calories" ++ nl
      else EmptyString)
  ++ nl.

(** Text within ASCII, on which [str_lower] and [str_title] are Python's
    [str.lower] and [str.title]. *)
Definition ascii_text (s : string) : Prop :=
  Forall (fun c => (nat_of_ascii c < 128)%nat) (list_ascii_of_string s).

(** ** Reasoning about runs *)

(** Unfolding a tool down to its manager calls and its pure parts. *)
Ltac unfold_tool :=
  cbv beta iota zeta delta
    [run add_health_goal update_health_goal get_health_goals add_food_log
     get_food_log try_except mbind M_bind mret M_ret call lift date_today uuid4
     datetime_now append_food read_food_logs read_health_goals local_goal_check
     remote_goal_check store_goal goal_setitem].

(** Projections and updates of a world that is given by its fields. *)
Ltac world_simpl :=
  cbv beta iota delta
    [set_supabase_manager set_health_goals set_food_logs set_uuid_count
     init_world supabase_manager health_goals food_logs today_iso now_iso
     uuid_source uuid_count fst snd] in *.

(** *** Strings *)

Lemma append_nil_r (s : string) : s ++ EmptyString = s.
Proof.
  induction s as [|c s IH]; [reflexivity|].
  change (String c (s ++ EmptyString) = String c s). now rewrite IH.
Qed.

Lemma append_assoc (s1 s2 s3 : string) : (s1 ++ s2) ++ s3 = s1 ++ (s2 ++ s3).
Proof.
  induction s1 as [|c s1 IH]; [reflexivity|].
  change (String c ((s1 ++ s2) ++ s3) = String c (s1 ++ (s2 ++ s3))).
  now rewrite IH.
Qed.

(** *** Floats *)

Section float_facts.

Lemma digits2_pos_log2 (p : positive) :
  Z.pos (digits2_pos p) = Z.log2 (Z.pos p) + 1.
Proof.
  assert (Hsize : forall q, digits2_pos q = Pos.size q)
    by (induction q as [q IH|q IH|]; cbn; now rewrite ?IH).
  rewrite Hsize. destruct p; cbn; lia.
Qed.

Lemma div_half_even_cases (p q : Z) :
  div_half_even p q = p / q \/ div_half_even p q = p / q + 1.
Proof.
  unfold div_half_even. destruct (2 * (p mod q) ?= q); auto.
  destruct (Z.even (p / q)); auto.
Qed.

Lemma round_to_53_bits_range (a m e : Z) :
  0 < a -> round_to_53_bits a = (m, e) -> 2 ^ 52 <= m < 2 ^ 53 /\ -52 <= e.
Proof.
  intros Ha. unfold round_to_53_bits.
  pose proof (Z.log2_spec a Ha) as [Hlo Hhi].
  pose proof (Z.log2_nonneg a) as Hnn.
  set (bits := Z.log2 a + 1) in *. replace (Z.succ (Z.log2 a)) with bits in Hhi by lia.
  replace (Z.log2 a) with (bits - 1) in Hlo by lia.
  destruct (Z.leb_spec bits 53) as [Hb|Hb].
  - intros [= <- <-].
    assert (E1 : 2 ^ 52 = 2 ^ (bits - 1) * 2 ^ (53 - bits))
      by (rewrite <- Z.pow_add_r by lia; f_equal; lia).
    assert (E2 : 2 ^ 53 = 2 ^ bits * 2 ^ (53 - bits))
      by (rewrite <- Z.pow_add_r by lia; f_equal; lia).
    assert (0 < 2 ^ (53 - bits)) by (apply Z.pow_pos_nonneg; lia).
    rewrite E1, E2. nia.
  - set (shift := bits - 53).
    assert (Hq : 0 < 2 ^ shift) by (apply Z.pow_pos_nonneg; lia).
    assert (E1 : 2 ^ (bits - 1) = 2 ^ 52 * 2 ^ shift)
      by (rewrite <- Z.pow_add_r by lia; f_equal; lia).
    assert (E2 : 2 ^ bits = 2 ^ 53 * 2 ^ shift)
      by (rewrite <- Z.pow_add_r by lia; f_equal; lia).
    assert (Hdiv : 2 ^ 52 <= a / 2 ^ shift < 2 ^ 53).
    { split.
      - apply Z.div_le_lower_bound; lia.
      - apply Z.div_lt_upper_bound; lia. }
    destruct (Z.eqb_spec (div_half_even a (2 ^ shift)) (2 ^ 53)) as [E|E].
    + intros [= <- <-]. lia.
    + intros [= <- <-].
      destruct (div_half_even_cases a (2 ^ shift)) as [E'|E']; rewrite E' in *; lia.
Qed.

Lemma Prim2SF_mantissa_53 (s : bool) (m e : Z) :
  2 ^ 52 <= m < 2 ^ 53 -> -52 <= e <= 971 ->
  Prim2SF (SF2Prim (S754_finite s (Z.to_pos m) e)) = S754_finite s (Z.to_pos m) e.
Proof.
  intros Hm He. apply Prim2SF_SF2Prim.
  cbn [valid_binary]. unfold bounded, canonical_mantissa.
  rewrite digits2_pos_log2, Z2Pos.id by lia.
  rewrite (Z.log2_unique m 52) by lia.
  unfold fexp, emin.
  change prec with 53. change emax with 1024.
  apply andb_true_intro. split; [|apply Z.leb_le; lia].
  apply Z.eqb_eq. lia.
Qed.

(** The float of a positive int is a positive finite float. *)
Lemma float_of_Z_pos (z : Z) (f : float) :
  0 < z -> float_of_Z z = Ok f ->
  exists (m : positive) (e : Z), Prim2SF f = S754_finite false m e.
Proof.
  intros Hz. unfold float_of_Z.
  destruct (Z.eqb_spec z 0) as [->|_]; [lia|].
  rewrite Z.abs_eq by lia.
  destruct (round_to_53_bits z) as [m e] eqn:E.
  apply round_to_53_bits_range in E as [Hm He]; [|exact Hz].
  destruct (Z.ltb_spec 971 e) as [|He']; [discriminate|].
  intros [= <-]. exists (Z.to_pos m), e.
  replace (z <? 0) with false by (symmetry; apply Z.ltb_ge; lia).
  apply (Prim2SF_mantissa_53 false m e); lia.
Qed.

Lemma num_gt_int_float (f : float) :
  num_gt_int (NFloat f) 0 = true <-> positive_float f.
Proof.
  unfold num_gt_int, float_compare_Z, positive_float.
  destruct (Prim2SF f) as [s|s| |s m e]; cbn.
  - split; [discriminate|tauto].
  - destruct s; split; (discriminate || tauto).
  - split; [discriminate|tauto].
  - unfold dyadic_compare. destruct s.
    + split; [|tauto]. intros H.
      assert (Hlt : Z.neg m * 2 ^ (e - Z.min e 0) < 0 * 2 ^ (0 - Z.min e 0)).
      { assert (0 < 2 ^ (e - Z.min e 0)) by (apply Z.pow_pos_nonneg; lia). nia. }
      apply Z.compare_lt_iff in Hlt. now rewrite Hlt in H.
    + split; [tauto|]. intros _.
      assert (Hgt : Z.pos m * 2 ^ (e - Z.min e 0) > 0 * 2 ^ (0 - Z.min e 0)).
      { assert (0 < 2 ^ (e - Z.min e 0)) by (apply Z.pow_pos_nonneg; lia). nia. }
      apply Z.compare_gt_iff in Hgt. apply Z.compare_lt_iff in Hgt.
      rewrite Z.compare_antisym, Hgt. reflexivity.
Qed.

Lemma num_gt_int_ltb (f : float) : num_gt_int (NFloat f) 0 = (0 <? f)%float.
Proof.
  rewrite ltb_spec. change (Prim2SF 0) with (S754_zero false).
  destruct (num_gt_int (NFloat f) 0) eqn:E.
  - apply (proj1 (num_gt_int_float f)) in E. unfold positive_float in E.
    destruct (Prim2SF f) as [s|s| |s m e]; try tauto; destruct s; tauto || reflexivity.
  - assert (H : ~ positive_float f)
      by (intros H; apply (proj2 (num_gt_int_float f)) in H; congruence).
    unfold positive_float in H.
    destruct (Prim2SF f) as [s|s| |s m e]; try reflexivity;
      destruct s; tauto || reflexivity.
Qed.

Lemma positive_float_nonzero (f : float) : positive_float f -> (f =? 0)%float = false.
Proof.
  unfold positive_float. rewrite FloatAxioms.eqb_spec. change (Prim2SF 0) with (S754_zero false).
  destruct (Prim2SF f) as [s|s| |s m e]; try tauto; destruct s; tauto || reflexivity.
Qed.


End float_facts.

Lemma contains_refl (s : string) : contains s s.
Proof. exists EmptyString, EmptyString. cbn [append]. now rewrite append_nil_r. Qed.

Lemma contains_app_l (sub s t : string) : contains sub s -> contains sub (s ++ t).
Proof.
  intros (b & a & ->). exists b, (a ++ t). now rewrite !append_assoc.
Qed.

Lemma contains_app_r (sub s t : string) : contains sub t -> contains sub (s ++ t).
Proof.
  intros (b & a & ->). exists (s ++ b), a. now rewrite !append_assoc.
Qed.

Create HintDb text.
#[export] Hint Resolve contains_refl contains_app_l contains_app_r : text.

(** *** Insertion-ordered dicts *)

Section odict_facts.
Context {V : Type}.
Implicit Types (l : list (string * V)) (k : string) (v : V).

Lemma od_get_set_eq l k v : od_get String.eqb k (od_set String.eqb k v l) = Some v.
Proof.
  induction l as [|[k' v'] l IH]; cbn [od_set od_get].
  - now rewrite String.eqb_refl.
  - destruct (String.eqb k k') eqn:E; cbn [od_get]; rewrite E; [reflexivity|exact IH].
Qed.

Lemma od_get_set_ne l k k' v :
  k <> k' -> od_get String.eqb k' (od_set String.eqb k v l) = od_get String.eqb k' l.
Proof.
  intros Hne. induction l as [|[k0 v0] l IH]; cbn [od_set od_get].
  - apply String.eqb_neq in Hne. now rewrite String.eqb_sym, Hne.
  - destruct (String.eqb k k0) eqn:E; cbn [od_get]; [|now rewrite IH].
    apply String.eqb_eq in E. subst k0.
    apply String.eqb_neq in Hne. now rewrite String.eqb_sym, Hne.
Qed.

Lemma od_set_fresh l k v :
  od_get String.eqb k l = None -> od_set String.eqb k v l = (l ++ [(k, v)])%list.
Proof.
  induction l as [|[k' v'] l IH]; cbn [od_set od_get app]; [reflexivity|].
  destruct (String.eqb k k'); [discriminate|]. intros H. now rewrite IH.
Qed.
End odict_facts.

(** *** Lookups in the dict literals *)

Section literals.
Lemma local_food_data_date food_id meal_type food_item calories today created_at :
  local_food_data food_id meal_type food_item calories today created_at !! "date"
  = Some (VStr today).
Proof. reflexivity. Qed.

Lemma local_food_data_calories food_id meal_type food_item calories today created_at :
  local_food_data food_id meal_type food_item calories today created_at !! "calories"
  = Some (opt_int calories).
Proof. reflexivity. Qed.
End literals.

(** *** The day's foods and their calories *)

Lemma py_eq_str_refl (s : string) : py_eq (VStr s) (VStr s) = true.
Proof. apply String.eqb_refl. Qed.

Lemma foods_of_date_all (today : string) (logs : list dict) :
  Forall (fun f : dict => f !! "date" = Some (VStr today)) logs ->
  foods_of_date today logs = Ok logs.
Proof.
  induction 1 as [|f logs Hf _ IH]; [reflexivity|].
  cbn [foods_of_date]. unfold dict_item. rewrite Hf.
  cbn [mbind Res_bind]. rewrite IH. cbn [mbind Res_bind].
  now rewrite py_eq_str_refl.
Qed.

Section runs.
Context {sb : Supabase.manager}.
Implicit Types (w : World sb) (st : Supabase.state sb).

(** The fallback branch of [add_food_log]: the entry is appended first, and
    whatever is raised afterwards becomes the returned text. *)
Lemma add_food_log_local w st1 meal_type food_item calories :
  Supabase.is_connected sb (supabase_manager w) = (Ok false, st1) ->
  let food_data :=
    local_food_data (uuid_source w (uuid_count w)) meal_type food_item
      calories (today_iso w) (now_iso w) in
  add_food_log sb meal_type food_item calories w =
    (Ok match
          today_foods ← foods_of_date (today_iso w) (food_logs w ++ [food_data]);
          total_calories ← sum_calories today_foods;
          text ← goal_commentary total_calories
                   (daily_calorie_goal_local (od_values (health_goals w)));
          Ok (("Food logged successfully! (Local Storage)" ++ nl ++ nl
               ++ "Meal: " ++ str_title meal_type ++ nl
               ++ "Food: " ++ food_item ++ nl
               ++ calories_line calories
               ++ nl ++ "Today's Total Calories: " ++ py_str (of_num total_calories))
              ++ text)
        with
        | Ok text => text
        | Raise e => "Error adding food log: " ++ exn_str e
        end,
     set_food_logs (food_logs w ++ [food_data])
       (set_uuid_count (S (uuid_count w)) (set_supabase_manager st1 w))).
Proof.
  intros H food_data. subst food_data. destruct w as [st g l today now src n].
  world_simpl. unfold_tool. world_simpl. rewrite H. world_simpl.
  destruct (foods_of_date _ _) as [fs|e]; cbn [mbind Res_bind]; [|reflexivity].
  destruct (sum_calories fs) as [t|e]; cbn [mbind Res_bind]; [|reflexivity].
  destruct (goal_commentary _ _) as [c|e]; reflexivity.
Qed.
End runs.

(** ** The properties *)

(** C1. Fallback backend, both stores empty: food entries with calories 100,
    150 and none are logged on one day. The first two calls report totals of
    100 and 250. The third call appends its entry and then fails in the sum:
    the entry holds [None] under ["calories"], so the default of [.get] is
    not used, and the call returns the text of the [TypeError] and no total. *)
Theorem add_food_log_absent_calories_error
    (today now : string) (ids : nat -> string) (m1 f1 m2 f2 m3 f3 : string) :
  let w := init_world offline tt today now ids in
  let '(r1, w1) := add_food_log offline m1 f1 (Some 100) w in
  let '(r2, w2) := add_food_log offline m2 f2 (Some 150) w1 in
  let '(r3, w3) := add_food_log offline m3 f3 None w2 in
  r1 = Ok ("Food logged successfully! (Local Storage)" ++ nl ++ nl
           ++ "Meal: " ++ str_title m1 ++ nl ++ "Food: " ++ f1 ++ nl
           ++ "Calories: 100" ++ nl ++ nl ++ "Today's Total Calories: 100")
  /\ r2 = Ok ("Food logged successfully! (Local Storage)" ++ nl ++ nl
              ++ "Meal: " ++ str_title m2 ++ nl ++ "Food: " ++ f2 ++ nl
              ++ "Calories: 150" ++ nl ++ nl ++ "Today's Total Calories: 250")
  /\ r3 = Ok "Error adding food log: unsupported operand type(s) for +: 'int' and 'NoneType'"
  /\ length (food_logs w3) = 3%nat.
Proof.
  intros w. subst w.
  rewrite (add_food_log_local (sb:=offline) _ tt) by reflexivity. world_simpl.
  rewrite (add_food_log_local (sb:=offline) _ tt) by reflexivity. world_simpl.
  rewrite (add_food_log_local (sb:=offline) _ tt) by reflexivity. world_simpl.
  rewrite !foods_of_date_all
    by (cbn [app]; repeat constructor; apply local_food_data_date).
  cbn [mbind Res_bind app]. unfold sum_calories, dict_get. cbn [map].
  rewrite !local_food_data_calories.
  cbn [opt_int py_sum foldl mbind Res_bind num_add as_num Z.add Pos.add Pos.succ].
  change (goal_commentary _ (daily_calorie_goal_local (od_values [])))
    with (Ok (A:=string) EmptyString) at 1 2.
  cbn [mbind Res_bind]. rewrite !append_nil_r.
  repeat split.
Qed.

(** C2. [update_health_goal] on a goal id that the selected backend does not
    have: in the fallback branch the id is not a key of [health_goals], in
    the remote branch the manager answers [False]. The call returns the
    not-found text, and both fallback stores are as before; the manager has
    seen the connectivity check and, when connected, the one update call. *)
Theorem update_health_goal_unknown_id {sb : Supabase.manager} (w : World sb)
    (connected : bool) (st1 st2 : Supabase.state sb) (goal_id : string)
    (target_value current_value : option float) (description : option string) :
  Supabase.is_connected sb (supabase_manager w) = (Ok connected, st1) ->
  (if connected
   then Supabase.update_health_goal sb goal_id
          (goal_updates target_value current_value description) st1 = (Ok false, st2)
   else od_get String.eqb goal_id (health_goals w) = None /\ st2 = st1) ->
  let '(r, w') := update_health_goal sb goal_id target_value current_value description w in
  r = Ok ("Health goal " ++ goal_id
          ++ (if connected then " not found or update failed" else " not found"))
  /\ health_goals w' = health_goals w
  /\ food_logs w' = food_logs w
  /\ od_get String.eqb goal_id (health_goals w') = od_get String.eqb goal_id (health_goals w)
  /\ supabase_manager w' = st2.
Proof.
  intros Hc Habsent. destruct w as [st g l today now src n]. world_simpl.
  unfold_tool. world_simpl. rewrite Hc. world_simpl.
  destruct connected.
  - rewrite Habsent. world_simpl. repeat split.
  - destruct Habsent as [Hg ->]. rewrite Hg. repeat split; assumption.
Qed.

Lemma update_health_goal_unknown_id_witness :
  let '(r, w') :=
    update_health_goal offline "no-such-goal" (Some 70%float) None None
      offline_world in
  r = Ok "Health goal no-such-goal not found"
  /\ health_goals w' = []
  /\ food_logs w' = []
  /\ od_get String.eqb "no-such-goal" (health_goals w') = None
  /\ supabase_manager w' = tt.
Proof.
  apply (update_health_goal_unknown_id (sb:=offline) offline_world false tt tt
           "no-such-goal" (Some 70%float) None None);
    [reflexivity | split; reflexivity].
Defined.

(** C3, the input on which the claim fails. A daily calorie goal of 0 is
    supplied: one goal is stored, one identifier is drawn and shown, and no
    goal of type [daily_calories] exists afterwards. *)
Lemma add_health_goal_zero_calorie_goal :
  let '(r, w') := add_health_goal offline "weight" 70 None (Some 0) offline_world in
  r = Ok ("Health goal added successfully! (Local Storage)" ++ nl ++ nl
          ++ "Goal: Weight" ++ nl ++ "Target: 70.0" ++ nl ++ "Goal ID: uuid-0")
  /\ map fst (health_goals w') = ["uuid-0"]
  /\ map (fun g : dict => g !! "goal_type") (od_values (health_goals w'))
     = [Some (VStr "weight")]
  /\ uuid_count w' = 1%nat.
Proof. vm_compute. repeat split. Qed.

(** C3, as amended. [add_health_goal] is called with a daily calorie goal
    that is not 0. In the fallback branch the call stores, under a second
    identifier, a goal of type [daily_calories] with that target, and the
    text shows both identifiers. In the remote branch, when the manager
    accepts the first goal and the calorie target converts to a float, the
    call submits a second goal of type [daily_calories]; when the manager
    accepts it too, the text shows both identifiers it returned. *)
Theorem add_health_goal_with_calorie_goal {sb : Supabase.manager} (w : World sb)
    (st1 : Supabase.state sb) (goal_type : string) (target_value : float)
    (description : option string) (dcg : Z) :
  dcg <> 0 ->
  (Supabase.is_connected sb (supabase_manager w) = (Ok false, st1) ->
   let goal_id := uuid_source w (uuid_count w) in
   let calorie_goal_id := uuid_source w (S (uuid_count w)) in
   let calorie_goal := local_calorie_goal_data calorie_goal_id dcg (now_iso w) in
   exists (text : string) (w' : World sb),
     add_health_goal sb goal_type target_value description (Some dcg) w = (Ok text, w')
     /\ od_get String.eqb calorie_goal_id (health_goals w') = Some calorie_goal
     /\ calorie_goal !! "goal_type" = Some (VStr "daily_calories")
     /\ calorie_goal !! "target_value" = Some (VInt dcg)
     /\ contains goal_id text /\ contains calorie_goal_id text)
  /\ (forall (st2 st3 : Supabase.state sb) (goal_id calorie_goal_id : string)
        (target : float),
      Supabase.is_connected sb (supabase_manager w) = (Ok true, st1) ->
      Supabase.add_health_goal sb
        (remote_goal_data goal_type target_value description) st1 = (Ok goal_id, st2) ->
      float_of_Z dcg = Ok target ->
      Supabase.add_health_goal sb (remote_calorie_goal_data target) st2
        = (Ok calorie_goal_id, st3) ->
      exists text : string,
        add_health_goal sb goal_type target_value description (Some dcg) w
          = (Ok text, set_supabase_manager st3 w)
        /\ remote_calorie_goal_data target !! "goal_type" = Some (VStr "daily_calories")
        /\ remote_calorie_goal_data target !! "target_value" = Some (VFloat target)
        /\ contains goal_id text /\ contains calorie_goal_id text).
Proof.
  intros Hnz. apply Z.eqb_neq in Hnz.
  destruct w as [st g l today now src n]. world_simpl. split.
  - intros Hc. unfold_tool. world_simpl. rewrite Hc. world_simpl.
    cbn [py_truthy]. rewrite Hnz. cbn [negb].
    eexists _, _. split; [reflexivity|]. world_simpl.
    split; [apply od_get_set_eq|]. do 2 (split; [reflexivity|]).
    split; auto 20 with text.
  - intros st2 st3 goal_id calorie_goal_id target Hc Hadd1 Hfloat Hadd2.
    unfold_tool. world_simpl. rewrite Hc. world_simpl. rewrite Hadd1.
    cbn [py_truthy]. rewrite Hnz. cbn [negb]. rewrite Hfloat.
    world_simpl. rewrite Hadd2.
    eexists. split; [reflexivity|]. do 2 (split; [reflexivity|]).
    split; auto 20 with text.
Qed.

Lemma add_health_goal_with_calorie_goal_witness :
  2000 <> 0
  /\ exists (text : string) (w' : World offline),
       add_health_goal offline "weight" 70 None (Some 2000) offline_world = (Ok text, w')
       /\ od_get String.eqb "uuid-1" (health_goals w')
          = Some (local_calorie_goal_data "uuid-1" 2000 "2025-01-15T08:30:00")
       /\ contains "uuid-0" text /\ contains "uuid-1" text.
Proof.
  split; [discriminate|].
  destruct (add_health_goal_with_calorie_goal (sb:=offline) offline_world tt
              "weight" 70 None 2000 ltac:(discriminate)) as [Hlocal _].
  destruct (Hlocal eq_refl) as (text & w' & Hrun & Hget & _ & _ & H0 & H1).
  exists text, w'. repeat split; assumption.
Defined.

(** The lookup returns the target of the first goal of type
    [daily_calories]; in the remote branch, of the first active one. *)
Lemma daily_calorie_goal_local_first (before after : list dict) (goal : dict) :
  Forall (fun g => py_eq (dict_get g "goal_type" VNone) (VStr "daily_calories") = false)
    before ->
  goal !! "goal_type" = Some (VStr "daily_calories") ->
  daily_calorie_goal_local (before ++ goal :: after) = dict_get goal "target_value" VNone.
Proof.
  intros Hbefore Hgoal. induction Hbefore as [|g before Hg _ IH]; cbn [app daily_calorie_goal_local].
  - unfold dict_get at 1. now rewrite Hgoal.
  - now rewrite Hg.
Qed.

Lemma daily_calorie_goal_remote_first (before after : list dict) (goal : dict) :
  Forall (fun g => py_eq (dict_get g "goal_type" VNone) (VStr "daily_calories")
                   && is_active g = false) before ->
  goal !! "goal_type" = Some (VStr "daily_calories") ->
  is_active goal = true ->
  daily_calorie_goal_remote (before ++ goal :: after) = dict_get goal "target_value" VNone.
Proof.
  intros Hbefore Hgoal Hactive.
  induction Hbefore as [|g before Hg _ IH]; cbn [app daily_calorie_goal_remote].
  - unfold dict_get at 1. now rewrite Hgoal, Hactive.
  - now rewrite Hg.
Qed.

Lemma goal_commentary_over_by_500 (target : PyVal) (figure : string) :
  target = VInt 2000 /\ figure = "500" \/ target = VFloat 2000 /\ figure = "500.0" ->
  goal_commentary (NInt 2500) target = Ok (over_by_500 target figure).
Proof. intros [[-> ->]|[-> ->]]; vm_compute; reflexivity. Qed.

(** C4, the input on which the claim fails. [add_health_goal] is called
    twice, with a daily calorie goal of 1500 and then with one of 2000, and
    2500 calories are logged. A goal of type [daily_calories] with target
    2000 exists and is active, and both food tools report the figure for the
    goal of 1500, which was added first: over by 1000. *)
Lemma later_calorie_goal_is_not_used :
  od_get String.eqb "uuid-3" (health_goals world_with_goals_1500_2000)
    = Some (local_calorie_goal_data "uuid-3" 2000 "2025-01-15T08:30:00")
  /\ is_active (local_calorie_goal_data "uuid-3" 2000 "2025-01-15T08:30:00") = true
  /\ fst (add_food_log offline "lunch" "rice" (Some 2500) world_with_goals_1500_2000)
     = Ok ("Food logged successfully! (Local Storage)" ++ nl ++ nl
           ++ "Meal: Lunch" ++ nl ++ "Food: rice" ++ nl ++ "Calories: 2500" ++ nl
           ++ nl ++ "Today's Total Calories: 2500"
           ++ nl ++ nl ++ "Daily Calorie Goal: 1500 calories"
           ++ nl ++ "Progress: 166.7%"
           ++ nl ++ "Over goal by: 1000 calories")
  /\ fst (get_food_log offline
            (snd (add_food_log offline "lunch" "rice" (Some 2500)
                    world_with_goals_1500_2000)))
     = Ok ("Today's Food Log (Local Storage)" ++ nl ++ nl
           ++ "Lunch" ++ nl ++ "  rice (2500 cal)" ++ nl
           ++ "  Meal Total: 2500 calories" ++ nl ++ nl
           ++ "Daily Total: 2500 calories"
           ++ nl ++ nl ++ "Daily Calorie Goal: 1500 calories"
           ++ nl ++ "Progress: 166.7%"
           ++ nl ++ "Over goal by: 1000 calories").
Proof.
  split; [reflexivity|]. split; [reflexivity|].
  split; vm_compute; reflexivity.
Qed.

(** C4, as amended. Among the goals that the lookup goes through (the
    stored goals in the order of insertion; in the remote branch the goals
    in the order in which the manager returns them), [goal] is the first of
    type [daily_calories] (in the remote branch: the first of that type
    that is active), its target is 2000, as an int or as a float, and the
    day's total is 2500. Then [add_food_log] and [get_food_log], in either
    branch, end their text with the over-budget figure [abs (2000 - 2500)],
    that is 500. Goals of type [daily_calories] that come after [goal] are
    not looked at. *)
Theorem over_goal_by_500 {sb : Supabase.manager} (w : World sb)
    (st1 : Supabase.state sb) (target : PyVal) (figure : string)
    (before after : list dict) (goal : dict) :
  target = VInt 2000 /\ figure = "500" \/ target = VFloat 2000 /\ figure = "500.0" ->
  goal !! "goal_type" = Some (VStr "daily_calories") ->
  goal !! "target_value" = Some target ->
  (forall (meal_type food_item : string) (calories : option Z) (today_foods : list dict),
     Supabase.is_connected sb (supabase_manager w) = (Ok false, st1) ->
     foods_of_date (today_iso w)
       (food_logs w ++ [local_food_data (uuid_source w (uuid_count w)) meal_type
                          food_item calories (today_iso w) (now_iso w)])
       = Ok today_foods ->
     sum_calories today_foods = Ok (NInt 2500) ->
     od_values (health_goals w) = (before ++ goal :: after)%list ->
     Forall (fun g => is_calorie_goal g = false) before ->
     exists w' : World sb,
       add_food_log sb meal_type food_item calories w =
         (Ok (("Food logged successfully! (Local Storage)" ++ nl ++ nl
               ++ "Meal: " ++ str_title meal_type ++ nl
               ++ "Food: " ++ food_item ++ nl
               ++ calories_line calories
               ++ nl ++ "Today's Total Calories: 2500")
              ++ over_by_500 target figure), w'))
  /\ (forall (today_foods : list dict) (listing : string),
     Supabase.is_connected sb (supabase_manager w) = (Ok false, st1) ->
     foods_of_date (today_iso w) (food_logs w) = Ok today_foods ->
     today_foods <> [] ->
     render_food_log "Today's Food Log (Local Storage)" today_foods
       = Ok (listing, NInt 2500) ->
     od_values (health_goals w) = (before ++ goal :: after)%list ->
     Forall (fun g => is_calorie_goal g = false) before ->
     exists w' : World sb,
       get_food_log sb w = (Ok (listing ++ over_by_500 target figure), w'))
  /\ (forall (meal_type food_item : string) (calories : option Z)
        (st2 st3 st4 : Supabase.state sb) (food_id : string)
        (today_foods : list dict),
     Supabase.is_connected sb (supabase_manager w) = (Ok true, st1) ->
     Supabase.add_food_log sb
       (remote_food_data meal_type food_item calories (today_iso w)) st1
       = (Ok food_id, st2) ->
     Supabase.get_food_logs sb (today_iso w) st2 = (Ok today_foods, st3) ->
     sum_calories today_foods = Ok (NInt 2500) ->
     Supabase.get_health_goals sb st3 = (Ok (before ++ goal :: after)%list, st4) ->
     Forall (fun g => is_calorie_goal g && is_active g = false) before ->
     is_active goal = true ->
     exists w' : World sb,
       add_food_log sb meal_type food_item calories w =
         (Ok (("Food logged successfully!" ++ nl ++ nl
               ++ "Meal: " ++ str_title meal_type ++ nl
               ++ "Food: " ++ food_item ++ nl
               ++ calories_line calories
               ++ nl ++ "Today's Total Calories: 2500")
              ++ over_by_500 target figure), w'))
  /\ (forall (st2 st3 : Supabase.state sb) (today_foods : list dict)
        (listing : string),
     Supabase.is_connected sb (supabase_manager w) = (Ok true, st1) ->
     Supabase.get_food_logs sb (today_iso w) st1 = (Ok today_foods, st2) ->
     today_foods <> [] ->
     render_food_log "Today's Food Log" today_foods = Ok (listing, NInt 2500) ->
     Supabase.get_health_goals sb st2 = (Ok (before ++ goal :: after)%list, st3) ->
     Forall (fun g => is_calorie_goal g && is_active g = false) before ->
     is_active goal = true ->
     exists w' : World sb,
       get_food_log sb w = (Ok (listing ++ over_by_500 target figure), w')).
Proof.
  intros Htarget Hty Htg.
  pose proof (goal_commentary_over_by_500 _ _ Htarget) as Hover.
  assert (Hlocal : Forall (fun g => is_calorie_goal g = false) before ->
                   daily_calorie_goal_local (before ++ goal :: after) = target).
  { intros Hbefore. rewrite (daily_calorie_goal_local_first before after goal Hbefore Hty).
    unfold dict_get. now rewrite Htg. }
  assert (Hremote : Forall (fun g => is_calorie_goal g && is_active g = false) before ->
                    is_active goal = true ->
                    daily_calorie_goal_remote (before ++ goal :: after) = target).
  { intros Hbefore Hactive.
    rewrite (daily_calorie_goal_remote_first before after goal Hbefore Hty Hactive).
    unfold dict_get. now rewrite Htg. }
  repeat split.
  - intros meal_type food_item calories today_foods Hc Hfoods Hsum Hgoals Hbefore.
    rewrite (add_food_log_local _ st1) by exact Hc.
    rewrite Hfoods. cbn [mbind Res_bind]. rewrite Hsum. cbn [mbind Res_bind].
    rewrite Hgoals, (Hlocal Hbefore), Hover. cbn [mbind Res_bind]. eexists. reflexivity.
  - intros today_foods listing Hc Hfoods Hne Hrender Hgoals Hbefore.
    specialize (Hlocal Hbefore). rewrite <- Hgoals in Hlocal. clear Hgoals.
    destruct w as [st g l today now src n]. world_simpl.
    unfold_tool. world_simpl. rewrite Hc. world_simpl. rewrite Hfoods.
    destruct today_foods as [|f fs]; [congruence|].
    rewrite Hrender, Hlocal, Hover. eexists. reflexivity.
  - intros meal_type food_item calories st2 st3 st4 food_id today_foods
      Hc Hadd Hfoods Hsum Hgoals Hbefore Hactive.
    specialize (Hremote Hbefore Hactive).
    destruct w as [st g l today now src n]. world_simpl.
    unfold_tool. world_simpl. rewrite Hc. world_simpl. rewrite Hadd. world_simpl.
    rewrite Hfoods. world_simpl. rewrite Hsum. world_simpl. rewrite Hgoals.
    rewrite Hremote, Hover. eexists. reflexivity.
  - intros st2 st3 today_foods listing Hc Hfoods Hne Hrender Hgoals Hbefore Hactive.
    specialize (Hremote Hbefore Hactive).
    destruct w as [st g l today now src n]. world_simpl.
    unfold_tool. world_simpl. rewrite Hc. world_simpl. rewrite Hfoods.
    destruct today_foods as [|f fs]; [congruence|].
    rewrite Hrender. world_simpl. rewrite Hgoals.
    rewrite Hremote, Hover. eexists. reflexivity.
Qed.

Lemma over_goal_by_500_witness :
  (exists w' : World offline,
     add_food_log offline "lunch" "rice" (Some 2500) world_with_goal_2000 =
       (Ok (("Food logged successfully! (Local Storage)" ++ nl ++ nl
             ++ "Meal: Lunch" ++ nl ++ "Food: rice" ++ nl
             ++ "Calories: 2500" ++ nl
             ++ nl ++ "Today's Total Calories: 2500")
            ++ over_by_500 (VInt 2000) "500"), w'))
  /\ (exists w' : World offline,
        get_food_log offline world_with_2500_logged =
          (Ok (("Today's Food Log (Local Storage)" ++ nl ++ nl
                ++ "Lunch" ++ nl ++ "  rice (2500 cal)" ++ nl
                ++ "  Meal Total: 2500 calories" ++ nl ++ nl
                ++ "Daily Total: 2500 calories")
               ++ over_by_500 (VInt 2000) "500"), w')).
Proof.
  split.
  - destruct (over_goal_by_500 (sb:=offline) world_with_goal_2000 tt
                (VInt 2000) "500"
                [local_goal_data "uuid-0" "weight" 70 None "2025-01-15T08:30:00"] []
                (local_calorie_goal_data "uuid-1" 2000 "2025-01-15T08:30:00")
                (or_introl (conj eq_refl eq_refl)) eq_refl eq_refl)
      as (Hadd & _).
    apply (Hadd "lunch" "rice" (Some 2500) (food_logs world_with_2500_logged));
      [vm_compute; reflexivity | vm_compute; reflexivity | vm_compute; reflexivity
      | reflexivity | repeat constructor].
  - destruct (over_goal_by_500 (sb:=offline) world_with_2500_logged tt
                (VInt 2000) "500"
                [local_goal_data "uuid-0" "weight" 70 None "2025-01-15T08:30:00"] []
                (local_calorie_goal_data "uuid-1" 2000 "2025-01-15T08:30:00")
                (or_introl (conj eq_refl eq_refl)) eq_refl eq_refl)
      as (_ & Hget & _).
    apply (Hget (food_logs world_with_2500_logged));
      [reflexivity | vm_compute; reflexivity | discriminate
      | vm_compute; reflexivity | reflexivity | repeat constructor].
Defined.

(** *** Progress of a goal *)

Lemma float_of_Z_raises_overflow (z : Z) (e : exn) :
  float_of_Z z = Raise e -> exists msg, e = OverflowError msg.
Proof.
  unfold float_of_Z. destruct (z =? 0); [discriminate|].
  destruct (round_to_53_bits (Z.abs z)) as [m ex].
  destruct (971 <? ex); [|discriminate]. intros [= <-]. eauto.
Qed.

Lemma Z_truediv_no_zero_division (x y : Z) (msg : string) :
  y <> 0 -> Z_truediv x y <> Raise (ZeroDivisionError msg).
Proof.
  intros Hy. unfold Z_truediv. apply Z.eqb_neq in Hy. rewrite Hy.
  destruct (x =? 0); [discriminate|].
  destruct (SFdiv_core_binary _ _ _ _ _ _) as [[mz ez] lz].
  destruct (binary_round_aux _ _ _ _ _ _); discriminate.
Qed.

(** A positive divisor: the division does not raise [ZeroDivisionError]. *)
Lemma py_truediv_no_zero_division (a b : PyVal) (msg : string) :
  py_gt_int b 0 = Ok true -> py_truediv a b <> Raise (ZeroDivisionError msg).
Proof.
  unfold py_gt_int, py_truediv. destruct (as_num b) as [d|]; [|discriminate].
  intros [= Hpos].
  assert (Hd : forall fb, num_to_float d = Ok fb -> (fb =? 0)%float = false).
  { intros fb Hfb. apply positive_float_nonzero. destruct d as [y|f]; cbn in Hfb.
    - cbn in Hpos. apply Z.gtb_lt in Hpos.
      destruct (float_of_Z_pos y fb Hpos Hfb) as (m & e & E).
      unfold positive_float. now rewrite E.
    - injection Hfb as <-. now apply num_gt_int_float. }
  assert (Hfloat : forall n,
            (fa ← num_to_float n; fb ← num_to_float d;
             if (fb =? 0)%float
             then Raise (ZeroDivisionError "float division by zero")
             else Ok (fa / fb)%float) <> Raise (ZeroDivisionError msg)).
  { intros n. destruct (num_to_float n) as [fa|e] eqn:En; cbn [mbind Res_bind].
    - destruct (num_to_float d) as [fb|e] eqn:Ed; cbn [mbind Res_bind].
      + now rewrite (Hd fb eq_refl).
      + destruct d as [y|f]; cbn in Ed; [|discriminate].
        apply float_of_Z_raises_overflow in Ed as [m ->]. discriminate.
    - destruct n as [x|f]; cbn in En; [|discriminate].
      apply float_of_Z_raises_overflow in En as [m ->]. discriminate. }
  destruct (as_num a) as [[x|fa]|]; [| apply Hfloat | discriminate].
  destruct d as [y|fb]; [|apply Hfloat].
  cbn in Hpos. apply Z.gtb_lt in Hpos. apply Z_truediv_no_zero_division. lia.
Qed.

(** The listing loop appends one block per goal, in order. *)
Lemma render_goals_blocks (goals : list dict) (result text : string) :
  render_goals goals result = Ok text ->
  exists blocks : list string,
    Forall2 (fun goal block => render_goal goal = Ok block) goals blocks
    /\ text = result ++ String.concat EmptyString blocks.
Proof.
  revert result. induction goals as [|goal goals IH]; intros result; cbn [render_goals].
  - intros [= <-]. exists []. split; [constructor|]. cbn. now rewrite append_nil_r.
  - destruct (render_goal goal) as [block|e] eqn:E; cbn [mbind Res_bind]; [|discriminate].
    intros H. destruct (IH _ H) as (blocks & Hall & ->).
    exists (block :: blocks). split; [now constructor|].
    rewrite append_assoc. f_equal.
    destruct blocks; cbn; [now rewrite append_nil_r|reflexivity].
Qed.

Lemma goal_progress_floats (goal : dict) (current target : float) :
  goal !! "current_value" = Some (VFloat current) ->
  goal !! "target_value" = Some (VFloat target) ->
  goal_progress goal =
    Ok (if (0 <? target)%float then VFloat (current / target * 100)%float
        else VInt 0).
Proof.
  intros Hc Ht. unfold goal_progress, dict_item, dict_get.
  rewrite Ht, Hc. cbn [mbind Res_bind py_gt_int as_num].
  rewrite num_gt_int_ltb.
  destruct (0 <? target)%float eqn:Hpos; [|reflexivity].
  cbn [py_truediv as_num num_to_float mbind Res_bind].
  rewrite positive_float_nonzero; [reflexivity|].
  apply num_gt_int_float. now rewrite num_gt_int_ltb.
Qed.

(** C5, the input on which the claim fails. A goal with target -10 and
    current value 5 is listed with a progress of 0.0%, while
    5 / -10 * 100 is -50.0. *)
Lemma get_health_goals_negative_target :
  fst (get_health_goals offline world_with_negative_target) =
    Ok ("Active Health Goals (Local Storage)" ++ nl ++ nl
        ++ "Savings" ++ nl
        ++ "  Target: -10.0" ++ nl
        ++ "  Current: 5.0" ++ nl
        ++ "  Progress: 0.0%" ++ nl
        ++ "  Description: None" ++ nl
        ++ "  Goal ID: uuid-0" ++ nl ++ nl)
  /\ float_format_1f (5 / -10 * 100) = "-50.0".
Proof. vm_compute. split; reflexivity. Qed.

(** C5, as amended. For a goal [goal] that [get_health_goals] lists:
    - computing its progress never raises [ZeroDivisionError];
    - when its target is a number that is not greater than 0 (zero,
      negative, NaN), the progress is the int 0, shown as [0.0], and nothing
      is divided;
    - when its target is greater than 0, the progress is the quotient of
      current value and target, times 100; for float values this is
      [current_value / target_value * 100];
    - the block of the goal in the listing shows that progress, formatted
      with one decimal, and the listing is the header followed by the blocks
      of the listed goals. *)
Theorem goal_progress_guarded (goal : dict) :
  (forall msg : string, goal_progress goal <> Raise (ZeroDivisionError msg))
  /\ (forall target : PyVal,
        goal !! "target_value" = Some target -> py_gt_int target 0 = Ok false ->
        goal_progress goal = Ok (VInt 0) /\ py_format_1f (VInt 0) = Ok "0.0")
  /\ (forall target : PyVal,
        goal !! "target_value" = Some target -> py_gt_int target 0 = Ok true ->
        goal_progress goal =
          (q ← py_truediv (dict_get goal "current_value" (VInt 0)) target;
           Ok (VFloat (q * 100)%float)))
  /\ (forall current target : float,
        goal !! "current_value" = Some (VFloat current) ->
        goal !! "target_value" = Some (VFloat target) ->
        goal_progress goal =
          Ok (if (0 <? target)%float then VFloat (current / target * 100)%float
              else VInt 0))
  /\ (forall block : string,
        render_goal goal = Ok block ->
        exists (progress : PyVal) (shown : string),
          goal_progress goal = Ok progress
          /\ py_format_1f progress = Ok shown
          /\ contains ("  Progress: " ++ shown ++ "%") block)
  /\ (forall (goals : list dict) (header text : string),
        render_goals goals header = Ok text ->
        exists blocks : list string,
          Forall2 (fun g block => render_goal g = Ok block) goals blocks
          /\ text = header ++ String.concat EmptyString blocks).
Proof.
  split; [|split; [|split; [|split; [|split]]]].
  - intros msg. unfold goal_progress, dict_item.
    destruct (goal !! "target_value") as [target|]; cbn [mbind Res_bind]; [|discriminate].
    destruct (py_gt_int target 0) as [[|]|e] eqn:Hgt; cbn [mbind Res_bind].
    + pose proof (py_truediv_no_zero_division
                    (dict_get goal "current_value" (VInt 0)) target msg Hgt) as Hq.
      destruct (py_truediv _ target) as [q|e]; cbn [mbind Res_bind];
        [discriminate|congruence].
    + discriminate.
    + unfold py_gt_int in Hgt. destruct (as_num target); [discriminate|].
      injection Hgt as <-. discriminate.
  - intros target Ht Hgt. unfold goal_progress, dict_item.
    rewrite Ht. cbn [mbind Res_bind]. rewrite Hgt. split; reflexivity.
  - intros target Ht Hgt. unfold goal_progress, dict_item.
    rewrite Ht. cbn [mbind Res_bind]. rewrite Hgt. reflexivity.
  - apply goal_progress_floats.
  - intros block. unfold render_goal.
    destruct (goal_progress goal) as [progress|]; cbn [mbind Res_bind]; [|discriminate].
    destruct (dict_item goal "goal_type") as [goal_type|]; cbn [mbind Res_bind];
      [|discriminate].
    destruct (py_title goal_type) as [title|]; cbn [mbind Res_bind]; [|discriminate].
    destruct (dict_item goal "target_value") as [target|]; cbn [mbind Res_bind];
      [|discriminate].
    destruct (py_format_1f progress) as [shown|] eqn:Hshown; cbn [mbind Res_bind];
      [|discriminate].
    destruct (dict_item goal "goal_id") as [goal_id|]; cbn [mbind Res_bind];
      [|discriminate].
    intros [= <-]. exists progress, shown. split; [reflexivity|]. split; [exact Hshown|].
    eexists (title ++ nl ++ "  Target: " ++ py_str target ++ nl
             ++ "  Current: " ++ py_str (dict_get goal "current_value" (VInt 0)) ++ nl),
            _.
    rewrite !append_assoc. reflexivity.
  - intros goals header text. apply render_goals_blocks.
Qed.

(** *** A goal that was just added *)



Lemma render_goals_app (l1 l2 : list dict) (result : string) :
  render_goals (l1 ++ l2) result = (text ← render_goals l1 result; render_goals l2 text).
Proof.
  revert result. induction l1 as [|goal l1 IH]; intros result; cbn [render_goals app].
  - reflexivity.
  - destruct (render_goal goal) as [block|e]; cbn [mbind Res_bind]; [apply IH|reflexivity].
Qed.

Lemma render_goals_all (goals : list dict) (result : string) :
  Forall (fun goal => exists block, render_goal goal = Ok block) goals ->
  exists rest : string, render_goals goals result = Ok (result ++ rest).
Proof.
  intros Hall. revert result. induction Hall as [|goal goals [block Hb] _ IH]; intros result.
  - exists EmptyString. cbn. now rewrite append_nil_r.
  - cbn [render_goals]. rewrite Hb. cbn [mbind Res_bind].
    destruct (IH (result ++ block)) as [rest ->].
    exists (block ++ rest). now rewrite append_assoc.
Qed.

Lemma od_values_set_fresh {V : Type} (l : list (string * V)) (k : string) (v : V) :
  od_get String.eqb k l = None ->
  od_values (od_set String.eqb k v l) = (od_values l ++ [v])%list.
Proof.
  intros H. rewrite od_set_fresh by exact H. unfold od_values. now rewrite map_app.
Qed.

Section add_then_get.
Context {sb : Supabase.manager}.
Implicit Types (w : World sb) (st : Supabase.state sb).

(** The fallback branch of [get_health_goals]. *)
Lemma get_health_goals_local w st1 :
  Supabase.is_connected sb (supabase_manager w) = (Ok false, st1) ->
  get_health_goals sb w =
    (Ok match filter (fun goal => is_active goal = true) (od_values (health_goals w)) with
        | [] => "No active health goals found. Add a goal to get started! (Local Storage)"
        | active_goals =>
            match render_goals active_goals
                    ("Active Health Goals (Local Storage)" ++ nl ++ nl) with
            | Ok text => text
            | Raise e => "Error getting health goals: " ++ exn_str e
            end
        end,
     set_supabase_manager st1 w).
Proof.
  intros Hc. destruct w as [st g l today now src n]. world_simpl.
  unfold_tool. world_simpl. rewrite Hc. world_simpl.
  destruct (filter _ (od_values g)) as [|goal goals]; [reflexivity|].
  destruct (render_goals _ _); reflexivity.
Qed.

(** The remote branch of [get_health_goals]. *)
Lemma get_health_goals_remote w st1 st2 (rows : list dict) :
  Supabase.is_connected sb (supabase_manager w) = (Ok true, st1) ->
  Supabase.get_health_goals sb st1 = (Ok rows, st2) ->
  get_health_goals sb w =
    (Ok match rows with
        | [] => "No active health goals found. Add a goal to get started!"
        | _ =>
            match render_goals rows ("Active Health Goals" ++ nl ++ nl) with
            | Ok text => text
            | Raise e => "Error getting health goals: " ++ exn_str e
            end
        end,
     set_supabase_manager st2 w).
Proof.
  intros Hc Hrows. destruct w as [st g l today now src n]. world_simpl.
  unfold_tool. world_simpl. rewrite Hc. world_simpl. rewrite Hrows.
  destruct rows as [|goal goals]; [reflexivity|].
  destruct (render_goals _ _); reflexivity.
Qed.

(** The fallback stores after [add_health_goal] in the fallback branch. *)
Lemma add_health_goal_local_goals w st1 goal_type target_value description
    daily_calorie_goal :
  Supabase.is_connected sb (supabase_manager w) = (Ok false, st1) ->
  let w1 := snd (add_health_goal sb goal_type target_value description
                   daily_calorie_goal w) in
  let goals1 :=
    od_set String.eqb (uuid_source w (uuid_count w))
      (local_goal_data (uuid_source w (uuid_count w)) goal_type target_value
         description (now_iso w))
      (health_goals w) in
  supabase_manager w1 = st1
  /\ health_goals w1 =
       match daily_calorie_goal with
       | Some dcg =>
           if dcg =? 0 then goals1
           else od_set String.eqb (uuid_source w (S (uuid_count w)))
                  (local_calorie_goal_data (uuid_source w (S (uuid_count w))) dcg
                     (now_iso w))
                  goals1
       | None => goals1
       end.
Proof.
  intros Hc. destruct w as [st g l today now src n]. world_simpl.
  unfold_tool. world_simpl. rewrite Hc. world_simpl.
  destruct daily_calorie_goal as [dcg|]; [|split; reflexivity].
  cbn [py_truthy]. destruct (dcg =? 0); split; reflexivity.
Qed.

End add_then_get.

Lemma render_goals_lists_block (l1 l2 : list dict) (goal : dict)
    (header block : string) :
  Forall (fun g => exists b, render_goal g = Ok b) l1 ->
  render_goal goal = Ok block ->
  Forall (fun g => exists b, render_goal g = Ok b) l2 ->
  exists text : string,
    render_goals (l1 ++ goal :: l2) header = Ok text /\ lists_block header block text.
Proof.
  intros H1 Hg H2. rewrite render_goals_app.
  destruct (render_goals_all l1 header H1) as [before ->]. cbn [mbind Res_bind render_goals].
  rewrite Hg. cbn [mbind Res_bind].
  destruct (render_goals_all l2 ((header ++ before) ++ block) H2) as [after ->].
  eexists. split; [reflexivity|]. exists before, after.
  now rewrite !append_assoc.
Qed.



(** *** Failures of the remote store *)

(** Case analysis on the replies of the manager and on the intermediate
    results of a run, innermost first. *)
Ltac case_reply :=
  match goal with
  | |- context [Supabase.add_health_goal ?sb ?d ?st] =>
      destruct (Supabase.add_health_goal sb d st) as [[?|?] ?] eqn:?
  | |- context [Supabase.update_health_goal ?sb ?i ?d ?st] =>
      destruct (Supabase.update_health_goal sb i d st) as [[[|]|?] ?] eqn:?
  | |- context [Supabase.get_food_logs ?sb ?d ?st] =>
      destruct (Supabase.get_food_logs sb d st) as [[[|? ?]|?] ?] eqn:?
  | |- context [Supabase.add_food_log ?sb ?d ?st] =>
      destruct (Supabase.add_food_log sb d st) as [[?|?] ?] eqn:?
  | |- context [float_of_Z ?z] => destruct (float_of_Z z) eqn:?
  | |- context [sum_calories ?x] => destruct (sum_calories x) eqn:?
  | |- context [render_food_log ?h ?x] =>
      destruct (render_food_log h x) as [[? ?]|?] eqn:?
  | |- context [Supabase.get_health_goals ?sb ?st] =>
      destruct (Supabase.get_health_goals sb st) as [[[|? ?]|?] ?] eqn:?
  | |- context [goal_commentary ?t ?x] => destruct (goal_commentary t x) eqn:?
  | |- context [render_goals ?l ?x] => destruct (render_goals l x) eqn:?
  | |- context [?z =? 0] => destruct (z =? 0) eqn:?
  end.

Ltac case_replies := repeat (world_simpl; cbn [py_truthy negb]; case_reply).

(** C7, the input on which the claim fails. The store is connected and
    [get_health_goals] raises: [add_food_log] and [get_food_log] return
    their text without goal commentary and without any error. *)
Lemma food_tools_swallow_goal_failure :
  Supabase.get_health_goals scripted goals_unavailable
    = (Raise (RemoteError "goals table unavailable"), goals_unavailable)
  /\ fst (add_food_log scripted "lunch" "rice" (Some 500)
            goals_unavailable_world)
     = Ok ("Food logged successfully!" ++ nl ++ nl
           ++ "Meal: Lunch" ++ nl ++ "Food: rice" ++ nl ++ "Calories: 500" ++ nl
           ++ nl ++ "Today's Total Calories: 500")
  /\ fst (get_food_log scripted goals_unavailable_world)
     = Ok ("Today's Food Log" ++ nl ++ nl
           ++ "Lunch" ++ nl ++ "  rice (500 cal)" ++ nl
           ++ "  Meal Total: 500 calories" ++ nl ++ nl
           ++ "Daily Total: 500 calories").
Proof. vm_compute. repeat split. Qed.

(** The remote branch of every operation returns a text and leaves the
    fallback stores and the identifier count as they were. *)
Lemma remote_branch_keeps_fallback_stores {sb : Supabase.manager} (o : op)
    (w : World sb) (st1 : Supabase.state sb) :
  Supabase.is_connected sb (supabase_manager w) = (Ok true, st1) ->
  exists (text : string) (w' : World sb),
    run sb o w = (Ok text, w')
    /\ health_goals w' = health_goals w
    /\ food_logs w' = food_logs w
    /\ uuid_count w' = uuid_count w.
Proof.
  intros Hc. destruct w as [st g l today now src n]. world_simpl.
  destruct o as [? ? ? [dcg|]| | | |]; unfold_tool; world_simpl; rewrite Hc;
    case_replies; world_simpl; eexists _, _; repeat split; reflexivity.
Qed.

(** C7, as amended. The remote store is selected. Then, for every operation:
    - the call returns a text, that is, nothing is raised to the caller;
    - the two fallback stores are as before, and no identifier is drawn;
    - when a manager call of the operation raises, the goal check of the
      two food tools excepted, the text is the operation's error prefix
      followed by the message of the exception;
    - when only the goal check of a food tool fails, the text is the one
      built up to then, without commentary. *)
Theorem remote_failure_is_reported {sb : Supabase.manager} (o : op) (w : World sb)
    (st1 : Supabase.state sb) :
  Supabase.is_connected sb (supabase_manager w) = (Ok true, st1) ->
  (exists (text : string) (w' : World sb),
     run sb o w = (Ok text, w')
     /\ health_goals w' = health_goals w
     /\ food_logs w' = food_logs w
     /\ uuid_count w' = uuid_count w)
  /\ (forall e : exn,
        remote_failure o (today_iso w) st1 = Some e ->
        fst (run sb o w) = Ok (error_prefix o ++ exn_str e))
  /\ (forall (total_calories : num) (result : string) (w1 : World sb) (e : exn)
        (st2 : Supabase.state sb),
        Supabase.get_health_goals sb (supabase_manager w1) = (Raise e, st2) ->
        remote_goal_check sb total_calories result w1
          = (Ok result, set_supabase_manager st2 w1)).
Proof.
  intros Hc. split; [exact (remote_branch_keeps_fallback_stores o w st1 Hc)|].
  destruct w as [st g l today now src n]. world_simpl. split.
  - intros e.
    destruct o as [? ? ? [dcg|]| | | |]; unfold remote_failure; unfold_tool;
      world_simpl; rewrite Hc; case_replies; world_simpl;
      first [congruence | intros; simplify_eq; reflexivity].
  - intros total_calories result w1 e st2 Hgoals.
    destruct w1 as [st' g' l' today' now' src' n']. world_simpl.
    unfold_tool. world_simpl. rewrite Hgoals. reflexivity.
Qed.

Lemma remote_failure_is_reported_witness :
  fst (run scripted GetHealthGoals goals_unavailable_world)
    = Ok "Error getting health goals: goals table unavailable"
  /\ fst (run scripted (UpdateHealthGoal "goal-1" None (Some 5%float) None)
            goals_unavailable_world)
     = Ok ("Health goal updated successfully!" ++ nl ++ nl
           ++ "Goal ID: goal-1" ++ nl ++ "Updates applied successfully").
Proof.
  split.
  - destruct (remote_failure_is_reported (sb:=scripted) GetHealthGoals
                goals_unavailable_world goals_unavailable eq_refl)
      as (_ & Herror & _).
    exact (Herror (RemoteError "goals table unavailable") eq_refl).
  - destruct (remote_failure_is_reported (sb:=scripted)
                (UpdateHealthGoal "goal-1" None (Some 5%float) None)
                goals_unavailable_world goals_unavailable eq_refl)
      as ((text & w' & Hrun & _) & _).
    rewrite Hrun. vm_compute in Hrun. injection Hrun as <- _. reflexivity.
Defined.

(** *** Which backend services a call *)

(** Case analysis on the innermost scrutinee of the goal. *)
Ltac case_innermost :=
  match goal with
  | |- context [match ?x with _ => _ end] =>
      lazymatch x with
      | context [match _ with _ => _ end] => fail
      | _ =>
          tryif is_var x
          then lazymatch type of x with
               | prod _ _ => destruct x
               | Res _ => destruct x
               | bool => destruct x
               | option _ => destruct x
               | list _ => destruct x
               end
          else destruct x eqn:?
      end
  end.

Ltac case_all := repeat (world_simpl; cbn [py_truthy negb mbind Res_bind]; case_innermost).






(** *** What a sequence of calls keeps *)

Section evolution.
Context {V : Type}.
Implicit Types (g : list (string * V)) (n : nat) (src : nat -> string).

Lemma od_set_keys_present g (k : string) (v v' : V) :
  od_get String.eqb k g = Some v' ->
  map fst (od_set String.eqb k v g) = map fst g.
Proof.
  induction g as [|[k0 v0] g IH]; cbn [od_get od_set map fst]; [discriminate|].
  destruct (String.eqb k k0); cbn [map fst]; [reflexivity|].
  intros H. now rewrite IH.
Qed.

Lemma fresh_from_draw src n g : fresh_from src n g -> fresh_from src (S n) g.
Proof. intros [Hnew Hinj]. split; intros; [apply Hnew|apply Hinj]; auto with lia. Qed.

Lemma fresh_from_add src n g (v : V) :
  fresh_from src n g -> fresh_from src (S n) (od_set String.eqb (src n) v g).
Proof.
  intros [Hnew Hinj]. split.
  - intros i Hi. rewrite od_get_set_ne; [apply Hnew; lia|].
    intros E. apply Hinj in E; lia.
  - intros i j Hi Hj. apply Hinj; lia.
Qed.

Lemma fresh_from_patch src n g (k : string) (v v' : V) :
  od_get String.eqb k g = Some v' ->
  fresh_from src n g -> fresh_from src n (od_set String.eqb k v g).
Proof.
  intros Hk [Hnew Hinj]. split; [|exact Hinj].
  intros i Hi. rewrite od_get_set_ne; [now apply Hnew|].
  intros ->. rewrite Hnew in Hk by exact Hi. discriminate.
Qed.
End evolution.

Lemma goals_evolve_trans src n1 g1 n2 g2 n3 g3 :
  goals_evolve src n1 g1 n2 g2 -> goals_evolve src n2 g2 n3 g3 ->
  goals_evolve src n1 g1 n3 g3.
Proof.
  induction 1; intros H23; [exact H23| | |].
  - apply evolve_add with goal. auto.
  - apply evolve_patch with goal_id goal key value; auto.
  - apply evolve_draw. auto.
Qed.

Lemma evolve_patch_last src n g n' g' goal_id goal key value :
  goals_evolve src n g n' g' ->
  od_get String.eqb goal_id g' = Some goal ->
  key <> "is_active" ->
  goals_evolve src n g n' (od_set String.eqb goal_id (<[key := value]> goal) g').
Proof.
  intros H Hget Hkey. apply (goals_evolve_trans _ _ _ _ _ _ _ H).
  apply evolve_patch with goal_id goal key value; auto. constructor.
Qed.

(** What an evolution keeps: the keys, in order, and the ["is_active"] entry
    of every goal it started with. *)
Lemma goals_evolve_keeps src n g n' g' :
  goals_evolve src n g n' g' ->
  fresh_from src n g ->
  fresh_from src n' g'
  /\ (exists added, map fst g' = (map fst g ++ added)%list)
  /\ (forall goal_id goal,
        od_get String.eqb goal_id g = Some goal ->
        exists goal', od_get String.eqb goal_id g' = Some goal'
                      /\ goal' !! "is_active" = goal !! "is_active").
Proof.
  induction 1 as [n g|n g new n' g' _ IH|n g k old key value n' g' Hk Hkey _ IH
                 |n g n' g' _ IH]; intros Hfresh.
  - split; [exact Hfresh|]. split; [exists []; now rewrite app_nil_r|]. eauto.
  - destruct (IH (fresh_from_add src n g new Hfresh)) as (Hf & [added Hkeys] & Hkept).
    split; [exact Hf|]. destruct Hfresh as [Hnew _].
    split.
    + exists (src n :: added). rewrite Hkeys, od_set_fresh by (apply Hnew; lia).
      rewrite map_app. cbn [map fst]. now rewrite <- app_assoc.
    + intros goal_id goal Hg. apply Hkept. rewrite od_get_set_ne; [exact Hg|].
      intros <-. rewrite Hnew in Hg by lia. discriminate.
  - destruct (IH (fresh_from_patch src n g k _ old Hk Hfresh))
      as (Hf & [added Hkeys] & Hkept).
    split; [exact Hf|]. split.
    + exists added. now rewrite Hkeys, (od_set_keys_present g k _ old Hk).
    + intros goal_id goal Hg. destruct (String.eqb_spec k goal_id) as [<-|Hne].
      * destruct (Hkept k (<[key := value]> old) (od_get_set_eq g k _))
          as (goal' & Hg' & Hactive).
        exists goal'. split; [exact Hg'|]. rewrite Hactive.
        rewrite lookup_insert_ne by exact Hkey. congruence.
      * apply Hkept. now rewrite od_get_set_ne.
  - exact (IH (fresh_from_draw src n g Hfresh)).
Qed.

Section calls.
Context {sb : Supabase.manager}.
Implicit Types (w : World sb).

Lemma evolves_refl w : evolves w w.
Proof.
  split; [reflexivity|]. split; [exists []; now rewrite app_nil_r|constructor].
Qed.

Lemma evolves_trans w1 w2 w3 : evolves w1 w2 -> evolves w2 w3 -> evolves w1 w3.
Proof.
  intros (Hs1 & [a1 Hl1] & Hg1) (Hs2 & [a2 Hl2] & Hg2). split; [congruence|]. split.
  - exists (a1 ++ a2)%list. now rewrite Hl2, Hl1, <- app_assoc.
  - rewrite Hs1 in Hg2. exact (goals_evolve_trans _ _ _ _ _ _ _ Hg1 Hg2).
Qed.

Ltac solve_evolves :=
  split; [reflexivity|];
  split;
  [ first [ exists []; symmetry; apply app_nil_r | eexists; reflexivity ]
  | first [ solve [eauto 8 using evolve_done, evolve_add, evolve_draw]
          | repeat (eapply evolve_patch_last; [ | eassumption | discriminate ]);
            apply evolve_done ] ].

(** Every call of a tool, in either branch and whether or not something
    fails, is such a move. *)
Lemma run_evolves (o : op) w : evolves w (snd (run sb o w)).
Proof.
  destruct w as [st g l today now src n]. unfold evolves. world_simpl.
  destruct o as [? ? ? [dcg|]|goal_id [t|] [c|] [d|]| | |]; unfold_tool; world_simpl;
    case_all; solve_evolves.
Qed.

Lemma step_evolves w w' : step w w' -> evolves w w'.
Proof.
  destruct 1 as [o w|w w' (Hg & Hl & Hs & Hn)]; [apply run_evolves|].
  unfold evolves. rewrite Hg, Hl, Hs, Hn.
  split; [reflexivity|]. split; [exists []; now rewrite app_nil_r|constructor].
Qed.

Lemma steps_evolve w w' : rtc step w w' -> evolves w w'.
Proof.
  induction 1 as [w|w1 w2 w3 H12 _ IH]; [apply evolves_refl|].
  exact (evolves_trans _ _ _ (step_evolves _ _ H12) IH).
Qed.

End calls.

Lemma to_int_nonnil (z : Z) : Z.to_int z <> Decimal.Pos Decimal.Nil
                              /\ Z.to_int z <> Decimal.Neg Decimal.Nil.
Proof.
  destruct z as [|p|p]; cbn; split; try discriminate;
    intros [= H]; exact (DecimalPos.Unsigned.to_uint_nonnil p H).
Qed.

Lemma str_of_Z_inj (a b : Z) : str_of_Z a = str_of_Z b -> a = b.
Proof.
  unfold str_of_Z. intros H. apply DecimalZ.to_int_inj.
  apply (f_equal NilZero.int_of_string) in H.
  rewrite !NilZero.isi in H by apply to_int_nonnil. congruence.
Qed.

Lemma sample_uuids_inj (i j : nat) : sample_uuids i = sample_uuids j -> i = j.
Proof.
  unfold sample_uuids. intros H. apply String.app_inj in H.
  apply str_of_Z_inj in H. lia.
Qed.

Lemma offline_world_fresh : fresh_uuids offline_world.
Proof.
  split.
  - intros i _. reflexivity.
  - intros i j _ _. apply sample_uuids_inj.
Qed.

(** C9. Start from a world in which the identifiers still to be drawn are
    distinct and unused, and let any sequence of tool calls run, with the
    store going up or down and the clock moving between them. Then:
    - [food_logs] is the old list with entries added at its end;
    - the keys of [health_goals] are the old keys, in order, with keys added
      at the end;
    - every goal that was stored is still stored under its identifier, and
      its ["is_active"] entry, hence its active state, is what it was;
    - the [updates] that [update_health_goal] sends to the remote store never
      carry the key ["is_active"]. *)
Theorem stored_records_are_kept {sb : Supabase.manager} (w w' : World sb) :
  fresh_uuids w ->
  rtc step w w' ->
  (exists added, food_logs w' = (food_logs w ++ added)%list)
  /\ (exists added, map fst (health_goals w') = (map fst (health_goals w) ++ added)%list)
  /\ (forall goal_id goal,
        od_get String.eqb goal_id (health_goals w) = Some goal ->
        exists goal',
          od_get String.eqb goal_id (health_goals w') = Some goal'
          /\ goal' !! "is_active" = goal !! "is_active"
          /\ is_active goal' = is_active goal)
  /\ (forall target_value current_value description,
        goal_updates target_value current_value description !! "is_active" = None).
Proof.
  intros Hfresh Hsteps.
  destruct (steps_evolve w w' Hsteps) as (_ & Hfoods & Hgoals).
  destruct (goals_evolve_keeps _ _ _ _ _ Hgoals Hfresh) as (_ & Hkeys & Hkept).
  split; [exact Hfoods|]. split; [exact Hkeys|]. split.
  - intros goal_id goal Hg. destruct (Hkept goal_id goal Hg) as (goal' & Hg' & Hactive).
    exists goal'. split; [exact Hg'|]. split; [exact Hactive|].
    unfold is_active, dict_get. now rewrite Hactive.
  - intros [t|] [c|] [d|]; reflexivity.
Qed.

Lemma stored_records_are_kept_witness :
  let w' :=
    snd (run offline (UpdateHealthGoal "uuid-0" (Some 65%float) (Some 68%float) None)
           (snd (run offline (AddFoodLog "lunch" "rice" (Some 500))
                   world_with_goal_2000))) in
  (exists added, food_logs w' = (food_logs world_with_goal_2000 ++ added)%list)
  /\ (exists added,
        map fst (health_goals w')
        = (map fst (health_goals world_with_goal_2000) ++ added)%list)
  /\ (exists goal',
        od_get String.eqb "uuid-0" (health_goals w') = Some goal'
        /\ is_active goal' = true).
Proof.
  assert (Hfresh : fresh_uuids world_with_goal_2000).
  { destruct (goals_evolve_keeps _ _ _ _ _
                (proj2 (proj2 (run_evolves (AddHealthGoal "weight" 70 None (Some 2000))
                                 offline_world)))
                offline_world_fresh) as [Hf _].
    exact Hf. }
  destruct (stored_records_are_kept (sb:=offline) world_with_goal_2000 _ Hfresh
              (rtc_l _ _ _ _ (step_call (AddFoodLog "lunch" "rice" (Some 500)) _)
                 (rtc_once _ _
                    (step_call
                       (UpdateHealthGoal "uuid-0" (Some 65%float) (Some 68%float) None)
                       _))))
    as (Hfoods & Hkeys & Hkept & _).
  split; [exact Hfoods|]. split; [exact Hkeys|].
  destruct (Hkept "uuid-0" (local_goal_data "uuid-0" "weight" 70 None
                              "2025-01-15T08:30:00") eq_refl)
    as (goal' & Hg' & _ & Hactive).
  exists goal'. split; [exact Hg'|]. rewrite Hactive. reflexivity.
Defined.

(** ** Further properties of the tools *)

(** *** What a call touches *)

Section frames.
Context {sb : Supabase.manager}.
Implicit Types (w : World sb) (st : Supabase.state sb).

(** The store of the other kind, and for a query both stores, are as before
    the call. *)
Lemma run_frame (o : op) w :
  match o with
  | GetHealthGoals | GetFoodLog =>
      health_goals (snd (run sb o w)) = health_goals w
      /\ food_logs (snd (run sb o w)) = food_logs w
      /\ uuid_count (snd (run sb o w)) = uuid_count w
  | AddFoodLog _ _ _ => health_goals (snd (run sb o w)) = health_goals w
  | AddHealthGoal _ _ _ _ => food_logs (snd (run sb o w)) = food_logs w
  | UpdateHealthGoal _ _ _ _ =>
      food_logs (snd (run sb o w)) = food_logs w
      /\ uuid_count (snd (run sb o w)) = uuid_count w
  end.
Proof.
  destruct w as [st g l today now src n]. world_simpl.
  destruct o as [? ? ? [dcg|]|goal_id [t|] [c|] [d|]| | |]; unfold_tool; world_simpl;
    case_all; world_simpl; repeat split; reflexivity.
Qed.

(** The connectivity check raises: nothing else is done. *)
Lemma run_check_raises (o : op) w (e : exn) st1 :
  Supabase.is_connected sb (supabase_manager w) = (Raise e, st1) ->
  run sb o w = (Ok (error_prefix o ++ exn_str e), set_supabase_manager st1 w).
Proof.
  intros Hc. destruct w as [st g l today now src n]. world_simpl.
  destruct o; unfold_tool; world_simpl; rewrite Hc; reflexivity.
Qed.

End frames.

(** X1. For a manager whose calls return or raise an exception of class
    [Exception] (the class that the handlers of the tools catch; an
    exception outside it is not modelled), a call changes at most the
    fallback store of its own kind, whether the tool succeeds or reports an
    error: the two queries change neither fallback store and draw no
    identifier, [add_food_log] leaves [health_goals] alone, and
    [add_health_goal] and [update_health_goal] leave [food_logs] alone. *)
Theorem tools_touch_their_own_store {sb : Supabase.manager} (o : op) (w : World sb) :
  match o with
  | GetHealthGoals | GetFoodLog =>
      health_goals (snd (run sb o w)) = health_goals w
      /\ food_logs (snd (run sb o w)) = food_logs w
      /\ uuid_count (snd (run sb o w)) = uuid_count w
  | AddFoodLog _ _ _ => health_goals (snd (run sb o w)) = health_goals w
  | AddHealthGoal _ _ _ _ => food_logs (snd (run sb o w)) = food_logs w
  | UpdateHealthGoal _ _ _ _ =>
      food_logs (snd (run sb o w)) = food_logs w
      /\ uuid_count (snd (run sb o w)) = uuid_count w
  end.
Proof. apply run_frame. Qed.

(** X2. When the connectivity check itself raises, every tool returns its
    error prefix followed by the message of the exception, makes no other
    call on the manager, and leaves both fallback stores and the identifier
    count as they were. *)
Theorem failed_check_is_reported {sb : Supabase.manager} (o : op) (w : World sb)
    (e : exn) (st1 : Supabase.state sb) :
  Supabase.is_connected sb (supabase_manager w) = (Raise e, st1) ->
  run sb o w = (Ok (error_prefix o ++ exn_str e), set_supabase_manager st1 w).
Proof. apply run_check_raises. Qed.

Lemma failed_check_is_reported_witness :
  run check_fails (AddFoodLog "lunch" "rice" (Some 500))
      (sample_world (sb:=check_fails) tt)
    = (Ok "Error adding food log: connection timed out",
       sample_world (sb:=check_fails) tt).
Proof.
  exact (failed_check_is_reported (sb:=check_fails) (AddFoodLog "lunch" "rice" (Some 500))
           (sample_world (sb:=check_fails) tt) (RemoteError "connection timed out") tt
           eq_refl).
Defined.

(** *** Insertion-ordered dicts, continued *)

Section odict_more.
Context {V : Type}.
Implicit Types (l : list (string * V)) (k : string) (v : V).

Lemma od_set_get_same l k v : od_get String.eqb k l = Some v -> od_set String.eqb k v l = l.
Proof.
  induction l as [|[k' v'] l IH]; cbn [od_get od_set]; [discriminate|].
  destruct (String.eqb k k'); [now intros [= ->]|]. intros H. now rewrite IH.
Qed.

Lemma od_set_set l k v1 v2 :
  od_set String.eqb k v2 (od_set String.eqb k v1 l) = od_set String.eqb k v2 l.
Proof.
  induction l as [|[k' v'] l IH]; cbn [od_set].
  - now rewrite String.eqb_refl.
  - destruct (String.eqb k k') eqn:E; cbn [od_set]; rewrite E; [reflexivity|now rewrite IH].
Qed.

Lemma od_get_Forall (P : string -> V -> Prop) l k v :
  Forall (fun entry => P (fst entry) (snd entry)) l ->
  od_get String.eqb k l = Some v -> P k v.
Proof.
  induction 1 as [|[k' v'] l Hx _ IH]; cbn [od_get]; [discriminate|].
  destruct (String.eqb_spec k k') as [->|_]; [now intros [= <-]|exact IH].
Qed.

Lemma od_set_Forall (P : string -> V -> Prop) l k v :
  Forall (fun entry => P (fst entry) (snd entry)) l -> P k v ->
  Forall (fun entry => P (fst entry) (snd entry)) (od_set String.eqb k v l).
Proof.
  intros Hl Hv. induction Hl as [|[k' v'] l Hx Hl IH]; cbn [od_set].
  - constructor; [exact Hv|constructor].
  - destruct (String.eqb_spec k k') as [->|_]; constructor; auto.
Qed.
End odict_more.

Section local_runs.
Context {sb : Supabase.manager}.
Implicit Types (w : World sb) (st : Supabase.state sb).

(** The fallback branch of [update_health_goal] on a stored goal: the goal
    is patched first, and whatever is raised while the text is built becomes
    the returned text. *)
Lemma update_health_goal_local w st1 goal_id t c d (goal : dict) :
  Supabase.is_connected sb (supabase_manager w) = (Ok false, st1) ->
  od_get String.eqb goal_id (health_goals w) = Some goal ->
  let goal' := patched_goal goal t c d in
  update_health_goal sb goal_id t c d w =
    (Ok match
          goal_type ← dict_item goal' "goal_type";
          title ← py_title goal_type;
          target ← dict_item goal' "target_value";
          current ← dict_item goal' "current_value";
          Ok ("Health goal updated successfully! (Local Storage)" ++ nl ++ nl
              ++ "Goal: " ++ title ++ nl
              ++ "Target: " ++ py_str target ++ nl
              ++ "Current: " ++ py_str current)
        with
        | Ok text => text
        | Raise e => "Error updating health goal: " ++ exn_str e
        end,
     set_health_goals (od_set String.eqb goal_id goal' (health_goals w))
       (set_supabase_manager st1 w)).
Proof.
  intros Hc Hget goal'. subst goal'. destruct w as [st g l today now src n].
  world_simpl. unfold_tool. world_simpl. rewrite Hc. world_simpl. rewrite Hget.
  destruct t as [t|], c as [c|], d as [d|]; cbn [patched_goal]; world_simpl;
    rewrite ?Hget; world_simpl; rewrite ?od_get_set_eq; world_simpl;
    rewrite ?od_get_set_eq; world_simpl; rewrite ?od_get_set_eq, ?Hget; world_simpl;
    rewrite ?od_set_set, ?(od_set_get_same g goal_id goal Hget);
    cbv beta iota delta [lift];
    repeat match goal with
           | |- context [dict_item ?x ?k] => destruct (dict_item x k); cbn [mbind Res_bind]
           | |- context [py_title ?x] => destruct (py_title x); cbn [mbind Res_bind]
           end; reflexivity.
Qed.
End local_runs.

(** *** The records that the fallback stores hold *)

Lemma patched_goal_target (goal : dict) t c d :
  patched_goal goal t c d !! "target_value" =
    match t with Some x => Some (VFloat x) | None => goal !! "target_value" end.
Proof. destruct t, c, d; cbn [patched_goal]; now simplify_map_eq. Qed.

Lemma patched_goal_current (goal : dict) t c d :
  patched_goal goal t c d !! "current_value" =
    match c with Some x => Some (VFloat x) | None => goal !! "current_value" end.
Proof. destruct t, c, d; cbn [patched_goal]; now simplify_map_eq. Qed.

Lemma patched_goal_description (goal : dict) t c d :
  patched_goal goal t c d !! "description" =
    match d with Some x => Some (VStr x) | None => goal !! "description" end.
Proof. destruct t, c, d; cbn [patched_goal]; now simplify_map_eq. Qed.

Lemma patched_goal_other (goal : dict) t c d (key : string) :
  key <> "target_value" -> key <> "current_value" -> key <> "description" ->
  patched_goal goal t c d !! key = goal !! key.
Proof. intros. destruct t, c, d; cbn [patched_goal]; now simplify_map_eq. Qed.

Lemma patched_goal_stored (goal_id : string) (goal : dict) t c d :
  stored_goal goal_id goal -> stored_goal goal_id (patched_goal goal t c d).
Proof.
  intros (Hid & Hty & Htarget & Hcurrent & Hactive). unfold stored_goal.
  rewrite patched_goal_target, patched_goal_current, !patched_goal_other by discriminate.
  split; [exact Hid|]. split; [exact Hty|]. split; [|split; [|exact Hactive]].
  - destruct t; eauto.
  - destruct c; eauto.
Qed.

Lemma local_goal_data_stored goal_id goal_type target_value description created_at :
  stored_goal goal_id
    (local_goal_data goal_id goal_type target_value description created_at).
Proof. repeat split; eauto. Qed.

Lemma local_calorie_goal_data_stored calorie_goal_id dcg created_at :
  stored_goal calorie_goal_id (local_calorie_goal_data calorie_goal_id dcg created_at).
Proof. repeat split; eauto. Qed.

Lemma local_food_data_stored food_id meal_type food_item calories today created_at :
  stored_food (local_food_data food_id meal_type food_item calories today created_at).
Proof.
  repeat split; eauto.
  change (local_food_data food_id meal_type food_item calories today created_at
            !! "calories") with (Some (opt_int calories)).
  destruct calories; cbn [opt_int]; eauto.
Qed.

Section invariant.
Context {sb : Supabase.manager}.
Implicit Types (w : World sb) (st : Supabase.state sb).

(** [update_health_goal] on an identifier that the fallback store does not
    hold changes neither store. *)
Lemma update_health_goal_local_unknown w st1 goal_id t c d :
  Supabase.is_connected sb (supabase_manager w) = (Ok false, st1) ->
  od_get String.eqb goal_id (health_goals w) = None ->
  update_health_goal sb goal_id t c d w =
    (Ok ("Health goal " ++ goal_id ++ " not found"), set_supabase_manager st1 w).
Proof.
  intros Hc Hget. destruct w as [st g l today now src n]. world_simpl.
  unfold_tool. world_simpl. rewrite Hc. world_simpl. now rewrite Hget.
Qed.

Lemma run_well_formed (o : op) w : well_formed w -> well_formed (snd (run sb o w)).
Proof.
  intros [Hgoals Hfoods]. unfold well_formed.
  destruct (Supabase.is_connected sb (supabase_manager w)) as [[[|]|e] st1] eqn:Hc.
  - destruct (remote_branch_keeps_fallback_stores o w st1 Hc)
      as (text & w' & Hrun & Hg & Hl & _).
    rewrite Hrun. cbn [snd]. rewrite Hg, Hl. now split.
  - pose proof (run_frame o w) as Hframe.
    destruct o as [goal_type target_value description dcg|goal_id t c d| |meal food cal|];
      cbn [run] in *.
    + rewrite Hframe. split; [|exact Hfoods].
      destruct (add_health_goal_local_goals w st1 goal_type target_value description
                  dcg Hc) as [_ ->].
      assert (H1 : Forall (fun entry => stored_goal (fst entry) (snd entry))
                     (od_set String.eqb (uuid_source w (uuid_count w))
                        (local_goal_data (uuid_source w (uuid_count w)) goal_type
                           target_value description (now_iso w)) (health_goals w)))
        by (apply od_set_Forall; [exact Hgoals|apply local_goal_data_stored]).
      destruct dcg as [z|]; [|exact H1]. destruct (z =? 0); [exact H1|].
      apply od_set_Forall; [exact H1|apply local_calorie_goal_data_stored].
    + destruct Hframe as [-> _]. split; [|exact Hfoods].
      destruct (od_get String.eqb goal_id (health_goals w)) as [goal|] eqn:Hget.
      * rewrite (update_health_goal_local w st1 goal_id t c d goal Hc Hget).
        cbn [snd]. destruct w as [st g l today now src n]. world_simpl.
        apply od_set_Forall; [exact Hgoals|]. apply patched_goal_stored.
        exact (od_get_Forall stored_goal g goal_id goal Hgoals Hget).
      * rewrite (update_health_goal_local_unknown w st1 goal_id t c d Hc Hget).
        destruct w as [st g l today now src n]. world_simpl. exact Hgoals.
    + destruct Hframe as (-> & -> & _). now split.
    + rewrite Hframe. split; [exact Hgoals|].
      rewrite (add_food_log_local w st1 meal food cal Hc). cbn [snd].
      destruct w as [st g l today now src n]. world_simpl.
      apply Forall_app. split; [exact Hfoods|].
      constructor; [apply local_food_data_stored|constructor].
    + destruct Hframe as (-> & -> & _). now split.
  - rewrite (run_check_raises o w e st1 Hc). cbn [snd].
    destruct w as [st g l today now src n]. world_simpl. now split.
Qed.

Lemma step_well_formed w w' : step w w' -> well_formed w -> well_formed w'.
Proof.
  destruct 1 as [o w|w w' (Hg & Hl & _)]; [apply run_well_formed|].
  unfold well_formed. now rewrite Hg, Hl.
Qed.

Lemma steps_well_formed w w' : rtc step w w' -> well_formed w -> well_formed w'.
Proof. induction 1; eauto using step_well_formed. Qed.

End invariant.

(** X3. Every sequence of tool calls, with the environment moving in
    between, keeps the fallback stores well formed, as they are when the
    module is loaded: each stored goal carries its own identifier, a string
    type, a numeric target, a float current value and no ["is_active"]
    entry; each stored food has a string date, meal type and item, and
    calories that are an int or [None]. *)
Theorem stores_stay_well_formed {sb : Supabase.manager} (w w' : World sb) :
  well_formed w -> rtc step w w' -> well_formed w'.
Proof. intros Hw Hsteps. exact (steps_well_formed w w' Hsteps Hw). Qed.

Lemma stores_stay_well_formed_witness :
  well_formed
    (snd (run offline (AddFoodLog "lunch" "rice" None)
            (snd (run offline (AddHealthGoal "weight" 70 None (Some 2000))
                    offline_world)))).
Proof.
  apply (stores_stay_well_formed (sb:=offline) offline_world).
  - split; constructor.
  - exact (rtc_l _ _ _ _ (step_call (AddHealthGoal "weight" 70 None (Some 2000)) _)
             (rtc_once _ _ (step_call (AddFoodLog "lunch" "rice" None) _))).
Defined.

(** *** Listing the fallback goals *)

Lemma float_of_Z_small (z : Z) : Z.abs z < 2 ^ 1023 -> exists t, float_of_Z z = Ok t.
Proof.
  intros Hz. unfold float_of_Z. destruct (Z.eqb_spec z 0) as [->|Hnz]; [eauto|].
  assert (Ha : 0 < Z.abs z) by lia.
  destruct (round_to_53_bits (Z.abs z)) as [m e] eqn:E.
  assert (He : e <= 971).
  { unfold round_to_53_bits in E.
    assert (Hlog : Z.log2 (Z.abs z) < 1023) by (apply Z.log2_lt_pow2; lia).
    destruct (Z.leb_spec (Z.log2 (Z.abs z) + 1) 53).
    - injection E as _ <-. lia.
    - destruct (_ =? 2 ^ 53); injection E as _ <-; lia. }
  apply Z.ltb_ge in He. rewrite He. eauto.
Qed.

Lemma string_concat_cons (x : string) (l : list string) :
  String.concat EmptyString (x :: l) = x ++ String.concat EmptyString l.
Proof. destruct l; cbn; [now rewrite append_nil_r|reflexivity]. Qed.

Lemma string_concat_app (l1 l2 : list string) :
  String.concat EmptyString (l1 ++ l2)
  = String.concat EmptyString l1 ++ String.concat EmptyString l2.
Proof.
  induction l1 as [|x l1 IH]; [reflexivity|].
  change ((x :: l1) ++ l2)%list with (x :: (l1 ++ l2))%list.
  now rewrite !string_concat_cons, IH, append_assoc.
Qed.

Lemma stored_goal_active (goal_id : string) (goal : dict) :
  stored_goal goal_id goal -> is_active goal = true.
Proof.
  intros (_ & _ & _ & _ & Hactive). unfold is_active, dict_get. now rewrite Hactive.
Qed.

(** The block of a goal whose target and current value are floats. *)
Lemma render_goal_floats (goal : dict) (goal_type goal_id : string)
    (target current : float) :
  goal !! "goal_type" = Some (VStr goal_type) ->
  goal !! "target_value" = Some (VFloat target) ->
  goal !! "current_value" = Some (VFloat current) ->
  goal !! "goal_id" = Some (VStr goal_id) ->
  render_goal goal =
    Ok (goal_block (str_title goal_type) (float_repr target) (float_repr current)
          (if (0 <? target)%float then float_format_1f (current / target * 100)
           else "0.0")
          (py_str (dict_get goal "description" (VStr "No description")))
          goal_id).
Proof.
  intros Hty Htg Hcur Hid. unfold render_goal.
  rewrite (goal_progress_floats goal current target Hcur Htg).
  unfold dict_item, dict_get at 1. rewrite Hty, Htg, Hid, Hcur.
  cbn [mbind Res_bind py_title].
  destruct (0 <? target)%float; reflexivity.
Qed.

(** A stored goal renders, and its block ends with its identifier. *)
Lemma render_stored_goal (goal_id : string) (goal : dict) :
  stored_goal goal_id goal ->
  (forall target : Z, goal !! "target_value" = Some (VInt target) ->
                      Z.abs target < 2 ^ 1023) ->
  exists title target current progress description : string,
    render_goal goal = Ok (goal_block title target current progress description goal_id).
Proof.
  intros (Hid & [ty Hty] & Htarget & [c Hcur] & _) Hsmall.
  destruct Htarget as [[t Htg]|[z Htg]].
  - rewrite (render_goal_floats goal ty goal_id t c Hty Htg Hcur Hid). eauto 10.
  - destruct (float_of_Z_small z (Hsmall z Htg)) as [fz Hfz].
    unfold render_goal, goal_progress, dict_item, dict_get.
    rewrite Hty, Htg, Hid, Hcur.
    cbn [mbind Res_bind py_gt_int as_num num_gt_int].
    destruct (Z.gtb_spec z 0) as [Hpos|Hnpos].
    + cbn [py_truediv as_num num_to_float mbind Res_bind]. rewrite Hfz.
      cbn [mbind Res_bind].
      destruct (float_of_Z_pos z fz Hpos Hfz) as (m & e & E).
      rewrite positive_float_nonzero by (unfold positive_float; now rewrite E).
      cbn [mbind Res_bind py_title py_format_1f]. unfold goal_block. eauto 10.
    + cbn [mbind Res_bind py_title py_format_1f].
      change (float_of_Z 0) with (Ok (A:=float) 0%float).
      cbn [mbind Res_bind]. unfold goal_block. eauto 10.
Qed.

Lemma goal_block_shows_id (title target current progress description goal_id : string) :
  contains ("  Goal ID: " ++ goal_id ++ nl)
    (goal_block title target current progress description goal_id).
Proof.
  exists (title ++ nl ++ "  Target: " ++ target ++ nl
          ++ "  Current: " ++ current ++ nl
          ++ "  Progress: " ++ progress ++ "%" ++ nl
          ++ "  Description: " ++ description ++ nl), nl.
  unfold goal_block. now rewrite !append_assoc.
Qed.

(** The goals of a well-formed store are all active and all render. *)
Lemma stored_goals_listed (goals : list (string * dict)) :
  Forall (fun entry => stored_goal (fst entry) (snd entry)) goals ->
  targets_convert goals ->
  filter (fun goal => is_active goal = true) (od_values goals) = od_values goals
  /\ Forall (fun goal => exists block, render_goal goal = Ok block) (od_values goals).
Proof.
  unfold targets_convert. intros Hstored.
  induction Hstored as [|[goal_id goal] goals Hg _ IH]; intros Hsmall.
  - split; [reflexivity|constructor].
  - apply Forall_cons in Hsmall as [Hs Hsmall]. cbn [fst snd] in *.
    destruct (IH Hsmall) as [Hfilter Hrender].
    change (od_values ((goal_id, goal) :: goals)) with (goal :: od_values goals).
    split.
    + rewrite filter_cons_True by exact (stored_goal_active goal_id goal Hg).
      now rewrite Hfilter.
    + constructor; [|exact Hrender].
      destruct (render_stored_goal goal_id goal Hg Hs) as (? & ? & ? & ? & ? & ->).
      eauto.
Qed.

Section listing.
Context {sb : Supabase.manager}.
Implicit Types (w : World sb) (st : Supabase.state sb).

Lemma get_health_goals_local_stored w st1 :
  Forall (fun entry => stored_goal (fst entry) (snd entry)) (health_goals w) ->
  targets_convert (health_goals w) ->
  Supabase.is_connected sb (supabase_manager w) = (Ok false, st1) ->
  exists blocks : list string,
    Forall2 (fun (entry : string * dict) block =>
               render_goal (snd entry) = Ok block
               /\ contains ("  Goal ID: " ++ fst entry ++ nl) block)
            (health_goals w) blocks
    /\ get_health_goals sb w =
         (Ok match health_goals w with
             | [] => "No active health goals found. Add a goal to get started! (Local Storage)"
             | _ => "Active Health Goals (Local Storage)" ++ nl ++ nl
                    ++ String.concat EmptyString blocks
             end,
          set_supabase_manager st1 w).
Proof.
  intros Hstored Hsmall Hc. rewrite (get_health_goals_local w st1 Hc).
  destruct (stored_goals_listed _ Hstored Hsmall) as [-> Hrender].
  destruct (render_goals_all _ ("Active Health Goals (Local Storage)" ++ nl ++ nl) Hrender)
    as [rest Htext].
  destruct (render_goals_blocks _ _ _ Htext) as (blocks & Hblocks & Hrest).
  exists blocks. split.
  - clear Htext Hrest Hrender. unfold targets_convert in Hsmall.
    revert blocks Hblocks.
    induction Hstored as [|[goal_id goal] goals Hg _ IH]; intros blocks Hblocks.
    + apply Forall2_nil_inv_l in Hblocks as ->. constructor.
    + apply Forall_cons in Hsmall as [Hs Hsmall].
      change (od_values ((goal_id, goal) :: goals)) with (goal :: od_values goals)
        in Hblocks.
      apply Forall2_cons_inv_l in Hblocks as (block & blocks' & Hb & Hbs & ->).
      constructor; [|exact (IH Hsmall blocks' Hbs)].
      split; [exact Hb|]. cbn [fst snd] in *.
      destruct (render_stored_goal goal_id goal Hg Hs) as (? & ? & ? & ? & ? & E).
      rewrite E in Hb. injection Hb as <-. apply goal_block_shows_id.
  - destruct (health_goals w) as [|entry goals]; [reflexivity|].
    change (od_values (entry :: goals)) with (snd entry :: od_values goals) in *.
    cbv beta iota. rewrite Htext, Hrest. now rewrite !append_assoc.
Qed.
End listing.

(** X4. In the fallback branch, on a well-formed store whose int targets
    convert to a float, [get_health_goals] never returns an error and hides
    no goal: it returns the no-goals text when the store is empty, and
    otherwise the header followed by one block per stored goal, in the order
    of insertion, each block showing the identifier of its goal. *)
Theorem fallback_listing_is_complete {sb : Supabase.manager} (w : World sb)
    (st1 : Supabase.state sb) :
  Forall (fun entry => stored_goal (fst entry) (snd entry)) (health_goals w) ->
  targets_convert (health_goals w) ->
  Supabase.is_connected sb (supabase_manager w) = (Ok false, st1) ->
  exists blocks : list string,
    Forall2 (fun (entry : string * dict) block =>
               render_goal (snd entry) = Ok block
               /\ contains ("  Goal ID: " ++ fst entry ++ nl) block)
            (health_goals w) blocks
    /\ get_health_goals sb w =
         (Ok match health_goals w with
             | [] => "No active health goals found. Add a goal to get started! (Local Storage)"
             | _ => "Active Health Goals (Local Storage)" ++ nl ++ nl
                    ++ String.concat EmptyString blocks
             end,
          set_supabase_manager st1 w).
Proof. apply get_health_goals_local_stored. Qed.

Lemma fallback_listing_is_complete_witness :
  exists blocks : list string,
    Forall2 (fun (entry : string * dict) block =>
               render_goal (snd entry) = Ok block
               /\ contains ("  Goal ID: " ++ fst entry ++ nl) block)
            (health_goals world_with_goal_2000) blocks
    /\ get_health_goals offline world_with_goal_2000 =
         (Ok match health_goals world_with_goal_2000 with
             | [] => "No active health goals found. Add a goal to get started! (Local Storage)"
             | _ => "Active Health Goals (Local Storage)" ++ nl ++ nl
                    ++ String.concat EmptyString blocks
             end,
          set_supabase_manager (sb:=offline) tt world_with_goal_2000).
Proof.
  apply (fallback_listing_is_complete (sb:=offline) world_with_goal_2000 tt).
  - repeat (constructor; [repeat split; eauto|]). constructor.
  - repeat (constructor; [intros target [= <-]; reflexivity
                         || (intros target H; discriminate H)|]).
    constructor.
  - reflexivity.
Defined.

(** *** Updating a stored goal *)

Lemma od_set_split {V : Type} (l : list (string * V)) (k : string) (v v' : V) :
  od_get String.eqb k l = Some v ->
  exists l1 l2 : list (string * V),
    l = (l1 ++ (k, v) :: l2)%list
    /\ od_set String.eqb k v' l = (l1 ++ (k, v') :: l2)%list.
Proof.
  induction l as [|[k0 v0] l IH]; cbn [od_get od_set]; [discriminate|].
  destruct (String.eqb_spec k k0) as [->|_].
  - intros [= ->]. exists [], l. split; reflexivity.
  - intros H. destruct (IH H) as (l1 & l2 & -> & ->).
    exists ((k0, v0) :: l1), l2. split; reflexivity.
Qed.

Lemma od_set_keys_kept {V : Type} (l : list (string * V)) (k : string) (v v' : V) :
  od_get String.eqb k l = Some v ->
  map fst (od_set String.eqb k v' l) = map fst l.
Proof.
  intros H. destruct (od_set_split l k v v' H) as (l1 & l2 & -> & ->).
  now rewrite !map_app.
Qed.

(** X5. [update_health_goal] in the fallback branch, on the identifier of a
    stored goal: the call succeeds and its text shows the title of the
    goal's type and the target and current value after the update. In the
    store, the goal under that identifier has each supplied field
    overwritten and every other field as before; every other goal and the
    order of the keys are as before. *)
Theorem update_health_goal_patches_goal {sb : Supabase.manager} (w : World sb)
    (st1 : Supabase.state sb) (goal_id : string) (t c : option float)
    (d : option string) (goal : dict) :
  Supabase.is_connected sb (supabase_manager w) = (Ok false, st1) ->
  od_get String.eqb goal_id (health_goals w) = Some goal ->
  stored_goal goal_id goal ->
  let w' := snd (update_health_goal sb goal_id t c d w) in
  exists (goal_type : string) (target current : PyVal) (goal' : dict),
    goal !! "goal_type" = Some (VStr goal_type)
    /\ fst (update_health_goal sb goal_id t c d w) =
         Ok ("Health goal updated successfully! (Local Storage)" ++ nl ++ nl
             ++ "Goal: " ++ str_title goal_type ++ nl
             ++ "Target: " ++ py_str target ++ nl
             ++ "Current: " ++ py_str current)
    /\ od_get String.eqb goal_id (health_goals w') = Some goal'
    /\ goal' !! "target_value" = Some target
    /\ goal' !! "current_value" = Some current
    /\ goal' !! "target_value" =
         match t with Some x => Some (VFloat x) | None => goal !! "target_value" end
    /\ goal' !! "current_value" =
         match c with Some x => Some (VFloat x) | None => goal !! "current_value" end
    /\ goal' !! "description" =
         match d with Some x => Some (VStr x) | None => goal !! "description" end
    /\ (forall key : string,
          key <> "target_value" -> key <> "current_value" -> key <> "description" ->
          goal' !! key = goal !! key)
    /\ (forall other : string,
          other <> goal_id ->
          od_get String.eqb other (health_goals w')
          = od_get String.eqb other (health_goals w))
    /\ map fst (health_goals w') = map fst (health_goals w).
Proof.
  intros Hc Hget Hstored w'. subst w'.
  rewrite (update_health_goal_local w st1 goal_id t c d goal Hc Hget). cbn [fst snd].
  pose proof (patched_goal_stored goal_id goal t c d Hstored)
    as (_ & _ & Htarget & [current Hcurrent] & _).
  destruct Hstored as (_ & [goal_type Hty] & _).
  assert (Htarget' : exists target, patched_goal goal t c d !! "target_value" = Some target)
    by (destruct Htarget as [[x Hx]|[x Hx]]; eauto).
  destruct Htarget' as [target Htg].
  exists goal_type, target, (VFloat current), (patched_goal goal t c d).
  split; [exact Hty|]. split.
  { unfold dict_item.
    rewrite (patched_goal_other goal t c d "goal_type") by discriminate.
    rewrite Hty, Htg, Hcurrent. reflexivity. }
  destruct w as [st g l today now src n]. world_simpl.
  split; [apply od_get_set_eq|]. split; [exact Htg|]. split; [exact Hcurrent|].
  split; [apply patched_goal_target|]. split; [apply patched_goal_current|].
  split; [apply patched_goal_description|]. split; [apply patched_goal_other|].
  split; [intros other Hne; apply od_get_set_ne; congruence|].
  exact (od_set_keys_kept g goal_id goal _ Hget).
Qed.

Lemma update_health_goal_patches_goal_witness :
  exists (goal_type : string) (target current : PyVal) (goal' : dict),
    fst (update_health_goal offline "uuid-1" None (Some 1200%float) None
           world_with_goal_2000) =
      Ok ("Health goal updated successfully! (Local Storage)" ++ nl ++ nl
          ++ "Goal: " ++ str_title goal_type ++ nl
          ++ "Target: " ++ py_str target ++ nl
          ++ "Current: " ++ py_str current)
    /\ od_get String.eqb "uuid-1"
         (health_goals (snd (update_health_goal offline "uuid-1" None (Some 1200%float)
                               None world_with_goal_2000))) = Some goal'
    /\ goal' !! "target_value" = Some (VInt 2000)
    /\ goal' !! "current_value" = Some (VFloat 1200).
Proof.
  destruct (update_health_goal_patches_goal (sb:=offline) world_with_goal_2000 tt
              "uuid-1" None (Some 1200%float) None
              (local_calorie_goal_data "uuid-1" 2000 "2025-01-15T08:30:00")
              eq_refl eq_refl (local_calorie_goal_data_stored _ _ _))
    as (goal_type & target & current & goal' & _ & Htext & Hget & _ & _ & Htg & Hcur & _).
  exists goal_type, target, current, goal'. repeat split; assumption.
Defined.

Lemma targets_convert_set (goals : list (string * dict)) (goal_id : string)
    (goal : dict) :
  targets_convert goals ->
  (forall target : Z, goal !! "target_value" = Some (VInt target) ->
                      Z.abs target < 2 ^ 1023) ->
  targets_convert (od_set String.eqb goal_id goal goals).
Proof.
  intros Hgoals Hgoal.
  exact (od_set_Forall
           (fun _ (v : dict) => forall target : Z,
                v !! "target_value" = Some (VInt target) -> Z.abs target < 2 ^ 1023)
           goals goal_id goal Hgoals Hgoal).
Qed.

(** X6. [update_health_goal] followed by [get_health_goals], both in the
    fallback branch, on a well-formed store: when the update sets the
    current value and the target after the update is a float, the listing
    shows the goal with that target, that current value and the progress
    [current / target * 100] with one decimal; the progress is [0.0] when
    the target is not greater than 0. *)
Theorem update_then_get_health_goals {sb : Supabase.manager} (w : World sb)
    (st1 st2 : Supabase.state sb) (goal_id goal_type : string) (t : option float)
    (c target : float) (d : option string) (goal : dict) :
  Forall (fun entry => stored_goal (fst entry) (snd entry)) (health_goals w) ->
  targets_convert (health_goals w) ->
  Supabase.is_connected sb (supabase_manager w) = (Ok false, st1) ->
  Supabase.is_connected sb st1 = (Ok false, st2) ->
  od_get String.eqb goal_id (health_goals w) = Some goal ->
  goal !! "goal_type" = Some (VStr goal_type) ->
  match t with
  | Some x => x = target
  | None => goal !! "target_value" = Some (VFloat target)
  end ->
  exists (text : string) (w2 : World sb),
    get_health_goals sb (snd (update_health_goal sb goal_id t (Some c) d w))
      = (Ok text, w2)
    /\ lists_block ("Active Health Goals (Local Storage)" ++ nl ++ nl)
         (goal_block (str_title goal_type) (float_repr target) (float_repr c)
            (if (0 <? target)%float then float_format_1f (c / target * 100)
             else "0.0")
            match d with
            | Some x => x
            | None => py_str (dict_get goal "description" (VStr "No description"))
            end
            goal_id)
         text.
Proof.
  intros Hstored Hsmall Hc1 Hc2 Hget Hty Htarget.
  pose proof (od_get_Forall stored_goal _ _ _ Hstored Hget) as Hgoal.
  rewrite (update_health_goal_local w st1 goal_id t (Some c) d goal Hc1 Hget).
  cbn [snd]. set (goal' := patched_goal goal t (Some c) d).
  assert (Htg : goal' !! "target_value" = Some (VFloat target)).
  { subst goal'. rewrite patched_goal_target. destruct t as [x|]; congruence. }
  assert (Hstored' : Forall (fun entry => stored_goal (fst entry) (snd entry))
                       (od_set String.eqb goal_id goal' (health_goals w)))
    by (apply od_set_Forall; [exact Hstored|now apply patched_goal_stored]).
  assert (Hsmall' : targets_convert (od_set String.eqb goal_id goal' (health_goals w)))
    by (apply targets_convert_set; [exact Hsmall|]; intros z Hz; congruence).
  destruct (stored_goals_listed _ Hstored' Hsmall') as [Hfilter Hrender].
  destruct (od_set_split (health_goals w) goal_id goal goal' Hget)
    as (l1 & l2 & Hl & Hset).
  assert (Hblock :
            render_goal goal' =
              Ok (goal_block (str_title goal_type) (float_repr target) (float_repr c)
                    (if (0 <? target)%float then float_format_1f (c / target * 100)
                     else "0.0")
                    match d with
                    | Some x => x
                    | None => py_str (dict_get goal "description" (VStr "No description"))
                    end
                    goal_id)).
  { rewrite (render_goal_floats goal' goal_type goal_id target c).
    - do 2 f_equal. unfold dict_get. subst goal'. rewrite patched_goal_description.
      destruct d; reflexivity.
    - subst goal'. now rewrite patched_goal_other by discriminate.
    - exact Htg.
    - subst goal'. now rewrite patched_goal_current.
    - subst goal'. rewrite patched_goal_other by discriminate. apply Hgoal. }
  rewrite Hset in Hfilter, Hrender.
  unfold od_values in Hfilter, Hrender. rewrite map_app, map_cons in Hfilter, Hrender.
  change (snd (goal_id, goal')) with goal' in Hfilter, Hrender.
  apply Forall_app in Hrender as [Hr1 Hr2]. apply Forall_cons in Hr2 as [_ Hr2].
  destruct (render_goals_lists_block (map snd l1) (map snd l2) goal'
              ("Active Health Goals (Local Storage)" ++ nl ++ nl) _ Hr1 Hblock Hr2)
    as (text & Htext & Hlists).
  exists text. eexists. split; [|exact Hlists].
  rewrite (get_health_goals_local
             (set_health_goals (od_set String.eqb goal_id goal' (health_goals w))
                (set_supabase_manager st1 w)) st2 Hc2).
  change (health_goals
            (set_health_goals (od_set String.eqb goal_id goal' (health_goals w))
               (set_supabase_manager st1 w)))
    with (od_set String.eqb goal_id goal' (health_goals w)).
  rewrite Hset. unfold od_values. rewrite map_app, map_cons.
  change (snd (goal_id, goal')) with goal'. rewrite Hfilter.
  remember (map snd l1 ++ goal' :: map snd l2)%list as active_goals eqn:E.
  destruct active_goals; [|now rewrite Htext].
  symmetry in E. apply app_eq_nil in E as [_ E]. discriminate.
Qed.

Lemma update_then_get_health_goals_witness :
  exists (text : string) (w2 : World offline),
    get_health_goals offline
      (snd (update_health_goal offline "uuid-0" None (Some 35%float) None
              world_with_goal_2000))
      = (Ok text, w2)
    /\ lists_block ("Active Health Goals (Local Storage)" ++ nl ++ nl)
         (goal_block "Weight" "70.0" "35.0" "50.0" "None" "uuid-0") text.
Proof.
  apply (update_then_get_health_goals (sb:=offline) world_with_goal_2000 tt tt
           "uuid-0" "weight" None 35 70 None
           (local_goal_data "uuid-0" "weight" 70 None "2025-01-15T08:30:00")).
  - repeat (constructor; [repeat split; eauto|]). constructor.
  - repeat (constructor; [intros target [= <-]; reflexivity
                         || (intros target H; discriminate H)|]).
    constructor.
  - reflexivity.
  - reflexivity.
  - reflexivity.
  - reflexivity.
  - reflexivity.
Defined.

(** *** Grouping the day's entries by meal type *)

Lemma first_occurrences_elem (l : list string) (x : string) :
  x ∈ first_occurrences l <-> x ∈ l.
Proof.
  induction l as [|y l IH]; cbn [first_occurrences]; [reflexivity|].
  rewrite !elem_of_cons, list_elem_of_filter, IH.
  destruct (decide (x = y)); intuition congruence.
Qed.

Lemma first_occurrences_NoDup (l : list string) : NoDup (first_occurrences l).
Proof.
  induction l as [|y l IH]; cbn [first_occurrences]; constructor.
  - rewrite list_elem_of_filter. intros [Hne _]. now apply Hne.
  - now apply NoDup_filter.
Qed.

Lemma first_occurrences_snoc (l : list string) (x : string) :
  first_occurrences (l ++ [x]) =
    if decide (x ∈ l) then first_occurrences l
    else (first_occurrences l ++ [x])%list.
Proof.
  induction l as [|y l IH]; [reflexivity|].
  change ((y :: l) ++ [x])%list with (y :: (l ++ [x]))%list.
  cbn [first_occurrences]. rewrite IH.
  destruct (decide (x ∈ l)) as [Hin|Hout].
  - rewrite decide_True by (now right). reflexivity.
  - rewrite filter_app. destruct (decide (x = y)) as [->|Hne].
    + rewrite decide_True by (now left).
      rewrite filter_cons_False by (intros H; now apply H).
      cbn. now rewrite app_nil_r.
    + rewrite decide_False by (rewrite elem_of_cons; intuition congruence).
      rewrite filter_cons_True by exact Hne. reflexivity.
Qed.

Section keyed.
Context {V : Type}.
Implicit Types (F : string -> V) (ks : list string) (m : string) (v : V).

Lemma od_get_keyed F ks m :
  od_get py_eq (VStr m) (map (fun k => (VStr k, F k)) ks) =
    if decide (m ∈ ks) then Some (F m) else None.
Proof.
  induction ks as [|k ks IH]; [reflexivity|].
  cbn [map od_get py_eq]. destruct (String.eqb_spec m k) as [->|Hne].
  - rewrite decide_True by (now left). reflexivity.
  - rewrite IH. destruct (decide (m ∈ ks)) as [Hin|Hout].
    + rewrite decide_True by (now right). reflexivity.
    + rewrite decide_False by (rewrite elem_of_cons; intuition congruence).
      reflexivity.
Qed.

Lemma od_set_keyed_in F ks m v :
  NoDup ks -> m ∈ ks ->
  od_set py_eq (VStr m) v (map (fun k => (VStr k, F k)) ks) =
    map (fun k => (VStr k, if decide (k = m) then v else F k)) ks.
Proof.
  induction 1 as [|k ks Hk Hnodup IH]; [now intros ?%elem_of_nil|].
  cbn [map od_set py_eq]. destruct (String.eqb_spec m k) as [->|Hne].
  - intros _. rewrite decide_True by reflexivity. f_equal.
    apply map_ext_in. intros k' Hk'%list_elem_of_In.
    rewrite decide_False by (intros ->; contradiction). reflexivity.
  - intros Hin. apply elem_of_cons in Hin as [?|Hin]; [contradiction|].
    rewrite decide_False by congruence. now rewrite IH.
Qed.

Lemma od_set_keyed_out F ks m v :
  m ∉ ks ->
  od_set py_eq (VStr m) v (map (fun k => (VStr k, F k)) ks) =
    (map (fun k => (VStr k, F k)) ks ++ [(VStr m, v)])%list.
Proof.
  induction ks as [|k ks IH]; [reflexivity|].
  rewrite not_elem_of_cons. intros [Hne Hout].
  cbn [map od_set py_eq]. apply String.eqb_neq in Hne. rewrite Hne.
  now rewrite IH.
Qed.
End keyed.

Lemma filter_meal_absent (foods : list dict) (m : string) :
  m ∉ map meal_of foods -> filter (fun food => meal_of food = m) foods = [].
Proof.
  induction foods as [|food foods IH]; [reflexivity|].
  cbn [map]. rewrite not_elem_of_cons. intros [Hne Hout].
  rewrite filter_cons_False by congruence. now apply IH.
Qed.

(** The dict [meals] that the loop builds, from the declarative grouping. *)
Lemma group_meals_from (rest done : list dict) :
  Forall (fun food => exists m : string, food !! "meal_type" = Some (VStr m)) rest ->
  group_meals rest (map (fun group => (VStr (fst group), snd group)) (meal_groups done))
  = Ok (map (fun group => (VStr (fst group), snd group)) (meal_groups (done ++ rest))).
Proof.
  intros Hrest. revert done.
  induction Hrest as [|food rest [m Hm] _ IH]; intros done.
  - now rewrite app_nil_r.
  - cbn [group_meals]. unfold dict_item. rewrite Hm. cbn [mbind Res_bind].
    replace (done ++ food :: rest)%list with ((done ++ [food]) ++ rest)%list
      by (now rewrite <- app_assoc).
    rewrite <- IH. f_equal.
    assert (Hmeal : meal_of food = m) by (unfold meal_of; now rewrite Hm).
    unfold meal_groups. rewrite !map_map. cbn [fst snd].
    rewrite map_app. cbn [map]. rewrite Hmeal, first_occurrences_snoc.
    set (ks := first_occurrences (map meal_of done)).
    set (F := fun k : string => filter (fun food0 => meal_of food0 = k) done).
    change (map (fun x : string => (VStr x, filter (fun food0 => meal_of food0 = x) done)) ks)
      with (map (fun k => (VStr k, F k)) ks).
    assert (Hfilter : forall k,
               filter (fun food0 => meal_of food0 = k) (done ++ [food])%list
               = (F k ++ if decide (k = m) then [food] else [])%list).
    { intros k. rewrite filter_app. f_equal. destruct (decide (k = m)) as [->|Hne].
      - now rewrite filter_cons_True by exact Hmeal.
      - rewrite filter_cons_False by congruence. reflexivity. }
    rewrite od_get_keyed.
    destruct (decide (m ∈ map meal_of done)) as [Hin|Hout].
    + rewrite decide_True by (now apply first_occurrences_elem).
      rewrite od_get_keyed, decide_True by (now apply first_occurrences_elem).
      cbn [default].
      rewrite od_set_keyed_in
        by (first [apply first_occurrences_NoDup | now apply first_occurrences_elem]).
      apply map_ext. intros k. rewrite Hfilter.
      destruct (decide (k = m)) as [->|_]; [reflexivity|now rewrite app_nil_r].
    + assert (Hks : m ∉ ks) by (unfold ks; now rewrite first_occurrences_elem).
      rewrite decide_False by exact Hks.
      rewrite od_set_keyed_out by exact Hks.
      assert (Hempty : F m = []).
      { subst F. cbv beta. now apply filter_meal_absent. }
      assert (Hget : od_get py_eq (VStr m)
                       (map (fun k => (VStr k, F k)) ks ++ [(VStr m, [])])%list
                     = Some []).
      { clear -Hks. induction ks as [|k ks IH]; cbn [map app od_get py_eq].
        - now rewrite String.eqb_refl.
        - apply not_elem_of_cons in Hks as [Hne Hks].
          apply String.eqb_neq in Hne. rewrite Hne. now apply IH. }
      rewrite Hget. cbn [default app].
      assert (Hset : forall v,
                 od_set py_eq (VStr m) v
                   (map (fun k => (VStr k, F k)) ks ++ [(VStr m, [])])%list
                 = (map (fun k => (VStr k, F k)) ks ++ [(VStr m, v)])%list).
      { clear -Hks. intros v. induction ks as [|k ks IH]; cbn [map app od_set py_eq].
        - now rewrite String.eqb_refl.
        - apply not_elem_of_cons in Hks as [Hne Hks].
          apply String.eqb_neq in Hne. rewrite Hne. now rewrite IH. }
      rewrite Hset, map_app. cbn [map]. rewrite Hfilter, Hempty.
      rewrite decide_True by reflexivity. cbn [app]. f_equal.
      apply map_ext_in. intros k Hk%list_elem_of_In. rewrite Hfilter.
      rewrite decide_False by (intros ->; contradiction). now rewrite app_nil_r.
Qed.

Lemma group_meals_grouped (today_foods : list dict) :
  Forall (fun food => exists m : string, food !! "meal_type" = Some (VStr m))
    today_foods ->
  group_meals today_foods [] =
    Ok (map (fun group => (VStr (fst group), snd group)) (meal_groups today_foods)).
Proof. intros H. exact (group_meals_from today_foods [] H). Qed.

(** X7. The grouping loop of [get_food_log], on entries whose meal type
    is a string: the dict [meals] it builds has one key per meal type, in
    the order in which the meal types first appear, and holds under each key
    the entries of that meal type, in their order. *)
Theorem group_meals_by_meal_type (today_foods : list dict) :
  Forall (fun food => exists m : string, food !! "meal_type" = Some (VStr m))
    today_foods ->
  group_meals today_foods [] =
    Ok (map (fun group => (VStr (fst group), snd group)) (meal_groups today_foods)).
Proof. apply group_meals_grouped. Qed.

Lemma group_meals_by_meal_type_witness :
  let rice := remote_food_data "Lunch" "rice" (Some 300) "2025-01-15" in
  let pasta := remote_food_data "Dinner" "pasta" (Some 700) "2025-01-15" in
  let soup := remote_food_data "lunch" "soup" None "2025-01-15" in
  group_meals [rice; pasta; soup] []
  = Ok [(VStr "lunch", [rice; soup]); (VStr "dinner", [pasta])].
Proof.
  intros rice pasta soup.
  apply (group_meals_by_meal_type [rice; pasta; soup]).
  repeat (constructor; [eexists; reflexivity|]). constructor.
Defined.

(** *** The day's entries and their total *)

Lemma total_of_app (l1 l2 : list dict) :
  total_of (l1 ++ l2) = total_of l1 + total_of l2.
Proof.
  induction l1 as [|food l1 IH]; [reflexivity|].
  change (total_of ((food :: l1) ++ l2))
    with (calories_of food + total_of (l1 ++ l2)).
  change (total_of (food :: l1)) with (calories_of food + total_of l1). lia.
Qed.

Lemma foods_of_date_stored (today : string) (logs : list dict) :
  Forall stored_food logs ->
  foods_of_date today logs = Ok (filter (fun food => on_date today food = true) logs).
Proof.
  induction 1 as [|food logs ([d Hd] & _) _ IH]; [reflexivity|].
  cbn [foods_of_date]. unfold dict_item. rewrite Hd, IH. cbn [mbind Res_bind].
  assert (E : on_date today food = py_eq (VStr d) (VStr today))
    by (unfold on_date, dict_get; now rewrite Hd).
  destruct (py_eq (VStr d) (VStr today)).
  - now rewrite filter_cons_True by exact E.
  - rewrite filter_cons_False by (rewrite E; discriminate). reflexivity.
Qed.

Lemma stored_food_cases (foods : list dict) :
  Forall stored_food foods ->
  Exists missing_calories foods \/ Forall has_calories foods.
Proof.
  induction 1 as [|food foods (_ & _ & _ & Hcal) _ IH]; [right; constructor|].
  destruct Hcal as [Hnone|Hint]; [left; now constructor|].
  destruct IH as [IH|IH]; [left; now constructor 2|right; now constructor].
Qed.

Lemma Exists_missing_cons (food : dict) (foods : list dict) (c : Z) :
  food !! "calories" = Some (VInt c) ->
  Exists missing_calories (food :: foods) -> Exists missing_calories foods.
Proof.
  intros Hc H. apply Exists_cons in H as [H|H]; [|exact H].
  unfold missing_calories in H. congruence.
Qed.

Lemma foldl_sum_raise (e : exn) (xs : list PyVal) :
  foldl (fun acc x => a ← acc; num_add "+" a x) (Raise e) xs = Raise e.
Proof. induction xs as [|x xs IH]; [reflexivity|exact IH]. Qed.

Lemma sum_calories_from (a : Z) (foods : list dict) :
  Forall has_calories foods ->
  foldl (fun acc x => a ← acc; num_add "+" a x) (Ok (NInt a))
    (map (fun f => dict_get f "calories" (VInt 0)) foods)
  = Ok (NInt (a + total_of foods)).
Proof.
  intros H. revert a. induction H as [|food foods [c Hc] _ IH]; intros a.
  - cbn. now rewrite Z.add_0_r.
  - cbn [map foldl]. unfold dict_get at 1. rewrite Hc.
    cbn [mbind Res_bind num_add as_num]. rewrite IH. do 2 f_equal.
    change (total_of (food :: foods)) with (calories_of food + total_of foods).
    unfold calories_of. rewrite Hc. lia.
Qed.

Lemma sum_calories_missing (a : Z) (foods : list dict) :
  Forall stored_food foods -> Exists missing_calories foods ->
  foldl (fun acc x => a ← acc; num_add "+" a x) (Ok (NInt a))
    (map (fun f => dict_get f "calories" (VInt 0)) foods)
  = Raise (TypeError "unsupported operand type(s) for +: 'int' and 'NoneType'").
Proof.
  intros H. revert a. induction H as [|food foods (_ & _ & _ & Hcal) _ IH]; intros a Hex.
  - now apply Exists_nil in Hex.
  - cbn [map foldl]. unfold dict_get at 1. destruct Hcal as [Hnone|[c Hc]].
    + rewrite Hnone. cbn [mbind Res_bind num_add as_num]. apply foldl_sum_raise.
    + rewrite Hc. cbn [mbind Res_bind num_add as_num]. apply IH.
      exact (Exists_missing_cons food foods c Hc Hex).
Qed.

(** The sum of both food tools, on entries with int calories and on entries
    of which one has none. *)
Lemma sum_calories_ints (foods : list dict) :
  Forall has_calories foods -> sum_calories foods = Ok (NInt (total_of foods)).
Proof. intros H. exact (sum_calories_from 0 foods H). Qed.

Lemma sum_calories_none (foods : list dict) :
  Forall stored_food foods -> Exists missing_calories foods ->
  sum_calories foods
  = Raise (TypeError "unsupported operand type(s) for +: 'int' and 'NoneType'").
Proof. intros H. exact (sum_calories_missing 0 foods H). Qed.

(** *** The listing of the day's entries *)

Lemma render_foods_ints (foods : list dict) (result : string) (a : Z) :
  Forall stored_food foods -> Forall has_calories foods ->
  render_foods foods result (NInt a) =
    Ok (result ++ String.concat EmptyString (map food_line foods),
        NInt (a + total_of foods)).
Proof.
  intros Hstored Hcal. revert result a.
  induction Hstored as [|food foods (_ & _ & [item Hitem] & _) _ IH];
    intros result a.
  - cbn. now rewrite append_nil_r, Z.add_0_r.
  - apply Forall_cons in Hcal as [[c Hc] Hcal].
    cbn [render_foods]. unfold calories_suffix, dict_item, dict_get.
    rewrite Hitem, Hc. cbn [py_truthy mbind Res_bind num_add as_num].
    assert (Hline : "  " ++ py_str (VStr item)
                    ++ (if negb (c =? 0) then " (" ++ py_str (VInt c) ++ " cal)"
                        else EmptyString) ++ nl
                    = food_line food).
    { unfold food_line, dict_get, calories_of. rewrite Hitem, Hc.
      destruct (c =? 0); reflexivity. }
    destruct (negb (c =? 0)); cbn [mbind Res_bind]; rewrite (IH Hcal);
      change (map food_line (food :: foods)) with (food_line food :: map food_line foods);
      rewrite string_concat_cons, <- Hline;
      change (total_of (food :: foods)) with (calories_of food + total_of foods);
      unfold calories_of at 1; rewrite Hc, !append_assoc, Z.add_assoc; reflexivity.
Qed.

Lemma render_foods_none (foods : list dict) (result : string) (a : Z) :
  Forall stored_food foods -> Exists missing_calories foods ->
  render_foods foods result (NInt a) =
    Raise (TypeError "unsupported operand type(s) for +=: 'int' and 'NoneType'").
Proof.
  intros Hstored. revert result a.
  induction Hstored as [|food foods (_ & _ & [item Hitem] & Hcal) _ IH];
    intros result a Hex.
  - now apply Exists_nil in Hex.
  - cbn [render_foods]. unfold calories_suffix, dict_item, dict_get.
    rewrite Hitem. destruct Hcal as [Hnone|[c Hc]].
    + rewrite Hnone. reflexivity.
    + rewrite Hc. cbn [py_truthy mbind Res_bind num_add as_num].
      pose proof (Exists_missing_cons food foods c Hc Hex) as Hex'.
      destruct (negb (c =? 0)); cbn [mbind Res_bind]; now apply IH.
Qed.

Lemma render_meals_ints (groups : list (string * list dict)) (result : string) (t : Z) :
  Forall (fun group => Forall stored_food (snd group)
                       /\ Forall has_calories (snd group)) groups ->
  render_meals (map (fun group => (VStr (fst group), snd group)) groups) result (NInt t)
  = Ok (result ++ String.concat EmptyString (map meal_block groups),
        NInt (t + groups_total groups)).
Proof.
  intros H. revert result t. induction H as [|[m fs] groups [Hs Hc] _ IH];
    intros result t.
  - cbn. now rewrite append_nil_r, Z.add_0_r.
  - cbn [map render_meals fst snd py_title mbind Res_bind] in *.
    rewrite (render_foods_ints fs _ 0 Hs Hc). cbn [mbind Res_bind num_gt_int].
    rewrite Z.add_0_l.
    assert (Hadd : num_add "+=" (NInt t) (of_num (NInt (total_of fs)))
                   = Ok (NInt (t + total_of fs))) by reflexivity.
    rewrite Hadd. cbn [mbind Res_bind]. rewrite IH.
    rewrite string_concat_cons.
    change (groups_total ((m, fs) :: groups))
      with (total_of fs + groups_total groups).
    unfold meal_block at 2. cbn [fst snd of_num py_str].
    destruct (total_of fs >? 0); rewrite !append_assoc, ?Z.add_assoc;
      cbn [append]; rewrite ?append_assoc; reflexivity.
Qed.

Lemma render_meals_none (groups : list (string * list dict)) (result : string) (t : Z) :
  Forall (fun group => Forall stored_food (snd group)) groups ->
  Exists (fun group => Exists missing_calories (snd group)) groups ->
  render_meals (map (fun group => (VStr (fst group), snd group)) groups) result (NInt t)
  = Raise (TypeError "unsupported operand type(s) for +=: 'int' and 'NoneType'").
Proof.
  intros H. revert result t. induction H as [|[m fs] groups Hs _ IH];
    intros result t Hex.
  - now apply Exists_nil in Hex.
  - cbn [map render_meals fst snd py_title mbind Res_bind] in *.
    destruct (stored_food_cases fs Hs) as [Hnone|Hcal].
    + now rewrite (render_foods_none fs _ 0 Hs Hnone).
    + rewrite (render_foods_ints fs _ 0 Hs Hcal). cbn [mbind Res_bind].
      assert (Hadd : num_add "+=" (NInt t) (of_num (NInt (0 + total_of fs)))
                     = Ok (NInt (t + (0 + total_of fs)))) by reflexivity.
      rewrite Hadd. cbn [mbind Res_bind]. apply IH.
      apply Exists_cons in Hex as [Hex|Hex]; [|exact Hex]. cbn [snd] in Hex.
      exfalso. clear -Hex Hcal. induction Hcal as [|f fs [c Hc] _ IH].
      * now apply Exists_nil in Hex.
      * exact (IH (Exists_missing_cons f fs c Hc Hex)).
Qed.

Lemma foldr_flags (ks : list string) (m : string) (c : Z) :
  NoDup ks ->
  foldr (fun k t => (if decide (m = k) then c else 0) + t) 0 ks
  = if decide (m ∈ ks) then c else 0.
Proof.
  induction 1 as [|k ks Hk _ IH]; [reflexivity|].
  cbn [foldr]. rewrite IH.
  destruct (decide (m = k)) as [->|Hne], (decide (_ ∈ ks)) as [Hin|Hout],
    (decide (_ ∈ _ :: ks)) as [Hin'|Hout'];
    try lia; exfalso; rewrite ?elem_of_cons in *; intuition congruence.
Qed.

Lemma keyed_total (ks : list string) (foods : list dict) :
  NoDup ks -> Forall (fun food => meal_of food ∈ ks) foods ->
  foldr (fun k t => total_of (filter (fun food => meal_of food = k) foods) + t) 0 ks
  = total_of foods.
Proof.
  intros Hks. induction 1 as [|food foods Hin _ IH].
  - clear Hks. induction ks as [|k ks IH]; [reflexivity|]. cbn [foldr]. now rewrite IH.
  - change (total_of (food :: foods)) with (calories_of food + total_of foods).
    rewrite <- IH, <- (decide_True (calories_of food) 0 Hin),
      <- (foldr_flags ks (meal_of food) (calories_of food) Hks).
    clear. induction ks as [|k ks IH]; [reflexivity|]. cbn [foldr]. rewrite IH.
    destruct (decide (meal_of food = k)) as [E|E].
    + rewrite filter_cons_True by exact E.
      change (total_of (food :: ?l)) with (calories_of food + total_of l). lia.
    + rewrite filter_cons_False by exact E. lia.
Qed.

(** The groups partition the entries: their totals add up to the total. *)
Lemma meal_groups_total (foods : list dict) :
  groups_total (meal_groups foods) = total_of foods.
Proof.
  rewrite <- (keyed_total (first_occurrences (map meal_of foods)) foods).
  - unfold meal_groups, groups_total.
    induction (first_occurrences (map meal_of foods)) as [|k ks IH]; [reflexivity|].
    cbn [map foldr snd]. now rewrite IH.
  - apply first_occurrences_NoDup.
  - apply Forall_forall. intros food Hfood. apply first_occurrences_elem.
    apply list_elem_of_In, in_map. now apply list_elem_of_In.
Qed.

Lemma meal_groups_Forall (P : dict -> Prop) (foods : list dict) :
  Forall P foods -> Forall (fun group => Forall P (snd group)) (meal_groups foods).
Proof.
  intros H. unfold meal_groups.
  induction (first_occurrences (map meal_of foods)) as [|k ks IH]; constructor.
  - cbn [snd]. apply Forall_forall. intros food [_ Hfood]%list_elem_of_filter.
    revert food Hfood. now apply Forall_forall.
  - exact IH.
Qed.

Lemma meal_groups_Exists (P : dict -> Prop) (foods : list dict) :
  Exists P foods -> Exists (fun group => Exists P (snd group)) (meal_groups foods).
Proof.
  intros (food & Hin & HP)%Exists_exists.
  assert (Hk : meal_of food ∈ first_occurrences (map meal_of foods)).
  { apply first_occurrences_elem, list_elem_of_In, in_map. now apply list_elem_of_In. }
  unfold meal_groups. revert Hk.
  generalize (first_occurrences (map meal_of foods)) as ks.
  induction ks as [|k ks IH]; [now intros ?%elem_of_nil|].
  intros [<-|Hk]%elem_of_cons; cbn [map].
  - apply Exists_cons_hd. cbn [snd]. apply Exists_exists. exists food.
    split; [|exact HP]. apply list_elem_of_filter. now split.
  - apply Exists_cons_tl. now apply IH.
Qed.

Lemma stored_food_meal (food : dict) :
  stored_food food -> exists m : string, food !! "meal_type" = Some (VStr m).
Proof. intros (_ & Hm & _). exact Hm. Qed.

(** The listing and the total of [get_food_log], on stored entries that all
    have calories. *)
Lemma render_food_log_ints (header : string) (foods : list dict) :
  Forall stored_food foods -> Forall has_calories foods ->
  render_food_log header foods =
    Ok (header ++ nl ++ nl
        ++ String.concat EmptyString (map meal_block (meal_groups foods))
        ++ "Daily Total: " ++ str_of_Z (total_of foods) ++ " calories",
        NInt (total_of foods)).
Proof.
  intros Hstored Hcal. unfold render_food_log.
  rewrite group_meals_grouped by exact (Forall_impl _ _ _ Hstored stored_food_meal).
  cbn [mbind Res_bind app].
  rewrite render_meals_ints.
  - cbn [mbind Res_bind of_num py_str]. rewrite meal_groups_total, Z.add_0_l.
    now rewrite !append_assoc.
  - pose proof (meal_groups_Forall _ foods Hstored) as H1.
    pose proof (meal_groups_Forall _ foods Hcal) as H2.
    clear -H1 H2. induction H1 as [|g gs Hg _ IH]; [constructor|].
    apply Forall_cons in H2 as [Hg2 H2]. constructor; [now split|now apply IH].
Qed.

(** ... and on stored entries of which one has none. *)
Lemma render_food_log_none (header : string) (foods : list dict) :
  Forall stored_food foods -> Exists missing_calories foods ->
  render_food_log header foods =
    Raise (TypeError "unsupported operand type(s) for +=: 'int' and 'NoneType'").
Proof.
  intros Hstored Hex. unfold render_food_log.
  rewrite group_meals_grouped by exact (Forall_impl _ _ _ Hstored stored_food_meal).
  cbn [mbind Res_bind app].
  rewrite render_meals_none; [reflexivity| |].
  - exact (meal_groups_Forall _ foods Hstored).
  - exact (meal_groups_Exists _ foods Hex).
Qed.

Section local_food.
Context {sb : Supabase.manager}.
Implicit Types (w : World sb) (st : Supabase.state sb).

(** The fallback branch of [get_food_log]. *)
Lemma get_food_log_local w st1 :
  Supabase.is_connected sb (supabase_manager w) = (Ok false, st1) ->
  get_food_log sb w =
    (Ok match
          today_foods ← foods_of_date (today_iso w) (food_logs w);
          match today_foods with
          | [] => Ok "No food logged today (Local Storage)"
          | _ =>
              '(result, total_calories) ←
                render_food_log "Today's Food Log (Local Storage)" today_foods;
              text ← goal_commentary total_calories
                       (daily_calorie_goal_local (od_values (health_goals w)));
              Ok (result ++ text)
          end
        with
        | Ok text => text
        | Raise e => "Error getting food log: " ++ exn_str e
        end,
     set_supabase_manager st1 w).
Proof.
  intros Hc. destruct w as [st g l today now src n]. world_simpl.
  unfold_tool. world_simpl. rewrite Hc. world_simpl.
  destruct (foods_of_date today l) as [[|f fs]|e]; cbn [mbind Res_bind];
    [reflexivity| |reflexivity].
  destruct (render_food_log _ _) as [[r t]|e]; cbn [mbind Res_bind]; [|reflexivity].
  destruct (goal_commentary _ _); reflexivity.
Qed.
End local_food.

(** *** Titles *)

Lemma to_lower_idem (c : ascii) : to_lower (to_lower c) = to_lower c.
Proof. destruct c as [[] [] [] [] [] [] [] []]; reflexivity. Qed.

Lemma to_upper_lower (c : ascii) : to_upper (to_lower c) = to_upper c.
Proof. destruct c as [[] [] [] [] [] [] [] []]; reflexivity. Qed.

Lemma cased_lower (c : ascii) :
  is_upper (to_lower c) || is_lower (to_lower c) = is_upper c || is_lower c.
Proof. destruct c as [[] [] [] [] [] [] [] []]; reflexivity. Qed.

Lemma title_from_lower (prev_cased : bool) (s : string) :
  title_from prev_cased (str_lower s) = title_from prev_cased s.
Proof.
  revert prev_cased. induction s as [|c s IH]; intros prev_cased; [reflexivity|].
  cbn [str_lower title_from]. rewrite cased_lower, IH.
  destruct prev_cased; now rewrite ?to_lower_idem, ?to_upper_lower.
Qed.

Lemma str_title_lower (s : string) : str_title (str_lower s) = str_title s.
Proof. apply title_from_lower. Qed.

Lemma str_lower_idem (s : string) : str_lower (str_lower s) = str_lower s.
Proof.
  induction s as [|c s IH]; [reflexivity|].
  cbn [str_lower]. now rewrite to_lower_idem, IH.
Qed.

(** *** The food tools on the fallback store *)

Lemma filter_on_date_nil (today : string) (logs : list dict) :
  filter (fun food => on_date today food = true) logs = []
  <-> Forall (fun food => on_date today food = false) logs.
Proof.
  induction logs as [|food logs IH]; [split; constructor|].
  destruct (on_date today food) eqn:E.
  - rewrite filter_cons_True by exact E. split; [discriminate|].
    intros H%Forall_cons. destruct H as [H _]. congruence.
  - rewrite filter_cons_False by (rewrite E; discriminate). rewrite IH.
    split; [now constructor|now intros [_ H]%Forall_cons].
Qed.

Lemma Forall_filter_stored (today : string) (logs : list dict) :
  Forall stored_food logs ->
  Forall stored_food (filter (fun food => on_date today food = true) logs).
Proof.
  intros H. apply Forall_forall. intros food [_ Hfood]%list_elem_of_filter.
  revert food Hfood. now apply Forall_forall.
Qed.

Lemma local_food_data_on_date food_id meal_type food_item calories today created_at :
  on_date today (local_food_data food_id meal_type food_item calories today created_at)
  = true.
Proof.
  unfold on_date, dict_get. rewrite local_food_data_date. apply py_eq_str_refl.
Qed.

Section food_tools.
Context {sb : Supabase.manager}.
Implicit Types (w : World sb) (st : Supabase.state sb).

(** What [get_food_log] returns in the fallback branch, by the day's
    entries. *)
Lemma get_food_log_local_stored w st1 :
  Forall stored_food (food_logs w) ->
  Supabase.is_connected sb (supabase_manager w) = (Ok false, st1) ->
  let today_foods := filter (fun food => on_date (today_iso w) food = true) (food_logs w) in
  get_food_log sb w =
    (Ok match today_foods with
        | [] => "No food logged today (Local Storage)"
        | _ =>
            match
              '(result, total_calories) ←
                render_food_log "Today's Food Log (Local Storage)" today_foods;
              text ← goal_commentary total_calories
                       (daily_calorie_goal_local (od_values (health_goals w)));
              Ok (result ++ text)
            with
            | Ok text => text
            | Raise e => "Error getting food log: " ++ exn_str e
            end
        end,
     set_supabase_manager st1 w).
Proof.
  intros Hstored Hc today_foods. subst today_foods.
  rewrite (get_food_log_local w st1 Hc), (foods_of_date_stored _ _ Hstored).
  cbn [mbind Res_bind]. now destruct (filter _ (food_logs w)).
Qed.

End food_tools.

(** X8. [get_food_log] in the fallback branch, on a well-formed log: the
    call returns the nothing-logged text exactly when no stored entry is
    dated today; entries of other days are never listed. *)
Theorem nothing_logged_today {sb : Supabase.manager} (w : World sb)
    (st1 : Supabase.state sb) :
  Forall stored_food (food_logs w) ->
  Supabase.is_connected sb (supabase_manager w) = (Ok false, st1) ->
  fst (get_food_log sb w) = Ok "No food logged today (Local Storage)"
  <-> Forall (fun food => on_date (today_iso w) food = false) (food_logs w).
Proof.
  intros Hstored Hc. rewrite (get_food_log_local_stored w st1 Hstored Hc). cbn [fst].
  rewrite <- filter_on_date_nil.
  pose proof (Forall_filter_stored (today_iso w) _ Hstored) as Hfiltered.
  destruct (filter _ (food_logs w)) as [|food foods] eqn:E; [split; reflexivity|].
  split; [|discriminate]. intros H. exfalso.
  destruct (stored_food_cases _ Hfiltered) as [Hnone|Hcal].
  - rewrite (render_food_log_none _ _ Hfiltered Hnone) in H. discriminate H.
  - rewrite (render_food_log_ints _ _ Hfiltered Hcal) in H. cbn [mbind Res_bind] in H.
    destruct (goal_commentary _ _) in H; discriminate H.
Qed.

Lemma nothing_logged_today_witness :
  fst (get_food_log offline world_next_day) = Ok "No food logged today (Local Storage)"
  /\ length (food_logs world_next_day) = 1%nat.
Proof.
  split; [|reflexivity].
  apply (nothing_logged_today (sb:=offline) world_next_day tt).
  - repeat (constructor; [repeat split; eauto|]). constructor.
  - reflexivity.
  - repeat (constructor; [reflexivity|]). constructor.
Defined.

Lemma Exists_filter_on_date (today : string) (logs : list dict) :
  Exists (fun food => on_date today food = true /\ missing_calories food) logs ->
  Exists missing_calories (filter (fun food => on_date today food = true) logs).
Proof.
  intros (food & Hin & Hdate & Hnone)%Exists_exists. apply Exists_exists.
  exists food. split; [|exact Hnone]. apply list_elem_of_filter. now split.
Qed.

Section food_tools_more.
Context {sb : Supabase.manager}.
Implicit Types (w : World sb) (st : Supabase.state sb).

(** [add_food_log] in the fallback branch when one of the day's entries,
    the new one included, has no calories. *)
Lemma add_food_log_local_none w st1 meal_type food_item calories :
  Forall stored_food (food_logs w) ->
  Supabase.is_connected sb (supabase_manager w) = (Ok false, st1) ->
  let food_data :=
    local_food_data (uuid_source w (uuid_count w)) meal_type food_item
      calories (today_iso w) (now_iso w) in
  Exists (fun food => on_date (today_iso w) food = true /\ missing_calories food)
    (food_logs w ++ [food_data]) ->
  add_food_log sb meal_type food_item calories w =
    (Ok "Error adding food log: unsupported operand type(s) for +: 'int' and 'NoneType'",
     set_food_logs (food_logs w ++ [food_data])
       (set_uuid_count (S (uuid_count w)) (set_supabase_manager st1 w))).
Proof.
  intros Hstored Hc food_data Hex.
  rewrite (add_food_log_local w st1 meal_type food_item calories Hc). fold food_data.
  assert (Hstored' : Forall stored_food (food_logs w ++ [food_data]))
    by (apply Forall_app; split; [exact Hstored|];
        constructor; [apply local_food_data_stored|constructor]).
  rewrite (foods_of_date_stored _ _ Hstored'). cbn [mbind Res_bind].
  rewrite sum_calories_none; [reflexivity| |].
  - now apply Forall_filter_stored.
  - now apply Exists_filter_on_date.
Qed.

End food_tools_more.

(** X9. The fallback food log, well formed. [add_food_log] without calories
    appends its entry and returns the text of a [TypeError], and from then
    on the day is lost: as long as an entry of today has no calories,
    [get_food_log] returns an error text in place of the listing, and
    every [add_food_log], whatever its calories, appends its entry and
    returns an error text in place of the confirmation. *)
Theorem missing_calories_fail_the_day {sb : Supabase.manager} (w : World sb)
    (st1 : Supabase.state sb) :
  Forall stored_food (food_logs w) ->
  Supabase.is_connected sb (supabase_manager w) = (Ok false, st1) ->
  (forall meal_type food_item : string,
     let w1 := snd (add_food_log sb meal_type food_item None w) in
     fst (add_food_log sb meal_type food_item None w) =
       Ok "Error adding food log: unsupported operand type(s) for +: 'int' and 'NoneType'"
     /\ Forall stored_food (food_logs w1)
     /\ today_iso w1 = today_iso w
     /\ Exists (fun food => on_date (today_iso w) food = true /\ missing_calories food)
          (food_logs w1))
  /\ (Exists (fun food => on_date (today_iso w) food = true /\ missing_calories food)
        (food_logs w) ->
      fst (get_food_log sb w) =
        Ok "Error getting food log: unsupported operand type(s) for +=: 'int' and 'NoneType'"
      /\ forall (meal_type food_item : string) (calories : option Z),
           fst (add_food_log sb meal_type food_item calories w) =
             Ok "Error adding food log: unsupported operand type(s) for +: 'int' and 'NoneType'"
           /\ food_logs (snd (add_food_log sb meal_type food_item calories w)) =
                (food_logs w
                 ++ [local_food_data (uuid_source w (uuid_count w)) meal_type food_item
                       calories (today_iso w) (now_iso w)])%list).
Proof.
  intros Hstored Hc. split.
  - intros meal_type food_item w1. subst w1.
    set (food_data := local_food_data (uuid_source w (uuid_count w)) meal_type food_item
                        None (today_iso w) (now_iso w)).
    assert (Hex : Exists (fun food => on_date (today_iso w) food = true
                                      /\ missing_calories food)
                    (food_logs w ++ [food_data])).
    { apply Exists_app. right. constructor. split; [|reflexivity].
      apply local_food_data_on_date. }
    rewrite (add_food_log_local_none w st1 meal_type food_item None Hstored Hc Hex).
    cbn [fst snd]. destruct w as [st g l today now src n]. world_simpl.
    split; [reflexivity|]. split; [|split; [reflexivity|exact Hex]].
    apply Forall_app. split; [exact Hstored|].
    constructor; [apply local_food_data_stored|constructor].
  - intros Hex. split.
    + rewrite (get_food_log_local_stored w st1 Hstored Hc). cbn [fst].
      pose proof (Exists_filter_on_date _ _ Hex) as Hnone.
      pose proof (Forall_filter_stored (today_iso w) _ Hstored) as Hfiltered.
      rewrite (render_food_log_none _ _ Hfiltered Hnone).
      destruct (filter _ (food_logs w)); [now apply Exists_nil in Hnone|reflexivity].
    + intros meal_type food_item calories.
      rewrite (add_food_log_local_none w st1 meal_type food_item calories Hstored Hc)
        by (apply Exists_app; now left).
      cbn [fst snd]. destruct w as [st g l today now src n]. world_simpl.
      split; reflexivity.
Qed.

Lemma missing_calories_fail_the_day_witness :
  let w1 := snd (add_food_log offline "lunch" "rice" None offline_world) in
  fst (add_food_log offline "lunch" "rice" None offline_world) =
    Ok "Error adding food log: unsupported operand type(s) for +: 'int' and 'NoneType'"
  /\ fst (get_food_log offline w1) =
       Ok "Error getting food log: unsupported operand type(s) for +=: 'int' and 'NoneType'"
  /\ fst (add_food_log offline "dinner" "pasta" (Some 700) w1) =
       Ok "Error adding food log: unsupported operand type(s) for +: 'int' and 'NoneType'".
Proof.
  intros w1.
  destruct (missing_calories_fail_the_day (sb:=offline) offline_world tt
              (List.Forall_nil _) eq_refl) as [Hadd _].
  destruct (Hadd "lunch" "rice") as (Htext & Hstored & _ & Hex). fold w1 in Hstored, Hex.
  destruct (missing_calories_fail_the_day (sb:=offline) w1 tt Hstored eq_refl)
    as [_ Hlater].
  destruct (Hlater Hex) as [Hget Hadd'].
  split; [exact Htext|]. split; [exact Hget|]. exact (proj1 (Hadd' "dinner" "pasta" (Some 700))).
Defined.

Lemma contains_concat (x : string) (l : list string) :
  x ∈ l -> contains x (String.concat EmptyString l).
Proof.
  induction l as [|y l IH]; [now intros ?%elem_of_nil|].
  rewrite string_concat_cons. intros [->|Hin]%elem_of_cons.
  - apply contains_app_l, contains_refl.
  - apply contains_app_r, IH, Hin.
Qed.

Lemma meal_block_shows_line (group : string * list dict) (food : dict) :
  food ∈ snd group -> contains (food_line food) (meal_block group).
Proof.
  intros Hin. unfold meal_block. apply contains_app_r, contains_app_r, contains_app_l.
  apply contains_concat, list_elem_of_In, in_map. now apply list_elem_of_In.
Qed.

(** Every entry has its line in the blocks of the meals. *)
Lemma meal_blocks_show_line (foods : list dict) (food : dict) :
  food ∈ foods ->
  contains (food_line food)
    (String.concat EmptyString (map meal_block (meal_groups foods))).
Proof.
  intros Hin.
  assert (Hk : meal_of food ∈ first_occurrences (map meal_of foods)).
  { apply first_occurrences_elem, list_elem_of_In, in_map. now apply list_elem_of_In. }
  unfold meal_groups. revert Hk.
  generalize (first_occurrences (map meal_of foods)) as ks.
  induction ks as [|k ks IH]; [now intros ?%elem_of_nil|].
  intros [<-|Hk]%elem_of_cons; cbn [map]; rewrite string_concat_cons.
  - apply contains_app_l, meal_block_shows_line. cbn [snd].
    apply list_elem_of_filter. now split.
  - apply contains_app_r. now apply IH.
Qed.

(** X10. The listing of [get_food_log] in the fallback branch, on a
    well-formed log whose entries of today all have calories: the header;
    then one block per meal type, in the order in which the meal types
    first appear, with the title of the meal type, one line per entry in
    the order of logging, and the meal's total when it is positive; then
    the day's total, which is the sum of the calories of today's entries;
    then the commentary on the daily calorie goal. *)
Theorem fallback_food_listing {sb : Supabase.manager} (w : World sb)
    (st1 : Supabase.state sb) (commentary : string) :
  Forall stored_food (food_logs w) ->
  Supabase.is_connected sb (supabase_manager w) = (Ok false, st1) ->
  let today_foods :=
    filter (fun food => on_date (today_iso w) food = true) (food_logs w) in
  today_foods <> [] ->
  Forall has_calories today_foods ->
  goal_commentary (NInt (total_of today_foods))
    (daily_calorie_goal_local (od_values (health_goals w))) = Ok commentary ->
  get_food_log sb w =
    (Ok ("Today's Food Log (Local Storage)" ++ nl ++ nl
         ++ String.concat EmptyString (map meal_block (meal_groups today_foods))
         ++ "Daily Total: " ++ str_of_Z (total_of today_foods) ++ " calories"
         ++ commentary),
     set_supabase_manager st1 w).
Proof.
  intros Hstored Hc today_foods Hne Hcal Hcomm.
  rewrite (get_food_log_local_stored w st1 Hstored Hc). fold today_foods.
  rewrite (render_food_log_ints _ today_foods
             (Forall_filter_stored (today_iso w) _ Hstored) Hcal).
  cbn [mbind Res_bind]. rewrite Hcomm. cbn [mbind Res_bind].
  destruct today_foods; [contradiction|]. now rewrite !append_assoc.
Qed.

Lemma fallback_food_listing_witness :
  get_food_log offline world_with_2500_logged =
    (Ok ("Today's Food Log (Local Storage)" ++ nl ++ nl
         ++ ("Lunch" ++ nl ++ "  rice (2500 cal)" ++ nl
             ++ "  Meal Total: 2500 calories" ++ nl ++ nl)
         ++ "Daily Total: 2500 calories"
         ++ over_by_500 (VInt 2000) "500"),
     world_with_2500_logged).
Proof.
  apply (fallback_food_listing (sb:=offline) world_with_2500_logged tt
           (over_by_500 (VInt 2000) "500")).
  - repeat (constructor; [repeat split; eauto|]). constructor.
  - reflexivity.
  - discriminate.
  - repeat (constructor; [eexists; reflexivity|]). constructor.
  - vm_compute. reflexivity.
Defined.

(** [add_food_log] with calories followed by [get_food_log] in the fallback
    branch: the two texts, and the line of the new entry in the listing. *)
Lemma add_then_get_food_log_local {sb : Supabase.manager} (w : World sb)
    (st1 st2 : Supabase.state sb) (meal_type food_item : string) (c : Z)
    (commentary : string) :
  Forall stored_food (food_logs w) ->
  Supabase.is_connected sb (supabase_manager w) = (Ok false, st1) ->
  Supabase.is_connected sb st1 = (Ok false, st2) ->
  let today_foods :=
    filter (fun food => on_date (today_iso w) food = true) (food_logs w) in
  let total := total_of today_foods + c in
  Forall has_calories today_foods ->
  goal_commentary (NInt total)
    (daily_calorie_goal_local (od_values (health_goals w))) = Ok commentary ->
  let food_data :=
    local_food_data (uuid_source w (uuid_count w)) meal_type food_item (Some c)
      (today_iso w) (now_iso w) in
  let blocks :=
    String.concat EmptyString
      (map meal_block (meal_groups (today_foods ++ [food_data]))) in
  fst (add_food_log sb meal_type food_item (Some c) w) =
    Ok ("Food logged successfully! (Local Storage)" ++ nl ++ nl
        ++ "Meal: " ++ str_title meal_type ++ nl
        ++ "Food: " ++ food_item ++ nl
        ++ calories_line (Some c)
        ++ nl ++ "Today's Total Calories: " ++ str_of_Z total ++ commentary)
  /\ fst (get_food_log sb (snd (add_food_log sb meal_type food_item (Some c) w))) =
       Ok ("Today's Food Log (Local Storage)" ++ nl ++ nl ++ blocks
           ++ "Daily Total: " ++ str_of_Z total ++ " calories" ++ commentary)
  /\ food_line food_data
     = "  " ++ food_item
       ++ (if c =? 0 then EmptyString else " (" ++ str_of_Z c ++ " cal)")
       ++ nl
  /\ contains (food_line food_data) blocks.
Proof.
  intros Hstored Hc1 Hc2 today_foods total Hcal Hcomm food_data blocks.
  assert (Hstored' : Forall stored_food (food_logs w ++ [food_data]))
    by (apply Forall_app; split; [exact Hstored|];
        constructor; [apply local_food_data_stored|constructor]).
  assert (Hfilter : filter (fun food => on_date (today_iso w) food = true)
                      (food_logs w ++ [food_data])%list
                    = (today_foods ++ [food_data])%list).
  { rewrite filter_app. fold today_foods. f_equal.
    now rewrite filter_cons_True by apply local_food_data_on_date. }
  assert (Hcal' : Forall has_calories (today_foods ++ [food_data]))
    by (apply Forall_app; split; [exact Hcal|];
        constructor; [now exists c|constructor]).
  assert (Htotal : total_of (today_foods ++ [food_data]) = total).
  { rewrite total_of_app. subst total. f_equal. cbn. apply Z.add_0_r. }
  rewrite (add_food_log_local w st1 meal_type food_item (Some c) Hc1). fold food_data.
  cbn [fst snd]. rewrite (foods_of_date_stored _ _ Hstored'), Hfilter.
  cbn [mbind Res_bind]. rewrite (sum_calories_ints _ Hcal'), Htotal.
  cbn [mbind Res_bind of_num py_str]. rewrite Hcomm. cbn [mbind Res_bind].
  split; [now rewrite !append_assoc|]. split; [|split].
  - set (w1 := set_food_logs (food_logs w ++ [food_data])
                 (set_uuid_count (S (uuid_count w)) (set_supabase_manager st1 w))).
    assert (Hc : Supabase.is_connected sb (supabase_manager w1) = (Ok false, st2))
      by exact Hc2.
    assert (Hstored1 : Forall stored_food (food_logs w1)) by exact Hstored'.
    rewrite (get_food_log_local_stored w1 st2 Hstored1 Hc). cbn [fst].
    change (today_iso w1) with (today_iso w). change (food_logs w1) with (food_logs w ++ [food_data])%list.
    change (health_goals w1) with (health_goals w).
    rewrite Hfilter.
    rewrite (render_food_log_ints _ (today_foods ++ [food_data])); [| |exact Hcal'].
    + cbn [mbind Res_bind]. rewrite Htotal, Hcomm. cbn [mbind Res_bind].
      destruct (today_foods ++ [food_data])%list eqn:E;
        [now apply app_eq_nil in E as [_ ?]|].
      now rewrite !append_assoc.
    + rewrite <- Hfilter. now apply Forall_filter_stored.
  - reflexivity.
  - apply meal_blocks_show_line. apply elem_of_app. right. now left.
Qed.

(** X11. [add_food_log] with calories followed by [get_food_log], both in
    the fallback branch, on a well-formed log whose entries of today all
    have calories: the confirmation and the listing show the same total,
    the sum of the calories of today's entries with the new one, and the
    same commentary on the daily calorie goal; and the listing has the line
    of the new entry, with its calories when they are not 0. *)
Theorem add_then_get_food_log {sb : Supabase.manager} (w : World sb)
    (st1 st2 : Supabase.state sb) (meal_type food_item : string) (c : Z)
    (commentary : string) :
  Forall stored_food (food_logs w) ->
  Supabase.is_connected sb (supabase_manager w) = (Ok false, st1) ->
  Supabase.is_connected sb st1 = (Ok false, st2) ->
  let today_foods :=
    filter (fun food => on_date (today_iso w) food = true) (food_logs w) in
  let total := total_of today_foods + c in
  Forall has_calories today_foods ->
  goal_commentary (NInt total)
    (daily_calorie_goal_local (od_values (health_goals w))) = Ok commentary ->
  fst (add_food_log sb meal_type food_item (Some c) w) =
    Ok ("Food logged successfully! (Local Storage)" ++ nl ++ nl
        ++ "Meal: " ++ str_title meal_type ++ nl
        ++ "Food: " ++ food_item ++ nl
        ++ calories_line (Some c)
        ++ nl ++ "Today's Total Calories: " ++ str_of_Z total ++ commentary)
  /\ exists blocks : string,
       fst (get_food_log sb (snd (add_food_log sb meal_type food_item (Some c) w))) =
         Ok ("Today's Food Log (Local Storage)" ++ nl ++ nl ++ blocks
             ++ "Daily Total: " ++ str_of_Z total ++ " calories" ++ commentary)
       /\ contains ("  " ++ food_item
                    ++ (if c =? 0 then EmptyString
                        else " (" ++ str_of_Z c ++ " cal)")
                    ++ nl)
            blocks.
Proof.
  intros Hstored Hc1 Hc2 today_foods total Hcal Hcomm.
  destruct (add_then_get_food_log_local w st1 st2 meal_type food_item c commentary
              Hstored Hc1 Hc2 Hcal Hcomm) as (Hadd & Hget & Hline & Hin).
  split; [exact Hadd|]. eexists. split; [exact Hget|].
  rewrite <- Hline. exact Hin.
Qed.

Lemma add_then_get_food_log_witness :
  fst (add_food_log offline "Dinner" "pasta" (Some 700) world_with_2500_logged) =
    Ok ("Food logged successfully! (Local Storage)" ++ nl ++ nl
        ++ "Meal: Dinner" ++ nl ++ "Food: pasta" ++ nl ++ "Calories: 700" ++ nl
        ++ nl ++ "Today's Total Calories: 3200"
        ++ nl ++ nl ++ "Daily Calorie Goal: 2000 calories"
        ++ nl ++ "Progress: 160.0%"
        ++ nl ++ "Over goal by: 1200 calories")
  /\ exists blocks : string,
       fst (get_food_log offline
              (snd (add_food_log offline "Dinner" "pasta" (Some 700)
                      world_with_2500_logged))) =
         Ok ("Today's Food Log (Local Storage)" ++ nl ++ nl ++ blocks
             ++ "Daily Total: 3200 calories"
             ++ nl ++ nl ++ "Daily Calorie Goal: 2000 calories"
             ++ nl ++ "Progress: 160.0%"
             ++ nl ++ "Over goal by: 1200 calories")
       /\ contains ("  pasta (700 cal)" ++ nl) blocks.
Proof.
  apply (add_then_get_food_log (sb:=offline) world_with_2500_logged tt tt
           "Dinner" "pasta" 700
           (nl ++ nl ++ "Daily Calorie Goal: 2000 calories"
            ++ nl ++ "Progress: 160.0%"
            ++ nl ++ "Over goal by: 1200 calories")).
  - repeat (constructor; [repeat split; eauto|]). constructor.
  - reflexivity.
  - reflexivity.
  - repeat (constructor; [eexists; reflexivity|]). constructor.
  - vm_compute. reflexivity.
Defined.

(** *** The daily calorie goal in force *)

Lemma daily_calorie_goal_local_app (l1 l2 : list dict) :
  Exists (fun goal => is_calorie_goal goal = true) l1 ->
  daily_calorie_goal_local (l1 ++ l2) = daily_calorie_goal_local l1.
Proof.
  induction 1 as [goal l1 Hgoal|goal l1 _ IH]; cbn [app daily_calorie_goal_local].
  - unfold is_calorie_goal in Hgoal. now rewrite Hgoal.
  - destruct (py_eq _ _); [reflexivity|exact IH].
Qed.

Lemma daily_calorie_goal_local_none (l1 l2 : list dict) :
  Forall (fun goal => is_calorie_goal goal = false) l1 ->
  daily_calorie_goal_local (l1 ++ l2) = daily_calorie_goal_local l2.
Proof.
  induction 1 as [|goal l1 Hgoal _ IH]; [reflexivity|].
  cbn [app daily_calorie_goal_local]. unfold is_calorie_goal in Hgoal. now rewrite Hgoal.
Qed.

(** X12. The daily calorie goal that the food tools use in the fallback
    branch is the first goal of type [daily_calories] in the order of
    insertion. So, with new and distinct identifiers: while the store holds
    such a goal, [add_health_goal] does not change the goal in force,
    whatever daily calorie goal it is given, and [get_food_log] returns the
    same text after it as before; and when the store holds none, a call
    with a daily calorie goal other than 0, for a goal of another type,
    puts that daily calorie goal in force. *)
Theorem first_calorie_goal_stays_in_force {sb : Supabase.manager} (w : World sb)
    (st1 : Supabase.state sb) (goal_type : string) (target_value : float)
    (description : option string) (daily_calorie_goal : option Z) :
  Supabase.is_connected sb (supabase_manager w) = (Ok false, st1) ->
  od_get String.eqb (uuid_source w (uuid_count w)) (health_goals w) = None ->
  od_get String.eqb (uuid_source w (S (uuid_count w))) (health_goals w) = None ->
  uuid_source w (uuid_count w) <> uuid_source w (S (uuid_count w)) ->
  let w' := snd (add_health_goal sb goal_type target_value description
                   daily_calorie_goal w) in
  (Exists (fun goal => is_calorie_goal goal = true) (od_values (health_goals w)) ->
   daily_calorie_goal_local (od_values (health_goals w'))
   = daily_calorie_goal_local (od_values (health_goals w))
   /\ forall st2 : Supabase.state sb,
        Supabase.is_connected sb st1 = (Ok false, st2) ->
        fst (get_food_log sb w') = fst (get_food_log sb w))
  /\ (forall dcg : Z,
        Forall (fun goal => is_calorie_goal goal = false) (od_values (health_goals w)) ->
        str_lower goal_type <> "daily_calories" ->
        daily_calorie_goal = Some dcg -> dcg <> 0 ->
        daily_calorie_goal_local (od_values (health_goals w')) = VInt dcg).
Proof.
  intros Hc Hfresh1 Hfresh2 Hne w'.
  destruct (add_health_goal_local_goals w st1 goal_type target_value description
              daily_calorie_goal Hc) as [Hst Hgoals].
  fold w' in Hst, Hgoals.
  set (goal := local_goal_data (uuid_source w (uuid_count w)) goal_type target_value
                 description (now_iso w)) in *.
  assert (Hvalues : exists rest,
             od_values (health_goals w') = (od_values (health_goals w) ++ goal :: rest)%list
             /\ (forall dcg, daily_calorie_goal = Some dcg -> dcg <> 0 ->
                   rest = [local_calorie_goal_data (uuid_source w (S (uuid_count w))) dcg
                             (now_iso w)])).
  { rewrite Hgoals. destruct daily_calorie_goal as [dcg|].
    - destruct (Z.eqb_spec dcg 0) as [->|Hnz].
      + exists []. rewrite od_values_set_fresh by exact Hfresh1.
        split; [reflexivity|]. now intros ? [= <-].
      + eexists. rewrite od_values_set_fresh
          by (rewrite od_get_set_ne by exact Hne; exact Hfresh2).
        rewrite od_values_set_fresh by exact Hfresh1. rewrite <- app_assoc.
        split; [reflexivity|]. now intros ? [= <-].
    - exists []. rewrite od_values_set_fresh by exact Hfresh1.
      split; [reflexivity|discriminate]. }
  destruct Hvalues as (rest & Hvalues & Hrest). split.
  - intros Hex.
    assert (Hsame : daily_calorie_goal_local (od_values (health_goals w'))
                    = daily_calorie_goal_local (od_values (health_goals w)))
      by (rewrite Hvalues; now apply daily_calorie_goal_local_app).
    split; [exact Hsame|]. intros st2 Hc2.
    rewrite (get_food_log_local w st1 Hc).
    rewrite (get_food_log_local w' st2) by (now rewrite Hst).
    cbn [fst]. rewrite Hsame.
    pose proof (run_frame (AddHealthGoal goal_type target_value description
                             daily_calorie_goal) w) as Hlogs.
    cbn [run] in Hlogs. fold w' in Hlogs. rewrite Hlogs.
    assert (Htoday : today_iso w' = today_iso w).
    { subst w'. clear. destruct w as [st g l today now src n].
      destruct daily_calorie_goal as [dcg|]; unfold_tool; world_simpl; case_all;
        reflexivity. }
    now rewrite Htoday.
  - intros dcg Hnone Hty Hdcg Hnz. rewrite Hvalues, (Hrest dcg Hdcg Hnz).
    rewrite daily_calorie_goal_local_none by exact Hnone.
    cbn [daily_calorie_goal_local]. unfold dict_get at 1.
    change (goal !! "goal_type") with (Some (VStr (str_lower goal_type))).
    cbn [py_eq]. apply String.eqb_neq in Hty. rewrite Hty. reflexivity.
Qed.

Lemma first_calorie_goal_stays_in_force_witness :
  let w' := snd (add_health_goal offline "steps" 10000 None (Some 1500)
                   world_with_goal_2000) in
  daily_calorie_goal_local (od_values (health_goals w')) = VInt 2000
  /\ length (health_goals w') = 4%nat.
Proof.
  intros w'. split; [|reflexivity].
  destruct (first_calorie_goal_stays_in_force (sb:=offline) world_with_goal_2000 tt
              "steps" 10000 None (Some 1500) eq_refl eq_refl eq_refl)
    as [Hkept _]; [vm_compute; discriminate|].
  destruct Hkept as [Hsame _]; [|exact Hsame].
  apply Exists_cons_tl, Exists_cons_hd. reflexivity.
Defined.

(** X13. Goal types and meal types are stored in lower case and shown in
    title case. For ASCII text, the title of the stored type, which the
    listings show, is the title of the type as it was given, which the
    confirmations show; and a type that is stored again is stored as it
    is. *)
Theorem titles_ignore_case (s : string) :
  ascii_text s ->
  str_title (str_lower s) = str_title s /\ str_lower (str_lower s) = str_lower s.
Proof. intros _. split; [apply str_title_lower|apply str_lower_idem]. Qed.

Lemma titles_ignore_case_witness :
  str_title (str_lower "mid-Morning SNACK") = "Mid-Morning Snack"
  /\ str_lower (str_lower "mid-Morning SNACK") = "mid-morning snack".
Proof.
  apply (titles_ignore_case "mid-Morning SNACK").
  unfold ascii_text. cbn [list_ascii_of_string].
  repeat (constructor; [apply Nat.ltb_lt; reflexivity|]). constructor.
Defined.

(** X14. The commentary on an int daily calorie goal [goal] other than 0
    and an int total, when the progress can be computed: the remaining
    amount [goal - total] is reported when the total is below the goal, and
    otherwise the amount [total - goal] by which the goal is exceeded; a
    total that meets the goal exactly is reported as over by 0. *)
Theorem calorie_goal_figure (total goal : Z) (q : float) :
  goal <> 0 ->
  Z_truediv total goal = Ok q ->
  goal_commentary (NInt total) (VInt goal) =
    Ok (nl ++ nl ++ "Daily Calorie Goal: " ++ str_of_Z goal ++ " calories"
        ++ nl ++ "Progress: " ++ float_format_1f (q * 100) ++ "%"
        ++ nl ++ (if total <? goal
                  then "Remaining: " ++ str_of_Z (goal - total)
                  else "Over goal by: " ++ str_of_Z (total - goal))
        ++ " calories").
Proof.
  intros Hnz Hq. unfold goal_commentary. cbn [py_truthy].
  apply Z.eqb_neq in Hnz. rewrite Hnz. cbn [negb of_num py_truediv as_num].
  rewrite Hq. cbn [mbind Res_bind py_sub as_num num_gt_int num_abs of_num py_str].
  rewrite Z.gtb_ltb. replace (0 <? goal - total) with (total <? goal)
    by (destruct (Z.ltb_spec total goal), (Z.ltb_spec 0 (goal - total)); lia || reflexivity).
  destruct (Z.ltb_spec total goal) as [Hlt|Hge].
  - now rewrite !append_assoc.
  - replace (Z.abs (goal - total)) with (total - goal) by lia.
    now rewrite !append_assoc.
Qed.

Lemma calorie_goal_figure_witness :
  goal_commentary (NInt 2000) (VInt 2000) =
    Ok (nl ++ nl ++ "Daily Calorie Goal: 2000 calories"
        ++ nl ++ "Progress: 100.0%"
        ++ nl ++ "Over goal by: 0 calories").
Proof.
  exact (calorie_goal_figure 2000 2000 1 ltac:(discriminate) eq_refl).
Defined.

(** *** The remote branch of the listings *)

Section remote_runs.
Context {sb : Supabase.manager}.
Implicit Types (w : World sb) (st : Supabase.state sb).

(** The goal check of the remote branch, when the manager returns the
    goals: a failure of the arithmetic leaves the text as it was. *)
Lemma remote_goal_check_goals w st2 (goals : list dict) (total : num) (result : string) :
  Supabase.get_health_goals sb (supabase_manager w) = (Ok goals, st2) ->
  remote_goal_check sb total result w =
    (Ok match goal_commentary total (daily_calorie_goal_remote goals) with
        | Ok text => result ++ text
        | Raise _ => result
        end,
     set_supabase_manager st2 w).
Proof.
  intros Hgoals. destruct w as [st g l today now src n]. world_simpl.
  unfold_tool. world_simpl. rewrite Hgoals.
  destruct (goal_commentary _ _); reflexivity.
Qed.

(** The remote branch of [get_food_log], up to the goal check. *)
Lemma get_food_log_remote w st1 st2 (rows : list dict) :
  Supabase.is_connected sb (supabase_manager w) = (Ok true, st1) ->
  Supabase.get_food_logs sb (today_iso w) st1 = (Ok rows, st2) ->
  get_food_log sb w =
    match rows with
    | [] => (Ok "No food logged today", set_supabase_manager st2 w)
    | _ =>
        match render_food_log "Today's Food Log" rows with
        | Ok (result, total_calories) =>
            remote_goal_check sb total_calories result (set_supabase_manager st2 w)
        | Raise e =>
            (Ok ("Error getting food log: " ++ exn_str e), set_supabase_manager st2 w)
        end
    end.
Proof.
  intros Hc Hrows. destruct w as [st g l today now src n]. world_simpl.
  unfold_tool. world_simpl. rewrite Hc. world_simpl. rewrite Hrows.
  destruct rows as [|row rows]; [reflexivity|].
  destruct (render_food_log _ _) as [[r t]|e]; [|reflexivity].
  world_simpl. destruct (Supabase.get_health_goals sb st2) as [[goals|e] st3];
    [|reflexivity].
  destruct (goal_commentary _ _); reflexivity.
Qed.

(** The remote branch of [add_food_log], up to the goal check. *)
Lemma add_food_log_remote w st1 st2 st3 meal_type food_item calories (food_id : string)
    (rows : list dict) :
  Supabase.is_connected sb (supabase_manager w) = (Ok true, st1) ->
  Supabase.add_food_log sb
    (remote_food_data meal_type food_item calories (today_iso w)) st1
    = (Ok food_id, st2) ->
  Supabase.get_food_logs sb (today_iso w) st2 = (Ok rows, st3) ->
  add_food_log sb meal_type food_item calories w =
    match sum_calories rows with
    | Ok total_calories =>
        remote_goal_check sb total_calories
          ("Food logged successfully!" ++ nl ++ nl
           ++ "Meal: " ++ str_title meal_type ++ nl
           ++ "Food: " ++ food_item ++ nl
           ++ calories_line calories
           ++ nl ++ "Today's Total Calories: " ++ py_str (of_num total_calories))
          (set_supabase_manager st3 w)
    | Raise e => (Ok ("Error adding food log: " ++ exn_str e), set_supabase_manager st3 w)
    end.
Proof.
  intros Hc Hadd Hrows. destruct w as [st g l today now src n]. world_simpl.
  unfold_tool. world_simpl. rewrite Hc. world_simpl. rewrite Hadd. world_simpl.
  rewrite Hrows. world_simpl.
  destruct (sum_calories rows) as [t|e]; [|reflexivity].
  world_simpl. destruct (Supabase.get_health_goals sb st3) as [[goals|e] st4];
    [|reflexivity].
  destruct (goal_commentary _ _); reflexivity.
Qed.

End remote_runs.

(** X15. The listing of [get_health_goals] is all or nothing. In the remote
    branch, when the block of one of the returned goals cannot be built,
    the call returns the error text for the first such goal and no block at
    all, also not those of the goals before it. A goal without a
    ["target_value"] gives the text of the [KeyError], and one whose target
    is [None] the text of the [TypeError] of the comparison. *)
Theorem listing_is_all_or_nothing {sb : Supabase.manager} (w : World sb)
    (st1 st2 : Supabase.state sb) (before after : list dict) (goal : dict) (e : exn) :
  Supabase.is_connected sb (supabase_manager w) = (Ok true, st1) ->
  Supabase.get_health_goals sb st1 = (Ok (before ++ goal :: after)%list, st2) ->
  Forall (fun g => exists block, render_goal g = Ok block) before ->
  render_goal goal = Raise e ->
  get_health_goals sb w =
    (Ok ("Error getting health goals: " ++ exn_str e), set_supabase_manager st2 w)
  /\ (goal !! "target_value" = None -> e = KeyError "target_value")
  /\ (goal !! "target_value" = Some VNone ->
      e = TypeError "'>' not supported between instances of 'NoneType' and 'int'").
Proof.
  intros Hc Hrows Hbefore Hgoal. split; [|split].
  - rewrite (get_health_goals_remote w st1 st2 _ Hc Hrows).
    rewrite render_goals_app.
    destruct (render_goals_all before ("Active Health Goals" ++ nl ++ nl) Hbefore)
      as [rest ->].
    cbn [mbind Res_bind render_goals]. rewrite Hgoal. cbn [mbind Res_bind].
    destruct (before ++ goal :: after)%list eqn:E;
      [now apply app_eq_nil in E as [_ ?]|reflexivity].
  - intros Hnone. unfold render_goal, goal_progress, dict_item in Hgoal.
    rewrite Hnone in Hgoal. now injection Hgoal as <-.
  - intros Hnone. unfold render_goal, goal_progress, dict_item in Hgoal.
    rewrite Hnone in Hgoal. now injection Hgoal as <-.
Qed.

Lemma listing_is_all_or_nothing_witness :
  get_health_goals scripted (sample_world (sb:=scripted) goal_without_target) =
    (Ok "Error getting health goals: 'target_value'",
     sample_world (sb:=scripted) goal_without_target).
Proof.
  refine (proj1 (listing_is_all_or_nothing (sb:=scripted)
                   (sample_world (sb:=scripted) goal_without_target)
                   goal_without_target goal_without_target
                   [<["goal_id" := VStr "goal-1"]> (remote_goal_data "steps" 10000 None)]
                   []
                   (delete "target_value"
                      (<["goal_id" := VStr "goal-2"]> (remote_goal_data "weight" 70 None)))
                   (KeyError "target_value") eq_refl eq_refl _ eq_refl)).
  constructor; [|constructor]. eexists. vm_compute. reflexivity.
Defined.

(** X16. The remote branch of the food tools, when the manager returns
    well-formed entries that all have calories, and then the goals:
    [add_food_log] reports as the day's total the sum of the calories of
    the returned entries, which need not include the entry just added, and
    [get_food_log] returns the same listing as the fallback branch under
    the header of the remote branch; both end with the commentary on the
    first active daily calorie goal, or without commentary when computing
    it fails. *)
Theorem remote_food_listing {sb : Supabase.manager} (w : World sb)
    (st1 st2 st3 : Supabase.state sb) (rows goals : list dict) :
  Supabase.is_connected sb (supabase_manager w) = (Ok true, st1) ->
  Forall stored_food rows -> Forall has_calories rows -> rows <> [] ->
  let commentary :=
    match goal_commentary (NInt (total_of rows)) (daily_calorie_goal_remote goals) with
    | Ok text => text
    | Raise _ => EmptyString
    end in
  (Supabase.get_food_logs sb (today_iso w) st1 = (Ok rows, st2) ->
   Supabase.get_health_goals sb st2 = (Ok goals, st3) ->
   get_food_log sb w =
     (Ok ("Today's Food Log" ++ nl ++ nl
          ++ String.concat EmptyString (map meal_block (meal_groups rows))
          ++ "Daily Total: " ++ str_of_Z (total_of rows) ++ " calories"
          ++ commentary),
      set_supabase_manager st3 w))
  /\ (forall (meal_type food_item food_id : string) (calories : option Z)
        (st1' : Supabase.state sb),
      Supabase.add_food_log sb
        (remote_food_data meal_type food_item calories (today_iso w)) st1
        = (Ok food_id, st1') ->
      Supabase.get_food_logs sb (today_iso w) st1' = (Ok rows, st2) ->
      Supabase.get_health_goals sb st2 = (Ok goals, st3) ->
      add_food_log sb meal_type food_item calories w =
        (Ok ("Food logged successfully!" ++ nl ++ nl
             ++ "Meal: " ++ str_title meal_type ++ nl
             ++ "Food: " ++ food_item ++ nl
             ++ calories_line calories
             ++ nl ++ "Today's Total Calories: " ++ str_of_Z (total_of rows)
             ++ commentary),
         set_supabase_manager st3 w)).
Proof.
  intros Hc Hstored Hcal Hne commentary. split.
  - intros Hrows Hgoals.
    rewrite (get_food_log_remote w st1 st2 rows Hc Hrows).
    rewrite (render_food_log_ints _ rows Hstored Hcal).
    rewrite (remote_goal_check_goals (set_supabase_manager st2 w) st3 goals)
      by exact Hgoals.
    destruct rows as [|row rest]; [contradiction|]. subst commentary.
    destruct w as [st g l today now src n]. world_simpl.
    destruct (goal_commentary _ _); do 2 f_equal;
      rewrite ?append_nil_r, ?append_assoc; reflexivity.
  - intros meal_type food_item food_id calories st1' Hadd Hrows Hgoals.
    rewrite (add_food_log_remote w st1 st1' st2 meal_type food_item calories food_id
               rows Hc Hadd Hrows).
    rewrite (sum_calories_ints rows Hcal).
    rewrite (remote_goal_check_goals (set_supabase_manager st2 w) st3 goals)
      by exact Hgoals.
    subst commentary. cbn [of_num py_str].
    destruct w as [st g l today now src n]. world_simpl.
    destruct (goal_commentary _ _); do 2 f_equal;
      rewrite ?append_nil_r, ?append_assoc; reflexivity.
Qed.

Lemma remote_food_listing_witness :
  get_food_log scripted (sample_world (sb:=scripted) two_entries) =
    (Ok ("Today's Food Log" ++ nl ++ nl
         ++ ("Lunch" ++ nl ++ "  rice (500 cal)" ++ nl
             ++ "  Meal Total: 500 calories" ++ nl ++ nl
             ++ "Dinner" ++ nl ++ "  pasta (700 cal)" ++ nl
             ++ "  Meal Total: 700 calories" ++ nl ++ nl)
         ++ "Daily Total: 1200 calories"
         ++ nl ++ nl ++ "Daily Calorie Goal: 2000.0 calories"
         ++ nl ++ "Progress: 60.0%"
         ++ nl ++ "Remaining: 800.0 calories"),
     sample_world (sb:=scripted) two_entries).
Proof.
  refine (proj1 (remote_food_listing (sb:=scripted)
                   (sample_world (sb:=scripted) two_entries)
                   two_entries two_entries two_entries
                   [remote_food_data "lunch" "rice" (Some 500) "2025-01-15";
                    remote_food_data "dinner" "pasta" (Some 700) "2025-01-15"]
                   [<["goal_id" := VStr "goal-1"]> (remote_calorie_goal_data 2000)]
                   eq_refl _ _ _) eq_refl eq_refl).
  - repeat (constructor; [repeat split; eauto|]). constructor.
  - repeat (constructor; [eexists; reflexivity|]). constructor.
  - discriminate.
Defined.

(** X17. The remote branch of the food tools, when the manager returns
    well-formed entries of which one has no calories, as an entry that
    [add_food_log] submitted without calories has: [add_food_log], after
    the entry has been submitted, and [get_food_log] return the text of a
    [TypeError] in place of the confirmation and of the listing. *)
Theorem remote_missing_calories {sb : Supabase.manager} (w : World sb)
    (st1 st2 : Supabase.state sb) (rows : list dict) :
  Supabase.is_connected sb (supabase_manager w) = (Ok true, st1) ->
  Forall stored_food rows -> Exists missing_calories rows ->
  (Supabase.get_food_logs sb (today_iso w) st1 = (Ok rows, st2) ->
   get_food_log sb w =
     (Ok "Error getting food log: unsupported operand type(s) for +=: 'int' and 'NoneType'",
      set_supabase_manager st2 w))
  /\ (forall (meal_type food_item food_id : string) (calories : option Z)
        (st1' : Supabase.state sb),
      Supabase.add_food_log sb
        (remote_food_data meal_type food_item calories (today_iso w)) st1
        = (Ok food_id, st1') ->
      Supabase.get_food_logs sb (today_iso w) st1' = (Ok rows, st2) ->
      add_food_log sb meal_type food_item calories w =
        (Ok "Error adding food log: unsupported operand type(s) for +: 'int' and 'NoneType'",
         set_supabase_manager st2 w))
  /\ (forall (meal_type food_item today : string),
        stored_food (remote_food_data meal_type food_item None today)
        /\ missing_calories (remote_food_data meal_type food_item None today)).
Proof.
  intros Hc Hstored Hex. split; [|split].
  - intros Hrows. rewrite (get_food_log_remote w st1 st2 rows Hc Hrows).
    rewrite (render_food_log_none _ rows Hstored Hex).
    destruct rows; [now apply Exists_nil in Hex|reflexivity].
  - intros meal_type food_item food_id calories st1' Hadd Hrows.
    rewrite (add_food_log_remote w st1 st1' st2 meal_type food_item calories food_id
               rows Hc Hadd Hrows).
    now rewrite (sum_calories_none rows Hstored Hex).
  - intros meal_type food_item today. split; [|reflexivity].
    repeat split; eauto.
Qed.

Lemma remote_missing_calories_witness :
  get_food_log scripted (sample_world (sb:=scripted) entry_without_calories) =
    (Ok "Error getting food log: unsupported operand type(s) for +=: 'int' and 'NoneType'",
     sample_world (sb:=scripted) entry_without_calories)
  /\ add_food_log scripted "dinner" "pasta" (Some 700)
       (sample_world (sb:=scripted) entry_without_calories) =
       (Ok "Error adding food log: unsupported operand type(s) for +: 'int' and 'NoneType'",
        sample_world (sb:=scripted) entry_without_calories).
Proof.
  destruct (remote_missing_calories (sb:=scripted)
              (sample_world (sb:=scripted) entry_without_calories)
              entry_without_calories entry_without_calories
              [remote_food_data "lunch" "rice" (Some 500) "2025-01-15";
               remote_food_data "lunch" "tea" None "2025-01-15"] eq_refl)
    as (Hget & Hadd & _).
  - repeat (constructor; [repeat split; eauto|]). constructor.
  - apply Exists_cons_tl, Exists_cons_hd. reflexivity.
  - split; [exact (Hget eq_refl)|].
    exact (Hadd "dinner" "pasta" "food-3" (Some 700) entry_without_calories
             eq_refl eq_refl).
Defined.

(** *** Inactive goals in the remote branch *)

Lemma daily_calorie_goal_remote_active (goals : list dict) :
  daily_calorie_goal_remote goals
  = daily_calorie_goal_remote (filter (fun goal => is_active goal = true) goals).
Proof.
  induction goals as [|goal goals IH]; [reflexivity|].
  cbn [daily_calorie_goal_remote]. destruct (is_active goal) eqn:Hactive.
  - rewrite filter_cons_True by exact Hactive.
    cbn [daily_calorie_goal_remote]. now rewrite Hactive, IH.
  - rewrite filter_cons_False by (rewrite Hactive; discriminate).
    now rewrite andb_false_r.
Qed.

(** X18. In the remote branch the flag [is_active] is honoured by the goal
    lookup of the food tools and not by the listing of the goals.
    [get_food_log] returns the same text whatever inactive goals the manager
    returns among the goals: only the active goals, in their order, count
    for the daily calorie goal. [get_health_goals] shows a block for every
    goal that the manager returns, active or not. *)
Theorem inactive_goals_in_the_remote_branch {sb : Supabase.manager} (w w2 : World sb)
    (st1 st2 st3 st1' st2' st3' : Supabase.state sb) (rows goals goals2 : list dict) :
  Supabase.is_connected sb (supabase_manager w) = (Ok true, st1) ->
  Supabase.is_connected sb (supabase_manager w2) = (Ok true, st1') ->
  today_iso w2 = today_iso w ->
  (Supabase.get_food_logs sb (today_iso w) st1 = (Ok rows, st2) ->
   Supabase.get_food_logs sb (today_iso w) st1' = (Ok rows, st2') ->
   Supabase.get_health_goals sb st2 = (Ok goals, st3) ->
   Supabase.get_health_goals sb st2' = (Ok goals2, st3') ->
   filter (fun goal => is_active goal = true) goals2
   = filter (fun goal => is_active goal = true) goals ->
   fst (get_food_log sb w2) = fst (get_food_log sb w))
  /\ (Supabase.get_health_goals sb st1 = (Ok goals, st2) ->
      goals <> [] ->
      Forall (fun goal => exists block, render_goal goal = Ok block) goals ->
      exists blocks : list string,
        Forall2 (fun goal block => render_goal goal = Ok block) goals blocks
        /\ fst (get_health_goals sb w) =
             Ok ("Active Health Goals" ++ nl ++ nl ++ String.concat EmptyString blocks)).
Proof.
  intros Hc Hc2 Htoday. split.
  - intros Hrows Hrows2 Hgoals Hgoals2 Hactive.
    rewrite <- Htoday in Hrows2.
    rewrite (get_food_log_remote w st1 st2 rows Hc Hrows).
    rewrite (get_food_log_remote w2 st1' st2' rows Hc2 Hrows2).
    destruct rows as [|row rows]; [reflexivity|].
    destruct (render_food_log _ _) as [[result total]|e]; [|reflexivity].
    rewrite (remote_goal_check_goals (set_supabase_manager st2 w) st3 goals)
      by exact Hgoals.
    rewrite (remote_goal_check_goals (set_supabase_manager st2' w2) st3' goals2)
      by exact Hgoals2.
    cbn [fst]. rewrite (daily_calorie_goal_remote_active goals2), Hactive.
    now rewrite <- daily_calorie_goal_remote_active.
  - intros Hgoals Hne Hrender.
    rewrite (get_health_goals_remote w st1 st2 goals Hc Hgoals). cbn [fst].
    destruct (render_goals_all goals ("Active Health Goals" ++ nl ++ nl) Hrender)
      as [rest Htext].
    destruct (render_goals_blocks _ _ _ Htext) as (blocks & Hblocks & Hrest).
    exists blocks. split; [exact Hblocks|].
    destruct goals; [contradiction|]. rewrite Htext, Hrest.
    now rewrite !append_assoc.
Qed.

Lemma inactive_goals_in_the_remote_branch_witness :
  fst (get_food_log scripted (sample_world (sb:=scripted) inactive_goal_first))
  = fst (get_food_log scripted (sample_world (sb:=scripted) active_goal_alone)).
Proof.
  exact (proj1 (inactive_goals_in_the_remote_branch (sb:=scripted)
                  (sample_world (sb:=scripted) active_goal_alone)
                  (sample_world (sb:=scripted) inactive_goal_first)
                  active_goal_alone active_goal_alone active_goal_alone
                  inactive_goal_first inactive_goal_first inactive_goal_first
                  [remote_food_data "lunch" "rice" (Some 500) "2025-01-15"]
                  [<["goal_id" := VStr "goal-2"]> (remote_calorie_goal_data 2000)]
                  [<["is_active" := VBool false]>
                     (<["goal_id" := VStr "goal-1"]> (remote_calorie_goal_data 1500));
                   <["goal_id" := VStr "goal-2"]> (remote_calorie_goal_data 2000)]
                  eq_refl eq_refl eq_refl)
           eq_refl eq_refl eq_refl eq_refl eq_refl).
Defined.

(** *** Entries with 0 calories and entries without calories *)

(** C10. The fallback branch, on a well-formed log whose entries of today
    all have calories. The formatting tests truthiness, so it gives no
    [Calories:] line and no [(... cal)] suffix for 0 and for [None] alike.
    An entry logged with calories 0 is shown so: the confirmation has no
    [Calories:] line, and the listing has the line of the entry with the
    food item alone. An entry logged without calories is not shown at all:
    it is stored with [None] under ["calories"], the sums fail on it, and
    [add_food_log] and then [get_food_log] return the text of the
    [TypeError] in place of the confirmation and of the listing. *)
Theorem zero_calories_and_no_calories {sb : Supabase.manager} (w : World sb)
    (st1 st2 : Supabase.state sb) (meal_type food_item : string)
    (commentary : string) :
  Forall stored_food (food_logs w) ->
  Supabase.is_connected sb (supabase_manager w) = (Ok false, st1) ->
  Supabase.is_connected sb st1 = (Ok false, st2) ->
  let today_foods :=
    filter (fun food => on_date (today_iso w) food = true) (food_logs w) in
  let entry :=
    local_food_data (uuid_source w (uuid_count w)) meal_type food_item (Some 0)
      (today_iso w) (now_iso w) in
  let blocks :=
    String.concat EmptyString (map meal_block (meal_groups (today_foods ++ [entry]))) in
  Forall has_calories today_foods ->
  goal_commentary (NInt (total_of today_foods))
    (daily_calorie_goal_local (od_values (health_goals w))) = Ok commentary ->
  (calories_line (Some 0) = EmptyString
   /\ calories_line None = EmptyString
   /\ forall food : dict,
        food !! "calories" = Some (VInt 0) \/ food !! "calories" = Some VNone ->
        calories_suffix food = Ok EmptyString)
  /\ (fst (add_food_log sb meal_type food_item (Some 0) w) =
        Ok ("Food logged successfully! (Local Storage)" ++ nl ++ nl
            ++ "Meal: " ++ str_title meal_type ++ nl
            ++ "Food: " ++ food_item ++ nl
            ++ nl ++ "Today's Total Calories: " ++ str_of_Z (total_of today_foods)
            ++ commentary)
      /\ fst (get_food_log sb (snd (add_food_log sb meal_type food_item (Some 0) w))) =
           Ok ("Today's Food Log (Local Storage)" ++ nl ++ nl ++ blocks
               ++ "Daily Total: " ++ str_of_Z (total_of today_foods) ++ " calories"
               ++ commentary)
      /\ food_line entry = "  " ++ food_item ++ nl
      /\ contains (food_line entry) blocks)
  /\ (fst (add_food_log sb meal_type food_item None w) =
        Ok "Error adding food log: unsupported operand type(s) for +: 'int' and 'NoneType'"
      /\ fst (get_food_log sb (snd (add_food_log sb meal_type food_item None w))) =
           Ok "Error getting food log: unsupported operand type(s) for +=: 'int' and 'NoneType'").
Proof.
  intros Hstored Hc1 Hc2 today_foods entry blocks Hcal Hcomm.
  split; [|split].
  - split; [reflexivity|]. split; [reflexivity|].
    intros food Hfood. unfold calories_suffix, dict_get.
    destruct Hfood as [-> | ->]; reflexivity.
  - pose proof (add_then_get_food_log_local w st1 st2 meal_type food_item 0 commentary
                  Hstored Hc1 Hc2) as H.
    cbv zeta in H. rewrite Z.add_0_r in H.
    destruct (H Hcal Hcomm) as (Hadd & Hget & Hline & Hin).
    split; [exact Hadd|]. split; [exact Hget|]. split; [exact Hline|exact Hin].
  - set (food_data := local_food_data (uuid_source w (uuid_count w)) meal_type food_item
                        None (today_iso w) (now_iso w)).
    assert (Hex : Exists (fun food => on_date (today_iso w) food = true
                                      /\ missing_calories food)
                    (food_logs w ++ [food_data])).
    { apply Exists_app. right. constructor. split; [|reflexivity].
      apply local_food_data_on_date. }
    assert (Hstored' : Forall stored_food (food_logs w ++ [food_data]))
      by (apply Forall_app; split; [exact Hstored|];
          constructor; [apply local_food_data_stored|constructor]).
    rewrite (add_food_log_local_none w st1 meal_type food_item None Hstored Hc1 Hex).
    fold food_data. cbn [fst snd]. split; [reflexivity|].
    set (w1 := set_food_logs (food_logs w ++ [food_data])
                 (set_uuid_count (S (uuid_count w)) (set_supabase_manager st1 w))).
    assert (Hc : Supabase.is_connected sb (supabase_manager w1) = (Ok false, st2))
      by exact Hc2.
    assert (Hstored1 : Forall stored_food (food_logs w1)) by exact Hstored'.
    rewrite (get_food_log_local_stored w1 st2 Hstored1 Hc). cbn [fst].
    change (today_iso w1) with (today_iso w).
    change (food_logs w1) with (food_logs w ++ [food_data])%list.
    pose proof (Exists_filter_on_date _ _ Hex) as Hnone.
    pose proof (Forall_filter_stored (today_iso w) _ Hstored') as Hfiltered.
    rewrite (render_food_log_none _ _ Hfiltered Hnone).
    destruct (filter _ (food_logs w ++ [food_data])%list);
      [now apply Exists_nil in Hnone|reflexivity].
Qed.

Lemma zero_calories_and_no_calories_witness :
  (fst (add_food_log offline "lunch" "rice" (Some 0) offline_world) =
     Ok ("Food logged successfully! (Local Storage)" ++ nl ++ nl
         ++ "Meal: Lunch" ++ nl ++ "Food: rice" ++ nl
         ++ nl ++ "Today's Total Calories: 0")
   /\ fst (get_food_log offline
             (snd (add_food_log offline "lunch" "rice" (Some 0) offline_world))) =
        Ok ("Today's Food Log (Local Storage)" ++ nl ++ nl
            ++ ("Lunch" ++ nl ++ "  rice" ++ nl ++ nl)
            ++ "Daily Total: 0 calories"))
  /\ (fst (add_food_log offline "lunch" "rice" None offline_world) =
        Ok "Error adding food log: unsupported operand type(s) for +: 'int' and 'NoneType'"
      /\ fst (get_food_log offline
                (snd (add_food_log offline "lunch" "rice" None offline_world))) =
           Ok "Error getting food log: unsupported operand type(s) for +=: 'int' and 'NoneType'").
Proof.
  destruct (zero_calories_and_no_calories (sb:=offline) offline_world tt tt
              "lunch" "rice" EmptyString (List.Forall_nil _) eq_refl eq_refl
              (List.Forall_nil _) eq_refl)
    as (_ & (Hadd & Hget & _) & Hnone).
  split; [split; [exact Hadd|exact Hget]|exact Hnone].
Defined.
